(** * Kill calculator of lol_assistant: a shallow embedding and its properties

    The development follows the three data modules and the calculator:
    - [data/champion_stats.py]   (section "Champion base stats"),
    - [data/item_stats.py]       (section "Item stats"),
    - [data/champion_combos.py]  (section "Combos"),
    - [modules/kill_calculator.py] (section "Kill calculator").

    Number model.  Python [int] is [Z].  Python [float] is modelled by the
    exact rationals [Q]: every constant of the source ([4.7], [0.08], ...) is
    the rational it denotes in decimal, and [+ - * /] are exact.  Equality of
    floats is [Qeq] ([==]).  Rounding of binary64 arithmetic is not part of
    this model: the properties stated over it are those that rounding to
    nearest keeps (bounds that are not strict, monotonicity, relations
    between values that the code computes itself), for numbers that the
    program converts to [float] without an [OverflowError].  Where rounding
    decides what the program returns, the source is evaluated on the kernel's
    binary64 floats as well (module [Binary64]).

    Dictionaries are [gmap string _]; a dictionary with a fixed set of
    optional keys (the snapshots built by [live_client.py]) is a record of
    [option] fields, [None] standing for an absent key.  Exceptions are the
    [Raise] results of the [py] monad.

    The three warning lists of the result hold constructors that carry the
    data of each formatted message; the pause reason and the combo label are
    the strings of the source.  [calculate_kill_chance_locals] is
    [calculate_kill_chance] returning, next to the result, the local
    variables of the evaluation that the result does not keep. *)

From Stdlib Require Import QArith ZArith String Ascii List Lqa Lia Bool.
From Stdlib Require Import Qround.
From Stdlib Require PrimFloat.
From stdpp Require Import base option list gmap strings pretty.
Import ListNotations.

Local Open Scope Z_scope.
Local Open Scope Q_scope.
Local Open Scope string_scope.

(** ** Python values and exceptions *)

Inductive exn : Type :=
| KeyError (key : string)
| IndexError.

Inductive py (A : Type) : Type :=
| Ok (a : A)
| Raise (e : exn).
Arguments Ok {A} a.
Arguments Raise {A} e.

#[global] Instance py_ret : MRet py := fun A a => Ok a.

#[global] Instance py_bind : MBind py := fun A B k m =>
  match m with
  | Ok a => k a
  | Raise e => Raise e
  end.

(** [d[key]] on a dictionary: [KeyError] when the key is absent. *)
Definition dict_index {V : Type} (d : gmap string V) (key : string) : py V :=
  match d !! key with
  | Some v => Ok v
  | None => Raise (KeyError key)
  end.

(** [l[i]] on a list, with Python's negative indices. *)
Definition list_index {A : Type} (l : list A) (i : Z) : py A :=
  let n := Z.of_nat (length l) in
  let j := if (i <? 0)%Z then (n + i)%Z else i in
  if ((0 <=? j)%Z && (j <? n)%Z)%bool
  then match l !! Z.to_nat j with
       | Some x => Ok x
       | None => Raise IndexError
       end
  else Raise IndexError.

(** Comparisons of floats as booleans. *)
Definition Qleb (a b : Q) : bool := Qle_bool a b.
Definition Qltb (a b : Q) : bool := negb (Qle_bool b a).
Definition Qgeb (a b : Q) : bool := Qleb b a.
Definition Qgtb (a b : Q) : bool := Qltb b a.

(** [max(a, b)] and [min(a, b)]: the first argument is kept unless the
    second is strictly larger (smaller). *)
Definition py_max (a b : Q) : Q := if Qgtb b a then b else a.
Definition py_min (a b : Q) : Q := if Qltb b a then b else a.

(** Truth value of a number: [0] is false. *)
Definition truthy (q : Q) : bool := negb (Qeq_bool q 0).

(** [round(x)] to an integer, ties to even. *)
Definition round_half_even (x : Q) : Z :=
  let f := Qfloor x in
  match Qcompare (x - inject_Z f) (1 # 2) with
  | Lt => f
  | Gt => (f + 1)%Z
  | Eq => if Z.even f then f else (f + 1)%Z
  end.

(** [round(x, n)]. *)
Definition py_round (x : Q) (n : nat) : Q :=
  inject_Z (round_half_even (x * inject_Z (10 ^ Z.of_nat n)))
  / inject_Z (10 ^ Z.of_nat n).

(** [int(x)]: truncation toward zero. *)
Definition py_int (x : Q) : Z := Z.quot (Qnum x) (Zpos (Qden x)).

(** ** Strings: [str.lower] and [str.replace] for one-character patterns
    (ASCII strings). *)

Definition lower_char (c : ascii) : ascii :=
  let n := nat_of_ascii c in
  if ((65 <=? n)%nat && (n <=? 90)%nat)%bool then ascii_of_nat (n + 32) else c.

Fixpoint lower (s : string) : string :=
  match s with
  | EmptyString => EmptyString
  | String c s' => String (lower_char c) (lower s')
  end.

Fixpoint replace (old : ascii) (new : string) (s : string) : string :=
  match s with
  | EmptyString => EmptyString
  | String c s' =>
      if Ascii.eqb c old then new ++ replace old new s'
      else String c (replace old new s')
  end.

(** [str(z)] for an [int]. *)
Definition str_of_Z (z : Z) : string := pretty z.

(** ** Champion base stats ([data/champion_stats.py]) *)

Module ChampionStats.

Record entry : Type := mk {
  base_armor : Q; armor_per_level : Q;
  base_mr : Q;    mr_per_level : Q;
  base_hp : Q;    hp_per_level : Q
}.

Definition table : list (string * entry) := [
  ("belveth",      mk 21 4.7 32 2.05 640 105);
  ("khazix",       mk 21 4.2 32 2.05 585 100);
  ("jarvaniv",     mk 36 4.6 32 2.05 592 100);
  ("vi",           mk 33 4.7 32 2.05 613 95);
  ("nocturne",     mk 33 4.2 32 2.05 582 85);
  ("warwick",      mk 33 4.7 32 2.05 653 99);
  ("masteryi",     mk 33 3.5 32 1.25 654 99);
  ("ekko",         mk 24 4.2 32 2.05 655 109);
  ("elise",        mk 24 4.0 32 1.25 553 92);
  ("briar",        mk 26 4.7 32 2.05 645 114);
  ("graves",       mk 30 4.0 32 2.05 570 95);
  ("xinzhao",      mk 33 4.2 32 2.05 600 100);
  ("reksai",       mk 36 4.7 32 2.05 575 85);
  ("fiddlesticks", mk 21 4.0 40 2.05 580 102);
  ("shaco",        mk 21 3.5 32 1.25 560 90);
  ("viego",        mk 33 4.7 32 2.05 600 100);
  ("hecarim",      mk 31 4.7 32 2.05 593 93);
  ("darius",       mk 39 4.0 32 2.05 650 114);
  ("kayle",        mk 26 4.0 32 1.25 610 103);
  ("veigar",       mk 18 4.0 30 0.5 550 104);
  ("lucian",       mk 28 4.7 30 0.5 600 95);
  ("nautilus",     mk 46 4.7 32 2.05 648 109);
  ("malzahar",     mk 19 4.0 30 0.5 580 95);
  ("aphelios",     mk 21 4.2 30 0.5 530 92);
  ("_default",     mk 28 4.0 32 1.5 580 95)
].

Definition CHAMPION_STATS : gmap string entry := list_to_map table.

(** [champion_name.lower().replace("'", "").replace(" ", "").replace(".", "")] *)
Definition normalize (champion_name : string) : string :=
  replace "." "" (replace " " "" (replace "'" "" (lower champion_name))).

(** [CHAMPION_STATS.get(key, CHAMPION_STATS["_default"])]: the default
    argument is evaluated first, so a missing ["_default"] would raise. *)
Definition get_champion_stats (champion_name : string) : py entry :=
  let key := normalize champion_name in
  dflt ← dict_index CHAMPION_STATS "_default";
  Ok (default dflt (CHAMPION_STATS !! key)).

Record level_stats : Type := mk_level_stats {
  armor : Q; mr : Q; max_hp : Q
}.

Definition clamp_level (level : Z) : Z := Z.max 1 (Z.min 18 level).

Definition calculate_stats_at_level (champion_name : string) (level : Z)
  : py level_stats :=
  stats ← get_champion_stats champion_name;
  let lvl := clamp_level level in
  Ok {| armor  := base_armor stats + armor_per_level stats * inject_Z (lvl - 1);
        mr     := base_mr stats    + mr_per_level stats    * inject_Z (lvl - 1);
        max_hp := base_hp stats    + hp_per_level stats    * inject_Z (lvl - 1) |}.

End ChampionStats.

(** ** Item stats ([data/item_stats.py]) *)

Module ItemStats.

(** The value under ["passive_shield"] is a number or a string. *)
Inductive shield_val : Type :=
| ShieldNum (q : Q)
| ShieldStr (s : string).

(** One value of [ITEM_STATS]; every key is optional. *)
Record entry : Type := mk {
  armor : option Q;
  mr : option Q;
  hp : option Q;
  passive_shield : option shield_val;
  active_shield : option Q;
  revive : option bool;
  damage_delay : option Q
}.

(** The empty dictionary [{}]. *)
Definition empty : entry := mk None None None None None None None.

(** An entry with plain stat keys only. *)
Definition plain (a m h : option Q) : entry := mk a m h None None None None.

Definition table : list (string * entry) := [
  ("thornmail",           plain (Some 60) None (Some 350));
  ("randuins_omen",       plain (Some 80) None (Some 400));
  ("frozen_heart",        plain (Some 90) None (Some 0));
  ("iceborn_gauntlet",    plain (Some 50) None (Some 300));
  ("jak_sho",             plain (Some 30) (Some 30) (Some 300));
  ("kaenic_rookern",      plain None (Some 80) (Some 350));
  ("spirit_visage",       plain None (Some 60) (Some 450));
  ("force_of_nature",     plain None (Some 70) (Some 350));
  ("warmogs_armor",       plain None None (Some 1000));
  ("heartsteel",          plain (Some 0) None (Some 800));
  ("gargoyle_stoneplate", mk (Some 60) (Some 60) (Some 150) None (Some 0.40) None None);
  ("sterak_gage",         mk None None (Some 400) (Some (ShieldNum 0.20)) None None None);
  ("immortal_shieldbow",  mk None None (Some 250) (Some (ShieldNum 275)) None None None);
  ("guardian_angel",      mk (Some 40) None None None None (Some true) None);
  ("deaths_dance",        mk (Some 45) None (Some 0) None None None (Some 0.30));
  ("black_cleaver",       plain (Some 0) None (Some 400));
  ("sundered_sky",        plain (Some 0) None (Some 350));
  ("titanic_hydra",       plain (Some 0) None (Some 600));
  ("maw_of_malmortius",   mk None (Some 50) None (Some (ShieldNum 200)) None None None);
  ("edge_of_night",       mk (Some 0) None (Some 250) (Some (ShieldStr "spell")) None None None);
  ("hollow_radiance",     plain None (Some 50) (Some 350));
  ("abyssal_mask",        plain None (Some 0) (Some 500));
  ("blade_of_the_ruined_king", plain None None (Some 0));
  ("trinity_force",       plain None None (Some 200));
  ("stridebreaker",       plain None None (Some 300));
  ("ravenous_hydra",      plain None None (Some 0));
  ("profane_hydra",       plain None None (Some 0));
  ("serpents_fang",       plain None None (Some 0));
  ("lord_dominiks_regards", plain None None (Some 0));
  ("mortal_reminder",     plain None None (Some 0));
  ("the_collector",       plain None None (Some 0));
  ("infinity_edge",       plain None None (Some 0));
  ("kraken_slayer",       plain None None (Some 0))
].

Definition ITEM_STATS : gmap string entry := list_to_map table.

(** One value of [ACTIVE_DAMAGE_ITEMS]. *)
Record active : Type := mk_active {
  damage : Q;
  type : string;
  note : string
}.

Definition ACTIVE_DAMAGE_ITEMS : gmap string active := list_to_map [
  ("galeforce",          mk_active 150 "physical" "dash + damage");
  ("hextech_rocketbelt", mk_active 125 "magic" "dash");
  ("youmuus_ghostblade", mk_active 0 "none" "+MS only");
  ("the_collector",      mk_active 0 "execute" "executes below 5% HP - flag only")
].

(** One value of [SUMMONER_ADJUSTMENTS]. *)
Record adjustment : Type := mk_adj {
  hp_modifier : option Q;
  my_dmg_modifier : option Q;
  label : string
}.

Definition SUMMONER_ADJUSTMENTS : gmap string adjustment := list_to_map [
  ("SummonerBarrier", mk_adj (Some 1.25) None "Barrier");
  ("SummonerHeal",    mk_adj (Some 1.18) None "Heal");
  ("SummonerShield",  mk_adj (Some 1.15) None "Ignite(no adj)");
  ("SummonerExhaust", mk_adj None (Some 0.60) "Exhaust")
].

(** [get_item_stats]: normalize the name, [ITEM_STATS.get(key, {})]. *)
Definition get_item_stats (item_name : string) : entry :=
  let key := replace "-" "_" (replace " " "_" (replace "'" "" (lower item_name))) in
  default empty (ITEM_STATS !! key).

(** [get_active_damage]: the key is
    [item_name.lower().replace("'", "").replace(" ", "_")]; an unknown item
    gives [{}], here [None]. *)
Definition get_active_damage (item_name : string) : option active :=
  let key := replace " " "_" (replace "'" "" (lower item_name)) in
  ACTIVE_DAMAGE_ITEMS !! key.

End ItemStats.

(** ** Combos ([data/champion_combos.py]) *)

Module Combos.

Record component : Type := mk_comp {
  label : string;
  base : list Q;
  ad_ratio : option Q;
  ap_ratio : option Q;
  hp_ratio : option Q;
  type : string;
  rank_index : option string
}.

Record combo : Type := mk_combo {
  combo_label : string;
  spell_order : string;
  damage_components : list component
}.

(** A component with the keys every entry of the source has. *)
Definition comp (l : string) (b : list Q) (ad : Q) (t : string)
  (r : option string) : component :=
  mk_comp l b (Some ad) None None t r.

Definition table : list (string * combo) := [
  ("khazix", mk_combo "E → Q (isolated) → W → AA" "E > Q > W > AA" [
     comp "Q isolated" [70; 95; 120; 145; 170] 1.15 "physical" (Some "q");
     comp "W spike"    [85; 115; 145; 175; 205] 1.0 "physical" (Some "w");
     comp "E leap"     [65; 100; 135; 170; 205] 0.2 "physical" (Some "e");
     comp "AA"         [0] 1.0 "physical" None ]);
  ("jarvaniv", mk_combo "E+Q → W → AA → R" "E+Q > W > AA > R (to trap)" [
     comp "Q knockup"   [80; 130; 180; 230; 280] 1.4 "physical" (Some "q");
     comp "R Cataclysm" [150; 250; 350] 1.5 "physical" (Some "r");
     comp "AA"          [0] 1.0 "physical" None ]);
  ("briar", mk_combo "Q → W (frenzy) → E → W recast" "Q > W > E (charged) > W recast" [
     comp "Q stun"       [60; 85; 110; 135; 160] 0.8 "physical" (Some "q");
     comp "W autos x3"   [0] 3.0 "physical" None;
     comp "E max charge" [140; 215; 290; 365; 440] 2.4 "magic" (Some "e") ]);
  ("warwick", mk_combo "Q → R (suppress) → autos" "R > Q > autos" [
     mk_comp "Q bite"  [0] (Some 0) None (Some 0.06) "magic" (Some "q");
     comp "R suppress" [175; 350; 525] 2.5 "magic" (Some "r");
     comp "autos x3"   [0] 3.0 "physical" None ]);
  ("nocturne", mk_combo "R → AA → Q → E (fear) → AA" "R > AA > Q > E > AA" [
     comp "Q"            [65; 110; 155; 200; 245] 0.85 "physical" (Some "q");
     comp "Passive proc" [0] 1.2 "physical" None;
     comp "AAs x2"       [0] 2.0 "physical" None ]);
  ("masteryi", mk_combo "Q (4 strikes) → autos → E (true dmg)" "Q > E > autos" [
     comp "Q Alpha x4"     [25; 60; 95; 130; 165] (4 * 0.9) "physical" (Some "q");
     comp "E true dmg x3"  [0] (3 * 0.1) "true" None;
     comp "AAs x3"         [0] 3.0 "physical" None ]);
  ("vi", mk_combo "Q → AA → W procs → R → AA" "Q > AA > R > AA" [
     comp "Q max charge" [55; 80; 105; 130; 155] 1.7 "physical" (Some "q");
     comp "R"            [150; 325; 500] 1.4 "physical" (Some "r");
     comp "AAs+W x2"     [0] 2.0 "physical" None ]);
  ("_default", mk_combo "Full combo" "Spell1 > Spell2 > AA" [
     comp "Estimated combo" [300] 2.5 "physical" None ])
].

Definition CHAMPION_COMBOS : gmap string combo := list_to_map table.

(** [champion_name.lower().replace("'", "").replace(" ", "").replace(".", "")] *)
Definition normalize (champion_name : string) : string :=
  replace "." "" (replace " " "" (replace "'" "" (lower champion_name))).

Definition get_combo (champion_name : string) : py combo :=
  let key := normalize champion_name in
  dflt ← dict_index CHAMPION_COMBOS "_default";
  Ok (default dflt (CHAMPION_COMBOS !! key)).

(** [get_base_damage_at_rank]: [rank_idx = min(rank - 1, len(base_list) - 1)],
    then [base_list[rank_idx]] with Python's indexing. *)
Definition rank_idx (rank : Z) (base_list : list Q) : Z :=
  Z.min (rank - 1) (Z.of_nat (length base_list) - 1).

Definition get_base_damage_at_rank (component : component)
  (spell_ranks : gmap string Z) : py Q :=
  match rank_index component with
  | None =>
      match base component with
      | [] => Ok 0
      | b0 :: _ => Ok b0
      end
  | Some idx_key =>
      let rank := default 1%Z (spell_ranks !! idx_key) in
      let base_list := base component in
      list_index base_list (rank_idx rank base_list)
  end.

End Combos.

(** ** Kill calculator ([modules/kill_calculator.py]) *)

(** The attacker snapshot [my_state] (keys read by the calculator). *)
Module Me.
Record t : Type := mk {
  champion : option string;
  level : option Z;
  total_ad : option Q;
  ap : option Q;
  lethality : option Q;
  armor_pen_pct : option Q;
  magic_pen_flat : option Q;
  spell_ranks : option (gmap string Z);
  items : option (list string);
  hp_percent : option Q
}.
End Me.

(** The target snapshot [enemy].  [hp_percent = None] stands for an absent
    key and for the value [None] that [live_client.py] stores: both end as
    full health below. *)
Module Enemy.
Record t : Type := mk {
  champion : option string;
  level : option Z;
  items : option (list string);
  hp_max_real : option Q;
  hp_percent : option Q;
  is_dead : option bool;
  summoners : option (list string)
}.
End Enemy.

Module KillCalc.

Definition THRESHOLD_GO : Q := 0.80.
Definition THRESHOLD_RISKY : Q := 0.60.
Definition MIN_MY_HP_TO_ENGAGE : Q := 0.35.

(** Entries of [result.item_flags]; the text of each is in the comment. *)
Inductive item_flag : Type :=
| FlatShield (item_name : string) (shield_val : Q)
    (* "{item_name}: +{shield_val:.0f} shield" *)
| TextShield (item_name : string) (shield_val : string)
    (* "{item_name}: {shield_val} shield" *)
| DeathsDanceDelay   (* "Death's Dance: 30% dmg delayed" *)
| ReviveFlag         (* "Guardian Angel: revive possible" *)
| ItemCd (text : string).  (* "{ITEM_CD_FLAGS[key]}" *)

(** Entries of [result.summoner_warnings]. *)
Inductive summoner_warning : Type :=
| HpModifier (label : string) (hp_modifier : Q)
    (* "{label}: x{hp_modifier} effective HP" *)
| DmgModifier (label : string) (my_dmg_modifier : Q).
    (* "{label}: your dmg x{my_dmg_modifier}" *)

(** Entries of [result.flags]. *)
Inductive flag : Type :=
| SoloEngage.  (* "Solo engage - watch for Phase Rush / Flash escape" *)

Record KillCalcResult : Type := mk_result {
  enemy_champion : string;
  my_champion : string;
  raw_damage : Q;
  real_damage : Q;
  active_item_damage : Q;
  enemy_current_hp : Q;
  enemy_max_hp : Q;
  enemy_hp_percent : Q;
  enemy_effective_hp : Q;
  enemy_armor_used : Q;
  enemy_mr_used : Q;
  kill_ratio : Q;
  confidence : Q;
  verdict : string;
  combo_label : string;
  spell_order : string;
  flags : list flag;
  summoner_warnings : list summoner_warning;
  item_flags : list item_flag;
  paused : bool;
  pause_reason : string
}.

(** [KillCalcResult(enemy_champion=..., my_champion=...)]: the dataclass
    defaults. *)
Definition new_result (enemy_champion my_champion : string) : KillCalcResult :=
  mk_result enemy_champion my_champion 0 0 0 0 0 1 0 0 0 0 0 "NO GO" "" ""
            [] [] [] false "".

Definition set_paused (r : KillCalcResult) (reason : string) : KillCalcResult :=
  mk_result (enemy_champion r) (my_champion r) (raw_damage r) (real_damage r)
    (active_item_damage r) (enemy_current_hp r) (enemy_max_hp r)
    (enemy_hp_percent r) (enemy_effective_hp r) (enemy_armor_used r)
    (enemy_mr_used r) (kill_ratio r) (confidence r) (verdict r)
    (combo_label r) (spell_order r) (flags r) (summoner_warnings r)
    (item_flags r) true reason.

Definition _normalize_item_key (name : string) : string :=
  replace "-" "_" (replace " " "_" (replace "'" "" (lower name))).

Definition _calc_effective_armor (base_armor : Q) (my_state : Me.t) : Q :=
  let lethality := default 0 (Me.lethality my_state) in
  let pen_pct := default 0 (Me.armor_pen_pct my_state) in
  let level := default 1%Z (Me.level my_state) in
  let flat_pen := lethality * (0.6 + 0.4 * inject_Z level / 18) in
  let armor_after_pct := base_armor * (1 - pen_pct) in
  let armor_after_flat := py_max 0 (armor_after_pct - flat_pen) in
  armor_after_flat.

Definition _dmg_reduction (effective_armor : Q) : Q :=
  if Qgeb effective_armor 0
  then 100 / (100 + effective_armor)
  else 2 - 100 / (100 - effective_armor).

Definition _mr_reduction (effective_mr : Q) : Q :=
  100 / (100 + py_max 0 effective_mr).

(** The dictionary returned by [_build_enemy_stats]. *)
Record enemy_stats : Type := mk_enemy_stats {
  armor : Q;
  mr : Q;
  max_hp : Q;
  current_hp : Q;
  hp_percent : Q;
  item_shields : list (string * ItemStats.shield_val);
  item_revive : bool;
  death_dance_flag : bool
}.

(** Truth value of the value under ["passive_shield"]. *)
Definition shield_truthy (v : ItemStats.shield_val) : bool :=
  match v with
  | ItemStats.ShieldNum q => truthy q
  | ItemStats.ShieldStr s => negb (String.eqb s "")
  end.

(** The loop variables of [_build_enemy_stats]. *)
Record build_acc : Type := mk_build_acc {
  b_armor : Q;
  b_mr : Q;
  b_max_hp : Q;
  b_item_shields : list (string * ItemStats.shield_val);
  b_item_revive : bool;
  b_death_dance_flag : bool
}.

(** One iteration of [for item_name in items] in [_build_enemy_stats]. *)
Definition build_item_step (acc : build_acc) (item_name : string) : build_acc :=
  let key := _normalize_item_key item_name in
  let stats := default ItemStats.empty (ItemStats.ITEM_STATS !! key) in
  let armor := b_armor acc + default 0 (ItemStats.armor stats) in
  let mr := b_mr acc + default 0 (ItemStats.mr stats) in
  let max_hp := b_max_hp acc + default 0 (ItemStats.hp stats) in
  let shields1 :=
    match ItemStats.passive_shield stats with
    | Some v => if shield_truthy v
                then (b_item_shields acc ++ [(item_name, v)])%list
                else b_item_shields acc
    | None => b_item_shields acc
    end in
  let shields2 :=
    match ItemStats.active_shield stats with
    | Some a =>
        if truthy a
        then (shields1 ++
              [(item_name,
                ItemStats.ShieldStr
                  ("+" ++ str_of_Z (py_int (a * 100)) ++ "% maxHP")%string)])%list
        else shields1
    | None => shields1
    end in
  let revive :=
    match ItemStats.revive stats with
    | Some true => true
    | _ => b_item_revive acc
    end in
  let dd := if String.eqb key "deaths_dance" then true
            else b_death_dance_flag acc in
  mk_build_acc armor mr max_hp shields2 revive dd.

Definition _build_enemy_stats (enemy : Enemy.t) (hp_percent_override : option Q)
  : py enemy_stats :=
  let champ := default "_default" (Enemy.champion enemy) in
  let level := default 1%Z (Enemy.level enemy) in
  let items := default [] (Enemy.items enemy) in
  base ← ChampionStats.calculate_stats_at_level champ level;
  let armor := ChampionStats.armor base in
  let mr := ChampionStats.mr base in
  let max_hp := ChampionStats.max_hp base in
  let max_hp :=
    match Enemy.hp_max_real enemy with
    | Some real => if truthy real then real else max_hp
    | None => max_hp
    end in
  let acc := fold_left build_item_step items
               (mk_build_acc armor mr max_hp [] false false) in
  let hp_pct :=
    match hp_percent_override with
    | Some o => Some o
    | None => Enemy.hp_percent enemy
    end in
  let hp_pct :=
    match hp_pct with
    | None => 1
    | Some p =>
        if (negb (truthy p) || Qleb p 0 || Qgtb p 1)%bool then 1 else p
    end in
  let current_hp := b_max_hp acc * hp_pct in
  Ok (mk_enemy_stats (b_armor acc) (b_mr acc) (b_max_hp acc) current_hp hp_pct
        (b_item_shields acc) (b_item_revive acc) (b_death_dance_flag acc)).

(** An entry of the damage breakdown list. *)
Record breakdown_entry : Type := mk_breakdown {
  bd_label : string;
  bd_damage : Q;
  bd_type : string
}.

(** One iteration of [for comp in combo["damage_components"]]. *)
Definition combo_step (total_ad ap max_hp_enemy : Q) (spell_ranks : gmap string Z)
  (acc : py (Q * Q * list breakdown_entry)) (comp : Combos.component)
  : py (Q * Q * list breakdown_entry) :=
  '(phys_dmg, magic_dmg, breakdown) ← acc;
  base ← Combos.get_base_damage_at_rank comp spell_ranks;
  let ad_r := default 0 (Combos.ad_ratio comp) in
  let ap_r := default 0 (Combos.ap_ratio comp) in
  let hp_r := default 0 (Combos.hp_ratio comp) in
  let raw := base + (total_ad * ad_r) + (ap * ap_r) + (max_hp_enemy * hp_r) in
  let breakdown :=
    (breakdown ++
     [mk_breakdown (Combos.label comp) (py_round raw 1) (Combos.type comp)])%list in
  if (String.eqb (Combos.type comp) "physical" || String.eqb (Combos.type comp) "true")%bool
  then Ok (phys_dmg + raw, magic_dmg, breakdown)
  else Ok (phys_dmg, magic_dmg + raw, breakdown).

Definition _calculate_combo_damage (my_state : Me.t) (enemy_stats : enemy_stats)
  (spell_ranks : gmap string Z) : py (Q * Q * list breakdown_entry) :=
  let champ := default "_default" (Me.champion my_state) in
  combo ← Combos.get_combo champ;
  let total_ad := default 50 (Me.total_ad my_state) in
  let ap := default 0 (Me.ap my_state) in
  let max_hp_enemy := max_hp enemy_stats in
  fold_left (combo_step total_ad ap max_hp_enemy spell_ranks)
            (Combos.damage_components combo) (Ok (0, 0, [])).

(** [f"{x:.0f}"] and [f"{x:.0%}"]. *)
Definition fmt_0f (x : Q) : string := str_of_Z (round_half_even x).
Definition fmt_pct (x : Q) : string := (fmt_0f (x * 100) ++ "%")%string.

(** One iteration of [for item_name in my_state.get("items", [])]. *)
Definition active_item_step (eff_armor : Q) (acc : Q * list string)
  (item_name : string) : Q * list string :=
  let '(active_dmg, active_items_used) := acc in
  let act := ItemStats.get_active_damage item_name in
  match act with
  | None => acc
  | Some a =>
      if Qgtb (ItemStats.damage a) 0
      then
        let d := if String.eqb (ItemStats.type a) "physical"
                 then ItemStats.damage a * _dmg_reduction eff_armor
                 else ItemStats.damage a in
        (active_dmg + d,
         (active_items_used ++ [(item_name ++ " (+" ++ fmt_0f d ++ ")")%string])%list)
      else acc
  end.

(** One iteration of [for item_name, shield_val in enemy_stats["item_shields"]];
    the state is [(effective_hp, confidence_penalty, result.item_flags)]. *)
Definition shield_step (acc : Q * Q * list item_flag)
  (entry : string * ItemStats.shield_val) : Q * Q * list item_flag :=
  let '(effective_hp, confidence_penalty, item_flags) := acc in
  let '(item_name, shield_val) := entry in
  match shield_val with
  | ItemStats.ShieldNum v =>
      (effective_hp + v, confidence_penalty + 0.08,
       (item_flags ++ [FlatShield item_name v])%list)
  | ItemStats.ShieldStr t =>
      (effective_hp, confidence_penalty + 0.08,
       (item_flags ++ [TextShield item_name t])%list)
  end.

(** The state of the summoner loop. *)
Record summoner_acc : Type := mk_summoner_acc {
  s_effective_hp : Q;
  s_dmg_modifier : Q;
  s_confidence_penalty : Q;
  s_warnings : list summoner_warning
}.

(** One iteration of [for s in enemy_summoners]. *)
Definition summoner_step (acc : summoner_acc) (s : string) : summoner_acc :=
  match ItemStats.SUMMONER_ADJUSTMENTS !! s with
  | None => acc
  | Some adj =>
      let acc1 :=
        match ItemStats.hp_modifier adj with
        | Some m =>
            mk_summoner_acc (s_effective_hp acc * m) (s_dmg_modifier acc)
              (s_confidence_penalty acc + 0.08)
              (s_warnings acc ++ [HpModifier (ItemStats.label adj) m])%list
        | None => acc
        end in
      match ItemStats.my_dmg_modifier adj with
      | Some m =>
          mk_summoner_acc (s_effective_hp acc1) (s_dmg_modifier acc1 * m)
            (s_confidence_penalty acc1 + 0.12)
            (s_warnings acc1 ++ [DmgModifier (ItemStats.label adj) m])%list
      | None => acc1
      end
  end.

Definition ITEM_CD_FLAGS : gmap string string := list_to_map [
  ("eclipse",             "Eclipse proc (6s CD) — unknown state");
  ("immortal_shieldbow",  "Shieldbow shield (90s CD) — unknown state");
  ("steraks_gage",        "Sterak's shield (60s CD) — unknown state");
  ("gargoyle_stoneplate", "Gargoyle active (90s CD) — unknown state")
].

(** One iteration of [for item_name in enemy.get("items", [])]; the state is
    [(confidence_penalty, result.item_flags)]. *)
Definition cd_step (acc : Q * list item_flag) (item_name : string)
  : Q * list item_flag :=
  let '(confidence_penalty, item_flags) := acc in
  let key := _normalize_item_key item_name in
  match ITEM_CD_FLAGS !! key with
  | Some text => (confidence_penalty + 0.05, (item_flags ++ [ItemCd text])%list)
  | None => acc
  end.

(** [my_hp = my_hp_percent or my_state.get("hp_percent", 1.0)] *)
Definition resolve_my_hp (my_state : Me.t) (my_hp_percent : option Q) : Q :=
  match my_hp_percent with
  | Some p => if truthy p then p else default 1 (Me.hp_percent my_state)
  | None => default 1 (Me.hp_percent my_state)
  end.

(** The auto-pause checks: the reason of the first check that fires. *)
Definition auto_pause (my_hp : Q) (is_dead : bool) (game_time : Q)
  : option string :=
  if (Qgtb game_time 0 && Qltb game_time 10)%bool
  then Some "Pre-game (< 10s)"
  else if Qltb my_hp MIN_MY_HP_TO_ENGAGE
  then Some ("Your HP too low (" ++ fmt_pct my_hp ++ ")")%string
  else if is_dead
  then Some "Enemy is dead"
  else if Qgtb game_time (45 * 60)
  then Some "Late game (>45min) — calc unreliable"
  else None.

(** The local variables of an evaluated call. *)
Record locals : Type := mk_locals {
  eff_armor : Q;
  eff_mr : Q;
  phys_raw : Q;
  magic_raw : Q;
  phys_dealt : Q;
  magic_dealt : Q;
  active_dmg : Q;
  total_dealt : Q;
  effective_hp : Q;
  confidence_penalty : Q;
  dmg_modifier : Q;
  adjusted_dealt : Q;
  kill_ratio_exact : Q;
  base_conf : Q;
  uncertainty : Q;
  final_conf : Q
}.

(** [calculate_kill_chance], returning the result together with the local
    variables of the evaluation ([None] for a paused result). *)
Definition calculate_kill_chance_locals
  (my_state : Me.t) (enemy : Enemy.t)
  (enemy_hp_percent my_hp_percent : option Q)
  (allies_nearby : Z) (game_time : Q) : py (KillCalcResult * option locals) :=
  let result := new_result (default "Unknown" (Enemy.champion enemy))
                           (default "Unknown" (Me.champion my_state)) in
  let my_hp := resolve_my_hp my_state my_hp_percent in
  match auto_pause my_hp (default false (Enemy.is_dead enemy)) game_time with
  | Some reason => Ok (set_paused result reason, None)
  | None =>
      enemy_stats ← _build_enemy_stats enemy enemy_hp_percent;
      let spell_ranks :=
        default {[ "q" := 1%Z; "w" := 1%Z; "e" := 1%Z; "r" := 1%Z ]}
                (Me.spell_ranks my_state) in
      '(phys_raw, magic_raw, breakdown) ←
        _calculate_combo_damage my_state enemy_stats spell_ranks;
      let eff_armor := _calc_effective_armor (armor enemy_stats) my_state in
      let eff_mr :=
        py_max 0 (mr enemy_stats - default 0 (Me.magic_pen_flat my_state)) in
      let phys_dealt := phys_raw * _dmg_reduction eff_armor in
      let magic_dealt := magic_raw * _mr_reduction eff_mr in
      let total_dealt0 := phys_dealt + magic_dealt in
      let '(active_dmg, active_items_used) :=
        fold_left (active_item_step eff_armor)
                  (default [] (Me.items my_state)) (0, []) in
      let total_dealt := total_dealt0 + active_dmg in
      (* effective HP of the target *)
      let '(effective_hp, confidence_penalty, item_flags) :=
        fold_left shield_step (item_shields enemy_stats)
                  (current_hp enemy_stats, 0, []) in
      let '(effective_hp, confidence_penalty, item_flags) :=
        if death_dance_flag enemy_stats
        then (effective_hp * 1.15, confidence_penalty + 0.05,
              (item_flags ++ [DeathsDanceDelay])%list)
        else (effective_hp, confidence_penalty, item_flags) in
      let '(confidence_penalty, item_flags) :=
        if item_revive enemy_stats
        then (confidence_penalty + 0.20, (item_flags ++ [ReviveFlag])%list)
        else (confidence_penalty, item_flags) in
      let enemy_effective_hp := py_round effective_hp 1 in
      (* summoner spells *)
      let sacc :=
        fold_left summoner_step (default [] (Enemy.summoners enemy))
                  (mk_summoner_acc effective_hp 1 confidence_penalty []) in
      let effective_hp := s_effective_hp sacc in
      let dmg_modifier := s_dmg_modifier sacc in
      let confidence_penalty := s_confidence_penalty sacc in
      let adjusted_dealt := total_dealt * dmg_modifier in
      (* items with an unknown cooldown state *)
      let '(confidence_penalty, item_flags) :=
        fold_left cd_step (default [] (Enemy.items enemy))
                  (confidence_penalty, item_flags) in
      let flags := if (allies_nearby =? 0)%Z then [SoloEngage] else [] in
      (* kill ratio and confidence *)
      let kill_ratio := adjusted_dealt / py_max effective_hp 1 in
      let base_conf := py_min 0.97 kill_ratio in
      let uncertainty := py_min 0.40 confidence_penalty in
      let final_conf := py_max 0 (base_conf - uncertainty) in
      let verdict :=
        if Qgeb final_conf THRESHOLD_GO then "GO"
        else if Qgeb final_conf THRESHOLD_RISKY then "RISKY"
        else "NO GO" in
      combo ← Combos.get_combo (default "_default" (Me.champion my_state));
      let combo_label :=
        match active_items_used with
        | [] => Combos.combo_label combo
        | _ => (Combos.combo_label combo ++ " + "
                ++ String.concat ", " active_items_used)%string
        end in
      Ok (mk_result (enemy_champion result) (my_champion result)
            (py_round (phys_raw + magic_raw) 1)
            (py_round total_dealt 1)
            (py_round active_dmg 1)
            (current_hp enemy_stats) (max_hp enemy_stats)
            (hp_percent enemy_stats)
            enemy_effective_hp
            (armor enemy_stats) (mr enemy_stats)
            (py_round kill_ratio 3) (py_round final_conf 3)
            verdict combo_label (Combos.spell_order combo)
            flags (s_warnings sacc) item_flags false "",
          Some (mk_locals eff_armor eff_mr phys_raw magic_raw phys_dealt
                  magic_dealt active_dmg total_dealt effective_hp
                  confidence_penalty dmg_modifier adjusted_dealt kill_ratio
                  base_conf uncertainty final_conf))
  end.

Definition calculate_kill_chance
  (my_state : Me.t) (enemy : Enemy.t)
  (enemy_hp_percent my_hp_percent : option Q)
  (allies_nearby : Z) (game_time : Q) : py KillCalcResult :=
  r ← calculate_kill_chance_locals my_state enemy enemy_hp_percent
        my_hp_percent allies_nearby game_time;
  Ok (fst r).

End KillCalc.

(** ** The armor curve and the penalty sum in binary64

    The same source text on the kernel's binary64 floats, whose [+ - * /]
    round to nearest, ties to even, as those of Python's [float] do; a
    decimal constant is the nearest binary64 value, as in Python. *)

Module Binary64.

Import PrimFloat.
Local Open Scope float_scope.
#[local] Set Warnings "-inexact-float".

(** [_dmg_reduction]. *)
Definition _dmg_reduction (effective_armor : float) : float :=
  if 0 <=? effective_armor
  then 100 / (100 + effective_armor)
  else 2 - 100 / (100 - effective_armor).

(** [confidence_penalty = 0.0] followed by [n] times
    [confidence_penalty += 0.05], the smallest addition of a source. *)
Definition penalty_of_flags (n : nat) : float :=
  Nat.iter n (fun confidence_penalty => confidence_penalty + 0.05) 0.

(** [uncertainty = min(0.40, confidence_penalty)]. *)
Definition uncertainty_of (confidence_penalty : float) : float :=
  if confidence_penalty <? 0.40 then confidence_penalty else 0.40.

End Binary64.

(** ** Live client ([modules/live_client.py]) *)

Module LiveClient.

(** The entries of the player list that [get_enemies_state] reads. *)
Record item : Type := mk_item { displayName : option string }.

Record spell : Type := mk_spell { rawDisplayName : option string }.

Record spells : Type := mk_spells {
  summonerSpellOne : option spell;
  summonerSpellTwo : option spell
}.

Record player : Type := mk_player {
  team : option string;
  championName : option string;
  level : option Z;
  items : option (list item);
  isDead : option bool;
  summonerSpells : option spells
}.

(** [p.get("summonerSpells", {}).get(key, {}).get("rawDisplayName", "")]. *)
Definition spell_name (p : player) (key : spells -> option spell) : string :=
  default "" ((summonerSpells p ≫= key) ≫= rawDisplayName).

(** [get_enemies_state]; the first argument is what [get_all_players()]
    returned.  The keys ["summoner_name"], ["position"] and
    ["respawn_timer"] of the result are read by nothing and are left out;
    ["hp_percent"] is [None] and ["hp_max_real"] is not set. *)
Definition get_enemies_state (all_players : option (list player))
  (my_team : string) : list Enemy.t :=
  match all_players with
  | None => []
  | Some [] => []
  | Some all_players =>
      let enemy_team := if String.eqb my_team "ORDER" then "CHAOS" else "ORDER" in
      let enemies :=
        List.filter (fun p => match team p with
                              | Some t => String.eqb t enemy_team
                              | None => false
                              end)
                    all_players in
      List.map
        (fun p =>
           let items :=
             List.map (fun it => default "" (displayName it))
                      (default [] (items p)) in
           let s1 := spell_name p summonerSpellOne in
           let s2 := spell_name p summonerSpellTwo in
           Enemy.mk (Some (default "Unknown" (championName p)))
                    (Some (default 1%Z (level p)))
                    (Some items)
                    None
                    None
                    (Some (default false (isDead p)))
                    (Some [s1; s2]))
        enemies
  end.

End LiveClient.

(** ** Target panel reader ([modules/target_panel_reader.py]) *)

Module TargetPanel.

Definition _MAX_PLAUSIBLE_HP : Z := 8000.
Definition _MAX_PLAUSIBLE_MANA : Z := 3000.

Definition is_digit (c : ascii) : bool :=
  let n := nat_of_ascii c in ((48 <=? n)%nat && (n <=? 57)%nat)%bool.

(** ASCII white space, as removed by [str.strip()]. *)
Definition is_space (c : ascii) : bool :=
  let n := nat_of_ascii c in
  (((9 <=? n)%nat && (n <=? 13)%nat) || ((28 <=? n)%nat && (n <=? 32)%nat))%bool.

Fixpoint lstrip (s : string) : string :=
  match s with
  | EmptyString => EmptyString
  | String c s' => if is_space c then lstrip s' else s
  end.

Fixpoint rstrip (s : string) : string :=
  match s with
  | EmptyString => EmptyString
  | String c s' =>
      match rstrip s' with
      | EmptyString => if is_space c then EmptyString else String c EmptyString
      | r => String c r
      end
  end.

Definition strip (s : string) : string := rstrip (lstrip s).

(** [re.findall(r'\d+', raw)]: the maximal runs of digits, left to right;
    [run] is the run being read. *)
Fixpoint findall_digits_from (run : string) (s : string) : list string :=
  match s with
  | EmptyString =>
      match run with
      | EmptyString => []
      | _ => [run]
      end
  | String c s' =>
      if is_digit c
      then findall_digits_from (run ++ String c EmptyString) s'
      else match run with
           | EmptyString => findall_digits_from EmptyString s'
           | _ => run :: findall_digits_from EmptyString s'
           end
  end.

Definition findall_digits (s : string) : list string :=
  findall_digits_from EmptyString s.

(** [int(s)] for a string of digits.  CPython (from 3.11, by default)
    refuses a string of more than 4300 digits with a [ValueError]; texts
    with such a run of digits are outside this model. *)
Fixpoint int_from (acc : Z) (s : string) : Z :=
  match s with
  | EmptyString => acc
  | String c s' => int_from (acc * 10 + (Z.of_nat (nat_of_ascii c) - 48))%Z s'
  end.

Definition int_of_digits (s : string) : Z := int_from 0%Z s.

(** [_ocr_pair], from the text that [pytesseract.image_to_string] returned
    for the image. *)
Definition _ocr_pair (ocr_text : string) (max_plausible : Z) : option (Z * Z) :=
  let raw := strip ocr_text in
  let nums := findall_digits raw in
  match nums with
  | n0 :: n1 :: _ =>
      let cur := int_of_digits n0 in
      let mx := int_of_digits n1 in
      if ((mx =? 0)%Z || (mx >? max_plausible)%Z)%bool then None
      else if Qgtb (inject_Z cur) (inject_Z mx * 1.1) then None
      else
        let cur := if (cur >? mx)%Z then mx else cur in
        if (cur <? 0)%Z then None
        else if (mx <? 100)%Z then None
        else Some (cur, mx)
  | _ => None
  end.

(** The dictionary returned by [read_target_panel]. *)
Record panel : Type := mk_panel {
  panel_active : bool;
  hp_current : option Z;
  hp_max : option Z;
  hp_percent : option Q;
  mp_current : option Z;
  mp_max : option Z;
  mp_percent : option Q
}.

Definition no_panel : panel := mk_panel false None None None None None None.

(** [read_target_panel]: [ocr_ready] is [_OCR_READY]; [hp_ocr] and [mp_ocr]
    are the texts read from the two screen regions, [None] when the grab or
    the OCR raised (the exception is caught and the result built so far is
    returned).  [_is_enemy_panel] is constantly [True]. *)
Definition read_target_panel (ocr_ready : bool) (hp_ocr mp_ocr : option string)
  : panel :=
  let result := no_panel in
  if negb ocr_ready then result
  else
    match hp_ocr with
    | None => result
    | Some hp_text =>
        let result :=
          match _ocr_pair hp_text _MAX_PLAUSIBLE_HP with
          | Some (cur, mx) =>
              mk_panel true (Some cur) (Some mx) (Some (inject_Z cur / inject_Z mx))
                       (mp_current result) (mp_max result) (mp_percent result)
          | None => result
          end in
        match mp_ocr with
        | None => result
        | Some mp_text =>
            match _ocr_pair mp_text _MAX_PLAUSIBLE_MANA with
            | Some (cur, mx) =>
                mk_panel (panel_active result) (hp_current result)
                         (hp_max result) (hp_percent result)
                         (Some cur) (Some mx) (Some (inject_Z cur / inject_Z mx))
            | None => result
            end
        end
    end.

End TargetPanel.

(** ** Target selection and panel injection ([main.py]) *)

Module Main.

Definition is_dead (e : Enemy.t) : bool := default false (Enemy.is_dead e).

(** The key of [min]: [e.get("hp_percent") or 1.0]. *)
Definition hp_key (e : Enemy.t) : Q :=
  match Enemy.hp_percent e with
  | Some p => if truthy p then p else 1
  | None => 1
  end.

(** [min(best :: l, key=hp_key)]: the first element with the least key. *)
Fixpoint min_by_hp (best : Enemy.t) (l : list Enemy.t) : Enemy.t :=
  match l with
  | [] => best
  | e :: l' =>
      if Qltb (hp_key e) (hp_key best) then min_by_hp e l' else min_by_hp best l'
  end.

(** [pick_target]; the global [_locked_target_idx] is the first argument. *)
Definition pick_target (_locked_target_idx : option Z) (enemies : list Enemy.t)
  : py (option Enemy.t) :=
  let alive := List.filter (fun e => negb (is_dead e)) enemies in
  match alive with
  | [] => Ok None
  | a :: rest =>
      let lowest := Ok (Some (min_by_hp a rest)) in
      match _locked_target_idx with
      | Some idx =>
          if (idx <? Z.of_nat (length enemies))%Z
          then
            t ← list_index enemies idx;
            if negb (is_dead t) then Ok (Some t) else lowest
          else lowest
      | None => lowest
      end
  end.

Definition set_hp_percent (t : Enemy.t) (p : Q) : Enemy.t :=
  Enemy.mk (Enemy.champion t) (Enemy.level t) (Enemy.items t)
           (Enemy.hp_max_real t) (Some p) (Enemy.is_dead t) (Enemy.summoners t).

Definition set_hp_max_real (t : Enemy.t) (m : Q) : Enemy.t :=
  Enemy.mk (Enemy.champion t) (Enemy.level t) (Enemy.items t)
           (Some m) (Enemy.hp_percent t) (Enemy.is_dead t) (Enemy.summoners t).

(** The block of [main_loop] (after [target = pick_target(enemies)]) that
    injects the panel reading into the target and maintains
    [_last_known_hp] (the third argument and second result).  A target is a
    dictionary of [get_enemies_state], which is never empty, so that
    [and target] tests whether there is a target.
    [panel = None] is the empty dictionary left by a failed panel read.  The
    key ["hp_current"] written to the target is read by nothing and is
    returned beside the target. *)
Definition inject_panel (panel : option TargetPanel.panel)
  (target : option Enemy.t) (_last_known_hp : gmap string Q)
  : option (Enemy.t * option Z) * gmap string Q :=
  match target with
  | None => (None, _last_known_hp)
  | Some t =>
      let champ_key := default "" (Enemy.champion t) in
      let active := from_option TargetPanel.panel_active false panel in
      if active
      then
        let '(t, cache) :=
          match panel ≫= TargetPanel.hp_percent with
          | Some p => (set_hp_percent t p, <[champ_key := p]> _last_known_hp)
          | None => (t, _last_known_hp)
          end in
        let hp_current := panel ≫= TargetPanel.hp_current in
        let t :=
          match panel ≫= TargetPanel.hp_max with
          | Some m => set_hp_max_real t (inject_Z m)
          | None => t
          end in
        (Some (t, hp_current), cache)
      else
        match _last_known_hp !! champ_key with
        | Some p => (Some (set_hp_percent t p, None), _last_known_hp)
        | None => (Some (t, None), _last_known_hp)
        end
  end.

End Main.

(** * Vocabulary of the statements *)

(** ** The default entries *)

Definition default_stats : ChampionStats.entry :=
  ChampionStats.mk 28 4.0 32 1.5 580 95.

Definition default_combo : Combos.combo :=
  Combos.mk_combo "Full combo" "Spell1 > Spell2 > AA"
    [Combos.comp "Estimated combo" [300] 2.5 "physical" None].

(** ** Signs of the table entries *)

(** Base values and per-level deltas of an entry are non-negative. *)
Definition entry_nonneg (e : ChampionStats.entry) : Prop :=
  0 <= ChampionStats.base_armor e /\ 0 <= ChampionStats.armor_per_level e
  /\ 0 <= ChampionStats.base_mr e /\ 0 <= ChampionStats.mr_per_level e
  /\ 0 <= ChampionStats.base_hp e /\ 0 <= ChampionStats.hp_per_level e.

(** A component whose base damages and ratios are non-negative. *)
Definition comp_nonneg (c : Combos.component) : Prop :=
  Forall (fun b => 0 <= b) (Combos.base c)
  /\ 0 <= default 0 (Combos.ad_ratio c)
  /\ 0 <= default 0 (Combos.ap_ratio c)
  /\ 0 <= default 0 (Combos.hp_ratio c).

Definition combo_nonneg (c : Combos.combo) : Prop :=
  Forall comp_nonneg (Combos.damage_components c).

(** Both accumulators of a combo state are non-negative. *)
Definition combo_acc_nonneg (acc : py (Q * Q * list KillCalc.breakdown_entry)) : Prop :=
  match acc with
  | Ok (p, m, _) => 0 <= p /\ 0 <= m
  | Raise _ => True
  end.

(** ** Held items *)

(** The entry [ITEM_STATS.get(key, {})] of a held item. *)
Definition held_item_stats (item_name : string) : ItemStats.entry :=
  default ItemStats.empty (ItemStats.ITEM_STATS !! KillCalc._normalize_item_key item_name).

Definition sum_items (f : ItemStats.entry -> option Q) (items : list string) : Q :=
  fold_right (fun item acc => default 0 (f (held_item_stats item)) + acc) 0 items.

(** ** Penalty sources *)

(** With [n] penalty sources the accumulated penalty lies between [0.05 n]
    and [0.20 n]: every source adds between 0.05 and 0.20. *)
Definition pen_bounds (p : Q) (n : nat) : Prop :=
  0.05 * inject_Z (Z.of_nat n) <= p /\ p <= 0.20 * inject_Z (Z.of_nat n).

(** ** Paused results *)

(** The result of a paused call: the fresh result with only the pause
    fields set; no stat or damage field has been computed. *)
Definition paused_result (my_state : Me.t) (enemy : Enemy.t) (reason : string)
  : KillCalc.KillCalcResult :=
  KillCalc.set_paused (KillCalc.new_result (default "Unknown" (Enemy.champion enemy))
                         (default "Unknown" (Me.champion my_state))) reason.

Definition low_hp_reason (my_hp : Q) : string :=
  "Your HP too low (" ++ KillCalc.fmt_pct my_hp ++ ")".

Definition pre_game (game_time : Q) : Prop := 0 < game_time /\ game_time < 10.

(** ** Scenarios *)

(** A snapshot with no key set: every [.get] takes its default. *)
Definition me_defaults : Me.t :=
  Me.mk None None None None None None None None None None.

Definition enemy_defaults : Enemy.t :=
  Enemy.mk None None None None None None None.

(** Level-11 Kha'Zix with 180 AD, 18 lethality and Galeforce. *)
Definition me_khazix : Me.t :=
  Me.mk (Some "Kha'Zix") (Some 11%Z) (Some 180) (Some 0) (Some 18) (Some 0.3)
        (Some 0)
        (Some {[ "q" := 3%Z; "w" := 1%Z; "e" := 3%Z; "r" := 1%Z ]})
        (Some ["Galeforce"]) (Some 0.9).

(** Level-10 Darius with Thornmail. *)
Definition enemy_darius : Enemy.t :=
  Enemy.mk (Some "Darius") (Some 10%Z) (Some ["Thornmail"]) None None
           (Some false) (Some ["SummonerFlash"; "SummonerGhost"]).

(** A dead target, for the gate scenarios. *)
Definition enemy_dead : Enemy.t :=
  Enemy.mk (Some "Darius") (Some 10%Z) (Some []) None None (Some true) None.

(** Level-10 Darius holding Warmog's Armor, with an observed max HP of 2000. *)
Definition enemy_observed_hp : Enemy.t :=
  Enemy.mk (Some "Darius") (Some 10%Z) (Some ["Warmog's Armor"]) (Some 2000)
           None (Some false) None.

(** A level-1 target of an unknown champion holding the item whose key is
    [sterak_gage]. *)
Definition enemy_sterak : Enemy.t :=
  Enemy.mk None None (Some ["Sterak Gage"]) None None None None.

(** Level-10 Darius with Barrier. *)
Definition enemy_barrier : Enemy.t :=
  Enemy.mk (Some "Darius") (Some 10%Z) (Some []) None None (Some false)
           (Some ["SummonerBarrier"; "SummonerFlash"]).

(** Level-10 Darius holding four items that make six penalty sources: two
    shields (0.08 each) and four items with an unknown cooldown state (0.05
    each). *)
Definition enemy_six_sources : Enemy.t :=
  Enemy.mk (Some "Darius") (Some 10%Z)
    (Some ["Eclipse"; "Sterak's Gage"; "Immortal Shieldbow"; "Gargoyle Stoneplate"])
    None None (Some false) (Some ["SummonerFlash"; "SummonerGhost"]).

(** An attacker snapshot with a negative total AD. *)
Definition me_negative_ad : Me.t :=
  Me.mk None None (Some (-1000)) None None None None None None None.

(** ** Vocabulary of the further properties *)

(** The clamp of [_build_enemy_stats] on the fraction it is given. *)
Definition clamp_hp_pct (hp_pct : option Q) : Q :=
  match hp_pct with
  | None => 1
  | Some p => if (negb (truthy p) || Qleb p 0 || Qgtb p 1)%bool then 1 else p
  end.

(** Whether a held item sets the revive flag, the Death's Dance flag. *)
Definition item_has_revive (item : string) : bool :=
  match ItemStats.revive (held_item_stats item) with
  | Some true => true
  | _ => false
  end.

Definition item_is_deaths_dance (item : string) : bool :=
  String.eqb (KillCalc._normalize_item_key item) "deaths_dance".

(** Every component of a combo has a non-empty base-damage table. *)
Definition combo_has_bases (c : Combos.combo) : Prop :=
  Forall (fun comp => Combos.base comp <> []) (Combos.damage_components c).

(** Every stored rank is non-negative. *)
Definition ranks_nonneg (ranks : gmap string Z) : Prop :=
  map_Forall (fun _ rank => (0 <= rank)%Z) ranks.

(** A result that is a value or an [IndexError]. *)
Definition ok_or_index_error {A : Type} (m : py A) : Prop :=
  (exists a, m = Ok a) \/ m = Raise IndexError.

(** Level-11 Kha'Zix whose stored rank of Q is -5. *)
Definition me_bad_rank : Me.t :=
  Me.mk (Some "Kha'Zix") (Some 11%Z) (Some 180) None None None None
        (Some {[ "q" := (-5)%Z; "w" := 1%Z; "e" := 3%Z; "r" := 1%Z ]})
        None (Some 0.9).

(** Level-10 Darius holding Guardian Angel, Immortal Shieldbow and Gargoyle
    Stoneplate: a penalty of 0.46. *)
Definition enemy_many_flags : Enemy.t :=
  Enemy.mk (Some "Darius") (Some 10%Z)
    (Some ["Guardian Angel"; "Immortal Shieldbow"; "Gargoyle Stoneplate"])
    None None (Some false) None.




(** Every character of a string satisfies a test. *)
Fixpoint string_forallb (p : ascii -> bool) (s : string) : bool :=
  match s with
  | EmptyString => true
  | String c s' => (p c && string_forallb p s')%bool
  end.

(** An upper-case ASCII letter. *)
Definition is_upper (c : ascii) : bool :=
  let n := nat_of_ascii c in ((65 <=? n)%nat && (n <=? 90)%nat)%bool.

(** The characters that an item key can hold. *)
Definition item_key_char (c : ascii) : bool :=
  (negb (is_upper c) && negb (Ascii.eqb c "'") && negb (Ascii.eqb c " ")
   && negb (Ascii.eqb c "-"))%bool.

(** The characters that a champion key can hold. *)
Definition champion_key_char (c : ascii) : bool :=
  (negb (is_upper c) && negb (Ascii.eqb c "'") && negb (Ascii.eqb c " ")
   && negb (Ascii.eqb c "."))%bool.

(** CPython's default limit on the digits of a string given to [int]. *)
Definition int_max_str_digits : Z := 4300.

(** The key of [_last_known_hp] for a target: [target.get("champion", "")]. *)
Definition champ_key (t : Enemy.t) : string := default "" (Enemy.champion t).

(** The enemies that [pick_target] chooses from. *)
Definition alive (enemies : list Enemy.t) : list Enemy.t :=
  List.filter (fun e => negb (Main.is_dead e)) enemies.

(** [pick_target] chooses by health: no slot is locked, or the locked slot
    is past the end of the list or holds a dead enemy. *)
Definition auto_mode (lock : option Z) (enemies : list Enemy.t) : Prop :=
  match lock with
  | None => True
  | Some idx =>
      (Z.of_nat (length enemies) <= idx)%Z
      \/ ((0 <= idx)%Z
          /\ exists d, enemies !! Z.to_nat idx = Some d /\ Main.is_dead d = true)
  end.

(** A target differs from another by the injected fields only. *)
Definition same_but_hp (t1 t2 : Enemy.t) : Prop :=
  Enemy.champion t1 = Enemy.champion t2
  /\ Enemy.level t1 = Enemy.level t2
  /\ Enemy.items t1 = Enemy.items t2
  /\ Enemy.is_dead t1 = Enemy.is_dead t2
  /\ Enemy.summoners t1 = Enemy.summoners t2.

(** A level-9 Ahri at 35% health, and a Darius at 80%. *)
Definition enemy_ahri_low : Enemy.t :=
  Enemy.mk (Some "Ahri") (Some 9%Z) (Some []) None (Some 0.35) (Some false) None.

Definition enemy_darius_hurt : Enemy.t :=
  Enemy.mk (Some "Darius") (Some 10%Z) (Some ["Thornmail"]) None (Some 0.8)
           (Some false) None.

Definition enemies_sample : list Enemy.t :=
  [enemy_dead; enemy_darius_hurt; enemy_ahri_low].

(** The panel read from the text of a target at 512 of 1850 HP. *)
Definition panel_sample : TargetPanel.panel :=
  TargetPanel.read_target_panel true (Some "512 / 1850") None.

(** A player list: a dead Darius and an Ahri on the red side, the attacker
    on the blue side. *)
Definition players_sample : list LiveClient.player :=
  [ LiveClient.mk_player (Some "ORDER") (Some "Kha'Zix") (Some 11%Z) None
      (Some false) None;
    LiveClient.mk_player (Some "CHAOS") (Some "Darius") (Some 10%Z)
      (Some [LiveClient.mk_item (Some "Thornmail")]) (Some true) None;
    LiveClient.mk_player (Some "CHAOS") (Some "Ahri") (Some 9%Z) None
      (Some false)
      (Some (LiveClient.mk_spells
               (Some (LiveClient.mk_spell (Some "SummonerFlash"))) None)) ].

(** A number of ordinary size: at most [10^100] in absolute value.  As an
    [int] it converts to a [float], and no sum or product that the
    calculator forms of such numbers and the tables leaves the range of
    binary64. *)
Definition ordinary (x : Q) : Prop :=
  - inject_Z (10 ^ 100) <= x /\ x <= inject_Z (10 ^ 100).

Definition ordinary_opt (o : option Q) : Prop :=
  forall x, o = Some x -> ordinary x.

(** The numbers of a call that the calculator converts or formats: the
    attacker's level, AD, AP, lethality, penetrations and health fraction,
    and the target's observed max HP. *)
Definition ordinary_inputs (my_state : Me.t) (enemy : Enemy.t)
  (my_hp_percent : option Q) : Prop :=
  ordinary_opt (inject_Z <$> Me.level my_state)
  /\ ordinary_opt (Me.total_ad my_state)
  /\ ordinary_opt (Me.ap my_state)
  /\ ordinary_opt (Me.lethality my_state)
  /\ ordinary_opt (Me.armor_pen_pct my_state)
  /\ ordinary_opt (Me.magic_pen_flat my_state)
  /\ ordinary_opt (Me.hp_percent my_state)
  /\ ordinary_opt my_hp_percent
  /\ ordinary_opt (Enemy.hp_max_real enemy).

(** * Properties *)

(** The tables are looked up at unknown keys in what follows: tactics must
    not unfold them ([vm_compute] still evaluates closed lookups). *)
#[global] Opaque ChampionStats.CHAMPION_STATS ItemStats.ITEM_STATS
  ItemStats.ACTIVE_DAMAGE_ITEMS ItemStats.SUMMONER_ADJUSTMENTS
  Combos.CHAMPION_COMBOS KillCalc.ITEM_CD_FLAGS.

(** ** Sample evaluations *)

Example stats_khazix_6 :
  ChampionStats.calculate_stats_at_level "Kha'Zix" 6
  = Ok (ChampionStats.mk_level_stats (21 + 4.2 * 5) (32 + 2.05 * 5) (585 + 100 * 5)).
Proof. vm_compute. reflexivity. Qed.

Example base_rank7_khazix_q :
  Combos.get_base_damage_at_rank
    (Combos.comp "Q isolated" [70; 95; 120; 145; 170] 1.15 "physical" (Some "q"))
    {[ "q" := 7%Z ]} = Ok 170.
Proof. vm_compute. reflexivity. Qed.

Example base_rank0_wraps :
  Combos.get_base_damage_at_rank
    (Combos.comp "Q isolated" [70; 95; 120; 145; 170] 1.15 "physical" (Some "q"))
    {[ "q" := 0%Z ]} = Ok 170.
Proof. vm_compute. reflexivity. Qed.

(** ** Comparisons, [max] and [min] *)

Section Comparisons.

Lemma Qleb_true (a b : Q) : Qleb a b = true <-> a <= b.
Proof. unfold Qleb. apply Qle_bool_iff. Qed.

Lemma Qleb_false (a b : Q) : Qleb a b = false <-> b < a.
Proof.
  unfold Qleb. split; intros H.
  - apply Qnot_le_lt. intros Hle. apply Qle_bool_iff in Hle. congruence.
  - destruct (Qle_bool a b) eqn:E; [|reflexivity].
    apply Qle_bool_iff in E. exfalso. apply (Qlt_not_le _ _ H E).
Qed.

Lemma Qltb_true (a b : Q) : Qltb a b = true <-> a < b.
Proof.
  unfold Qltb. rewrite negb_true_iff. apply (Qleb_false b a).
Qed.

Lemma Qltb_false (a b : Q) : Qltb a b = false <-> b <= a.
Proof.
  unfold Qltb. rewrite negb_false_iff. apply (Qleb_true b a).
Qed.

Lemma Qgeb_true (a b : Q) : Qgeb a b = true <-> b <= a.
Proof. apply Qleb_true. Qed.

Lemma Qgeb_false (a b : Q) : Qgeb a b = false <-> a < b.
Proof. apply Qleb_false. Qed.

Lemma Qgtb_true (a b : Q) : Qgtb a b = true <-> b < a.
Proof. apply Qltb_true. Qed.

Lemma Qgtb_false (a b : Q) : Qgtb a b = false <-> a <= b.
Proof. apply Qltb_false. Qed.

Lemma py_max_cases (a b : Q) :
  (a < b /\ py_max a b = b) \/ (b <= a /\ py_max a b = a).
Proof.
  unfold py_max. destruct (Qgtb b a) eqn:E.
  - left. apply Qgtb_true in E. auto.
  - right. apply Qgtb_false in E. auto.
Qed.

Lemma py_min_cases (a b : Q) :
  (b < a /\ py_min a b = b) \/ (a <= b /\ py_min a b = a).
Proof.
  unfold py_min. destruct (Qltb b a) eqn:E.
  - left. apply Qltb_true in E. auto.
  - right. apply Qltb_false in E. auto.
Qed.

Lemma py_max_lb_l (a b : Q) : a <= py_max a b.
Proof. destruct (py_max_cases a b) as [[H ->]|[H ->]]; lra. Qed.

Lemma py_max_lb_r (a b : Q) : b <= py_max a b.
Proof. destruct (py_max_cases a b) as [[H ->]|[H ->]]; lra. Qed.

Lemma py_min_ub_l (a b : Q) : py_min a b <= a.
Proof. destruct (py_min_cases a b) as [[H ->]|[H ->]]; lra. Qed.


Lemma py_min_glb (a b c : Q) : c <= a -> c <= b -> c <= py_min a b.
Proof. intros. destruct (py_min_cases a b) as [[H' ->]|[H' ->]]; lra. Qed.

End Comparisons.

(** ** The armor curve *)

Section ArmorCurve.

Import KillCalc.

Lemma _dmg_reduction_nonneg (a : Q) :
  0 <= a -> _dmg_reduction a = 100 / (100 + a).
Proof.
  intros H. unfold _dmg_reduction.
  destruct (Qgeb a 0) eqn:E; [reflexivity|].
  apply Qgeb_false in E. lra.
Qed.

Lemma _dmg_reduction_neg (a : Q) :
  a < 0 -> _dmg_reduction a = 2 - 100 / (100 - a).
Proof.
  intros H. unfold _dmg_reduction.
  destruct (Qgeb a 0) eqn:E; [|reflexivity].
  apply Qgeb_true in E. lra.
Qed.

Lemma _dmg_reduction_nonneg_bounds (a : Q) :
  0 <= a -> 0 < _dmg_reduction a /\ _dmg_reduction a <= 1.
Proof.
  intros H. rewrite (_dmg_reduction_nonneg a H). split.
  - apply Qlt_shift_div_l; lra.
  - apply Qle_shift_div_r; lra.
Qed.

Lemma _dmg_reduction_neg_bounds (a : Q) :
  a < 0 -> 1 < _dmg_reduction a /\ _dmg_reduction a < 2.
Proof.
  intros H. rewrite (_dmg_reduction_neg a H).
  assert (Hpos : 0 < 100 - a) by lra.
  assert (H1 : 100 / (100 - a) < 1) by (apply Qlt_shift_div_r; lra).
  assert (H0 : 0 < 100 / (100 - a)) by (apply Qlt_shift_div_l; lra).
  split; lra.
Qed.

Lemma _dmg_reduction_neg_limit (eps : Q) :
  0 < eps ->
  forall a, a < - (100 / eps) -> a < 0 /\ 2 - eps < _dmg_reduction a.
Proof.
  intros Heps a Ha.
  assert (Hq : 0 < 100 / eps) by (apply Qlt_shift_div_l; lra).
  assert (Haneg : a < 0) by lra.
  split; [exact Haneg|].
  rewrite (_dmg_reduction_neg a Haneg).
  assert (Hlt : 100 / (100 - a) < eps).
  { apply Qlt_shift_div_r; [lra|].
    assert (Hm : (100 / eps) * eps == 100) by (field; lra).
    assert (Hprod : (100 / eps) * eps < (- a) * eps).
    { apply Qmult_lt_compat_r; lra. }
    lra. }
  lra.
Qed.

Lemma _calc_effective_armor_nonneg (base_armor : Q) (my_state : Me.t) :
  0 <= _calc_effective_armor base_armor my_state.
Proof. unfold _calc_effective_armor. apply py_max_lb_l. Qed.

Lemma _mr_reduction_bounds (m : Q) : 0 < _mr_reduction m /\ _mr_reduction m <= 1.
Proof.
  unfold _mr_reduction. pose proof (py_max_lb_l 0 m) as H. split.
  - apply Qlt_shift_div_l; lra.
  - apply Qle_shift_div_r; lra.
Qed.

End ArmorCurve.

Section ArmorCurveBinary64.

Import PrimFloat.
#[local] Set Warnings "-inexact-float".

(** C6 (amended). [_dmg_reduction(0)] is 1.0 and [_dmg_reduction(100)] is
    0.5, also as binary64 values; for every negative effective armor the
    multiplier is at least 1 and at most 2; and it tends to 2 as the armor
    tends to minus infinity: for every [eps > 0] every armor below some
    bound gives a multiplier above [2 - eps]. *)
Theorem dmg_reduction_curve :
  KillCalc._dmg_reduction 0 == 1
  /\ KillCalc._dmg_reduction 100 == 0.5
  /\ Binary64._dmg_reduction 0%float = 1%float
  /\ Binary64._dmg_reduction 100%float = 0.5%float
  /\ (forall a : Q, a < 0 ->
        1 <= KillCalc._dmg_reduction a /\ KillCalc._dmg_reduction a <= 2)
  /\ (forall eps : Q, 0 < eps ->
        exists bound : Q, forall a : Q, a < bound ->
          a < 0 /\ 2 - eps < KillCalc._dmg_reduction a
          /\ KillCalc._dmg_reduction a <= 2).
Proof.
  split; [reflexivity|]. split; [reflexivity|].
  split; [vm_compute; reflexivity|]. split; [vm_compute; reflexivity|].
  split.
  - intros a Ha. destruct (_dmg_reduction_neg_bounds a Ha) as [H1 H2].
    split; apply Qlt_le_weak; assumption.
  - intros eps Heps. exists (- (100 / eps)). intros a Ha.
    destruct (_dmg_reduction_neg_limit eps Heps a Ha) as [Hneg Hlo].
    split; [exact Hneg|]. split; [exact Hlo|].
    apply Qlt_le_weak, _dmg_reduction_neg_bounds. exact Hneg.
Qed.

Lemma dmg_reduction_curve_witness :
  (-50 < 0 /\ 1 <= KillCalc._dmg_reduction (-50)
   /\ KillCalc._dmg_reduction (-50) <= 2)
  /\ (0 < 1 # 10) /\
     exists bound : Q, forall a : Q, a < bound ->
       a < 0 /\ 2 - (1 # 10) < KillCalc._dmg_reduction a
       /\ KillCalc._dmg_reduction a <= 2.
Proof.
  destruct dmg_reduction_curve as (_ & _ & _ & _ & Hneg & Hlim).
  split.
  - split; [reflexivity|]. apply (Hneg (-50)). reflexivity.
  - split; [reflexivity|]. apply (Hlim (1 # 10)). reflexivity.
Defined.

(** C6, as stated, fails on the program's numbers: the bounds are strict in
    exact arithmetic only.  In binary64 an effective armor of [-1e18] gives
    exactly 2.0 ([100.0 / (100.0 + 1e18)] is below half the gap between 2.0
    and the float before it), and an effective armor of [-1e-20] gives
    exactly 1.0 ([100.0 + 1e-20] is 100.0). *)
Lemma dmg_reduction_saturates_in_binary64 :
  ltb (-1e18)%float 0%float = true
  /\ Binary64._dmg_reduction (-1e18)%float = 2%float
  /\ ltb (Binary64._dmg_reduction (-1e18)%float) 2%float = false
  /\ ltb (-1e-20)%float 0%float = true
  /\ Binary64._dmg_reduction (-1e-20)%float = 1%float
  /\ ltb 1%float (Binary64._dmg_reduction (-1e-20)%float)
     = false.
Proof. repeat split; vm_compute; reflexivity. Qed.

End ArmorCurveBinary64.

(** ** Reference tables *)

Section Tables.

Context {V : Type}.

(** A property of every entry of a literal table holds of every value of
    the dictionary built from it. *)
Lemma table_Forall (P : V -> Prop) (l : list (string * V)) :
  Forall (fun kv => P kv.2) l ->
  map_Forall (fun _ v => P v) (list_to_map l : gmap string V).
Proof.
  intros Hall k v Hk. apply elem_of_list_to_map_2 in Hk.
  rewrite Forall_forall in Hall. apply (Hall (k, v)). exact Hk.
Qed.

(** [d.get(key, d["_default"])] returns a value of [d] when it returns. *)
Lemma get_with_default_Forall (P : V -> Prop) (d : gmap string V)
  (key : string) (r : V) :
  map_Forall (fun _ v => P v) d ->
  (dflt ← dict_index d "_default"; Ok (default dflt (d !! key))) = Ok r ->
  P r.
Proof.
  intros Hall. unfold dict_index.
  destruct (d !! "_default") as [dflt|] eqn:Ed; simpl; [|discriminate].
  intros [= <-]. destruct (d !! key) as [v|] eqn:Ek; simpl.
  - apply (Hall key v Ek).
  - apply (Hall "_default" dflt Ed).
Qed.

End Tables.

(** ** Rank indexing *)

Section RankIndexing.

Import Combos.

Lemma rank_idx_le_last (rank : Z) (l : list Q) :
  (rank_idx rank l <= Z.of_nat (length l) - 1)%Z.
Proof. unfold rank_idx. lia. Qed.

Lemma rank_idx_beyond (rank : Z) (l : list Q) :
  (Z.of_nat (length l) <= rank)%Z ->
  rank_idx rank l = (Z.of_nat (length l) - 1)%Z.
Proof. unfold rank_idx. lia. Qed.

Lemma list_index_last (l : list Q) (v : Q) :
  last l = Some v -> list_index l (Z.of_nat (length l) - 1) = Ok v.
Proof.
  intros Hlast. rewrite last_lookup in Hlast.
  assert (Hlen : (0 < length l)%nat).
  { destruct l; simpl in *; [discriminate|lia]. }
  unfold list_index.
  replace (Z.of_nat (length l) - 1 <? 0)%Z with false by lia.
  replace (0 <=? Z.of_nat (length l) - 1)%Z with true by lia.
  replace (Z.of_nat (length l) - 1 <? Z.of_nat (length l))%Z with true by lia.
  simpl.
  replace (Z.to_nat (Z.of_nat (length l) - 1)) with (pred (length l)) by lia.
  rewrite Hlast. reflexivity.
Qed.

Lemma base_damage_beyond_table (c : component) (ranks : gmap string Z)
  (k : string) (rank : Z) (v : Q) :
  rank_index c = Some k ->
  ranks !! k = Some rank ->
  (Z.of_nat (length (base c)) <= rank)%Z ->
  last (base c) = Some v ->
  get_base_damage_at_rank c ranks = Ok v.
Proof.
  intros Hk Hr Hge Hlast. unfold get_base_damage_at_rank.
  rewrite Hk, Hr. simpl. rewrite (rank_idx_beyond _ _ Hge).
  apply list_index_last. exact Hlast.
Qed.

End RankIndexing.

(** C7. A component with a non-empty base-damage table and a rank source,
    asked at a rank at or beyond the table length, gives the table's last
    entry; a 5-entry table gives the same value at rank 7 as at rank 5; and
    the index computed from the rank is never beyond the last index. *)
Theorem base_damage_rank_clamps_to_last :
  (forall (c : Combos.component) (ranks : gmap string Z) (k : string) (rank : Z),
      Combos.base c <> [] ->
      Combos.rank_index c = Some k ->
      ranks !! k = Some rank ->
      (Z.of_nat (length (Combos.base c)) <= rank)%Z ->
      exists v, last (Combos.base c) = Some v
                /\ Combos.get_base_damage_at_rank c ranks = Ok v)
  /\ (forall (c : Combos.component) (ranks5 ranks7 : gmap string Z) (k : string),
      length (Combos.base c) = 5%nat ->
      Combos.rank_index c = Some k ->
      ranks5 !! k = Some 5%Z ->
      ranks7 !! k = Some 7%Z ->
      exists v, Combos.get_base_damage_at_rank c ranks5 = Ok v
                /\ Combos.get_base_damage_at_rank c ranks7 = Ok v)
  /\ (forall (rank : Z) (base_list : list Q),
      (Combos.rank_idx rank base_list <= Z.of_nat (length base_list) - 1)%Z).
Proof.
  split; [|split].
  - intros c ranks k rank Hne Hk Hr Hge.
    destruct (last (Combos.base c)) as [v|] eqn:Hlast.
    + exists v. split; [reflexivity|].
      eapply base_damage_beyond_table; eauto.
    + apply last_None in Hlast. contradiction.
  - intros c ranks5 ranks7 k Hlen Hk H5 H7.
    destruct (last (Combos.base c)) as [v|] eqn:Hlast.
    + exists v. split.
      * eapply base_damage_beyond_table; eauto. rewrite Hlen. lia.
      * eapply base_damage_beyond_table; eauto. rewrite Hlen. lia.
    + apply last_None in Hlast. rewrite Hlast in Hlen. discriminate.
  - intros rank base_list. apply rank_idx_le_last.
Qed.

Lemma base_damage_rank_clamps_to_last_witness :
  (exists v, last [70; 95; 120; 145; 170] = Some v
             /\ Combos.get_base_damage_at_rank
                  (Combos.comp "Q isolated" [70; 95; 120; 145; 170] 1.15
                               "physical" (Some "q"))
                  {[ "q" := 9%Z ]} = Ok v)
  /\ (exists v,
        Combos.get_base_damage_at_rank
          (Combos.comp "Q isolated" [70; 95; 120; 145; 170] 1.15
                       "physical" (Some "q")) {[ "q" := 5%Z ]} = Ok v
        /\ Combos.get_base_damage_at_rank
             (Combos.comp "Q isolated" [70; 95; 120; 145; 170] 1.15
                          "physical" (Some "q")) {[ "q" := 7%Z ]} = Ok v).
Proof.
  destruct base_damage_rank_clamps_to_last as (Hlast & H57 & _).
  split.
  - apply (Hlast (Combos.comp "Q isolated" [70; 95; 120; 145; 170] 1.15
                              "physical" (Some "q"))
                 {[ "q" := 9%Z ]} "q" 9%Z).
    + discriminate.
    + reflexivity.
    + vm_compute. reflexivity.
    + vm_compute. discriminate.
  - apply (H57 (Combos.comp "Q isolated" [70; 95; 120; 145; 170] 1.15
                            "physical" (Some "q"))
               {[ "q" := 5%Z ]} {[ "q" := 7%Z ]} "q").
    + reflexivity.
    + reflexivity.
    + vm_compute. reflexivity.
    + vm_compute. reflexivity.
Defined.

(** ** Champion stats by level *)

Section LevelScaling.

Import ChampionStats.

Lemma table_nonneg : Forall (fun kv => entry_nonneg kv.2) table.
Proof.
  unfold table.
  repeat (apply Forall_cons; split;
          [unfold entry_nonneg; simpl; repeat split; discriminate|]).
  apply Forall_nil. exact I.
Qed.

Lemma CHAMPION_STATS_nonneg :
  map_Forall (fun _ e => entry_nonneg e) CHAMPION_STATS.
Proof.
  with_strategy transparent [CHAMPION_STATS]
    (apply table_Forall, table_nonneg).
Qed.

Lemma default_entry_present :
  CHAMPION_STATS !! "_default" = Some default_stats.
Proof. vm_compute. reflexivity. Qed.

Lemma get_champion_stats_total (name : string) :
  get_champion_stats name
  = Ok (default default_stats (CHAMPION_STATS !! normalize name)).
Proof.
  unfold get_champion_stats, dict_index. rewrite default_entry_present.
  reflexivity.
Qed.

Lemma get_champion_stats_nonneg (name : string) (e : entry) :
  get_champion_stats name = Ok e -> entry_nonneg e.
Proof.
  intros H.
  apply (get_with_default_Forall entry_nonneg CHAMPION_STATS (normalize name)).
  - apply CHAMPION_STATS_nonneg.
  - exact H.
Qed.

Lemma clamp_level_range (level : Z) :
  (1 <= clamp_level level <= 18)%Z.
Proof. unfold clamp_level. lia. Qed.

Lemma clamp_level_mono (l1 l2 : Z) :
  (l1 <= l2)%Z -> (clamp_level l1 <= clamp_level l2)%Z.
Proof. unfold clamp_level. lia. Qed.

Lemma clamp_level_idem (level : Z) :
  clamp_level (clamp_level level) = clamp_level level.
Proof. unfold clamp_level. lia. Qed.

Lemma calculate_stats_at_level_clamped (name : string) (level : Z) :
  calculate_stats_at_level name level
  = calculate_stats_at_level name (clamp_level level).
Proof.
  unfold calculate_stats_at_level. rewrite clamp_level_idem. reflexivity.
Qed.

Lemma linear_mono (b d : Q) (l1 l2 : Z) :
  0 <= d -> (l1 <= l2)%Z ->
  b + d * inject_Z (l1 - 1) <= b + d * inject_Z (l2 - 1).
Proof.
  intros Hd Hl.
  assert (Hq : inject_Z (l1 - 1) <= inject_Z (l2 - 1)).
  { rewrite <- Zle_Qle. lia. }
  nra.
Qed.

Lemma calculate_stats_at_level_nonneg (name : string) (level : Z)
  (s : level_stats) :
  calculate_stats_at_level name level = Ok s ->
  0 <= armor s /\ 0 <= mr s /\ 0 <= max_hp s.
Proof.
  unfold calculate_stats_at_level.
  destruct (get_champion_stats name) as [e|] eqn:He; simpl; [|discriminate].
  intros [= <-]. simpl.
  destruct (get_champion_stats_nonneg name e He) as (A0 & A1 & M0 & M1 & H0 & H1).
  pose proof (clamp_level_range level) as Hr.
  assert (Hq : 0 <= inject_Z (clamp_level level - 1)).
  { change 0 with (inject_Z 0). rewrite <- Zle_Qle. lia. }
  repeat split; nra.
Qed.

End LevelScaling.

(** C8. For every champion name (so for every key of the stats table, the
    default entry included) and all levels [L1 <= L2], the armor, MR and max
    HP at [L1] are at most those at [L2]; every per-level delta of the table
    is non-negative; and a level outside [1,18] gives the stats of the level
    clamped into that range. *)
Theorem stats_monotone_in_level (name : string) (L1 L2 : Z) :
  (L1 <= L2)%Z ->
  (exists s1 s2,
      ChampionStats.calculate_stats_at_level name L1 = Ok s1
      /\ ChampionStats.calculate_stats_at_level name L2 = Ok s2
      /\ ChampionStats.armor s1 <= ChampionStats.armor s2
      /\ ChampionStats.mr s1 <= ChampionStats.mr s2
      /\ ChampionStats.max_hp s1 <= ChampionStats.max_hp s2)
  /\ map_Forall (fun _ e =>
                   0 <= ChampionStats.armor_per_level e
                   /\ 0 <= ChampionStats.mr_per_level e
                   /\ 0 <= ChampionStats.hp_per_level e)
                ChampionStats.CHAMPION_STATS
  /\ ChampionStats.calculate_stats_at_level name L1
     = ChampionStats.calculate_stats_at_level name (ChampionStats.clamp_level L1)
  /\ (1 <= ChampionStats.clamp_level L1 <= 18)%Z.
Proof.
  intros HL. split; [|split; [|split]].
  - unfold ChampionStats.calculate_stats_at_level.
    destruct (ChampionStats.get_champion_stats name) as [e|] eqn:He.
    2:{ rewrite get_champion_stats_total in He. discriminate. }
    simpl. eexists _, _. split; [reflexivity|]. split; [reflexivity|]. simpl.
    destruct (get_champion_stats_nonneg name e He) as (_ & A1 & _ & M1 & _ & H1).
    pose proof (clamp_level_mono L1 L2 HL) as Hc.
    repeat split; apply linear_mono; assumption.
  - intros k e Hk.
    destruct (CHAMPION_STATS_nonneg k e Hk) as (_ & A1 & _ & M1 & _ & H1).
    auto.
  - apply calculate_stats_at_level_clamped.
  - apply clamp_level_range.
Qed.

Lemma stats_monotone_in_level_witness :
  (3 <= 11)%Z /\
  exists s1 s2,
    ChampionStats.calculate_stats_at_level "Darius" 3 = Ok s1
    /\ ChampionStats.calculate_stats_at_level "Darius" 11 = Ok s2
    /\ ChampionStats.armor s1 <= ChampionStats.armor s2
    /\ ChampionStats.mr s1 <= ChampionStats.mr s2
    /\ ChampionStats.max_hp s1 <= ChampionStats.max_hp s2.
Proof.
  split; [lia|].
  apply (stats_monotone_in_level "Darius" 3 11). lia.
Defined.

(** ** Unknown champions and items *)

Section UnknownIds.

Import KillCalc.

Lemma default_combo_present :
  Combos.CHAMPION_COMBOS !! "_default" = Some default_combo.
Proof. vm_compute. reflexivity. Qed.

Lemma get_combo_total (name : string) :
  Combos.get_combo name
  = Ok (default default_combo
          (Combos.CHAMPION_COMBOS !! Combos.normalize name)).
Proof.
  unfold Combos.get_combo, dict_index. rewrite default_combo_present.
  reflexivity.
Qed.

Lemma deaths_dance_known :
  ItemStats.ITEM_STATS !! "deaths_dance" <> None.
Proof. vm_compute. discriminate. Qed.

(** An item absent from [ITEM_STATS] leaves the flags and shields of the
    loop of [_build_enemy_stats] alone and adds zero to each stat. *)
Lemma build_item_step_unknown (acc : build_acc) (item_name : string) :
  ItemStats.ITEM_STATS !! _normalize_item_key item_name = None ->
  build_item_step acc item_name
  = mk_build_acc (b_armor acc + 0) (b_mr acc + 0) (b_max_hp acc + 0)
      (b_item_shields acc) (b_item_revive acc) (b_death_dance_flag acc).
Proof.
  intros Hk. unfold build_item_step. rewrite Hk. simpl.
  destruct (String.eqb_spec (_normalize_item_key item_name) "deaths_dance")
    as [Heq|Hne].
  - rewrite Heq in Hk. exfalso. apply deaths_dance_known. exact Hk.
  - reflexivity.
Qed.

End UnknownIds.

(** C9. The lookups are total: for every champion name
    [get_champion_stats], [calculate_stats_at_level] and [get_combo] return
    (no [KeyError]); a name whose key is absent from the table gives the
    [_default] stats entry, respectively the [_default] combo, so any two
    unknown names give the same output; an item whose key is absent from
    [ITEM_STATS] gives the empty entry and adds zero armor, MR and HP and no
    flag in [_build_enemy_stats], and an item absent from
    [ACTIVE_DAMAGE_ITEMS] adds no active damage. *)
Theorem unknown_ids_use_defaults :
  (forall name, exists e, ChampionStats.get_champion_stats name = Ok e)
  /\ (forall name level, exists s,
        ChampionStats.calculate_stats_at_level name level = Ok s)
  /\ (forall name, exists c, Combos.get_combo name = Ok c)
  /\ (forall name,
        ChampionStats.CHAMPION_STATS !! ChampionStats.normalize name = None ->
        ChampionStats.get_champion_stats name = Ok default_stats
        /\ ChampionStats.CHAMPION_STATS !! "_default" = Some default_stats)
  /\ (forall name,
        Combos.CHAMPION_COMBOS !! Combos.normalize name = None ->
        Combos.get_combo name = Ok default_combo
        /\ Combos.CHAMPION_COMBOS !! "_default" = Some default_combo)
  /\ (forall name1 name2 level,
        ChampionStats.CHAMPION_STATS !! ChampionStats.normalize name1 = None ->
        ChampionStats.CHAMPION_STATS !! ChampionStats.normalize name2 = None ->
        ChampionStats.calculate_stats_at_level name1 level
        = ChampionStats.calculate_stats_at_level name2 level)
  /\ (forall item_name acc,
        ItemStats.ITEM_STATS !! KillCalc._normalize_item_key item_name = None ->
        ItemStats.get_item_stats item_name = ItemStats.empty
        /\ KillCalc.b_armor (KillCalc.build_item_step acc item_name)
           == KillCalc.b_armor acc
        /\ KillCalc.b_mr (KillCalc.build_item_step acc item_name)
           == KillCalc.b_mr acc
        /\ KillCalc.b_max_hp (KillCalc.build_item_step acc item_name)
           == KillCalc.b_max_hp acc
        /\ KillCalc.b_item_shields (KillCalc.build_item_step acc item_name)
           = KillCalc.b_item_shields acc
        /\ KillCalc.b_item_revive (KillCalc.build_item_step acc item_name)
           = KillCalc.b_item_revive acc
        /\ KillCalc.b_death_dance_flag (KillCalc.build_item_step acc item_name)
           = KillCalc.b_death_dance_flag acc)
  /\ (forall item_name eff_armor acc,
        ItemStats.get_active_damage item_name = None ->
        KillCalc.active_item_step eff_armor acc item_name = acc).
Proof.
  split; [|split; [|split; [|split; [|split; [|split; [|split]]]]]].
  - intros name. rewrite get_champion_stats_total. eauto.
  - intros name level. unfold ChampionStats.calculate_stats_at_level.
    rewrite get_champion_stats_total. cbn [mbind py_bind]. eauto.
  - intros name. rewrite get_combo_total. eauto.
  - intros name H. split; [|apply default_entry_present].
    rewrite get_champion_stats_total, H. reflexivity.
  - intros name H. split; [|apply default_combo_present].
    rewrite get_combo_total, H. reflexivity.
  - intros name1 name2 level H1 H2.
    unfold ChampionStats.calculate_stats_at_level.
    rewrite !get_champion_stats_total, H1, H2. reflexivity.
  - intros item_name acc H.
    split; [|rewrite (build_item_step_unknown acc item_name H); simpl;
             split; [lra|split; [lra|split; [lra|auto]]]].
    unfold ItemStats.get_item_stats.
    change (replace "-" "_" (replace " " "_" (replace "'" "" (lower item_name))))
      with (KillCalc._normalize_item_key item_name).
    rewrite H. reflexivity.
  - intros item_name eff_armor [d u] H. unfold KillCalc.active_item_step.
    rewrite H. reflexivity.
Qed.

Lemma unknown_ids_use_defaults_witness :
  (ChampionStats.get_champion_stats "Teemo" = Ok default_stats
   /\ ChampionStats.CHAMPION_STATS !! "_default" = Some default_stats)
  /\ (Combos.get_combo "Teemo" = Ok default_combo
      /\ Combos.CHAMPION_COMBOS !! "_default" = Some default_combo)
  /\ ChampionStats.calculate_stats_at_level "Teemo" 7
     = ChampionStats.calculate_stats_at_level "Dr. Mundo" 7
  /\ ItemStats.get_item_stats "Doran's Blade" = ItemStats.empty
  /\ KillCalc.active_item_step 30 (0, []) "Doran's Blade" = (0, []).
Proof.
  destruct unknown_ids_use_defaults
    as (_ & _ & _ & Hstats & Hcombo & Hsame & Hitem & Hactive).
  split; [|split; [|split; [|split]]].
  - apply (Hstats "Teemo"). vm_compute. reflexivity.
  - apply (Hcombo "Teemo"). vm_compute. reflexivity.
  - apply (Hsame "Teemo" "Dr. Mundo" 7%Z); vm_compute; reflexivity.
  - apply (Hitem "Doran's Blade"
                 (KillCalc.mk_build_acc 0 0 0 [] false false)).
    vm_compute. reflexivity.
  - apply (Hactive "Doran's Blade" 30 (0, [])). vm_compute. reflexivity.
Defined.

(** ** Evaluated calls *)

(** Opens a hypothesis [calculate_kill_chance_locals ... = Ok (r, Some loc)]:
    every intermediate result gets a name and an equation. *)
Ltac open_call H :=
  unfold KillCalc.calculate_kill_chance_locals in H;
  let Hp := fresh "Hpause" in
  destruct (KillCalc.auto_pause _ _ _) eqn:Hp in H; [discriminate H|];
  let Hes := fresh "Hstats" in
  let es := fresh "es" in
  destruct (KillCalc._build_enemy_stats _ _) as [es|] eqn:Hes in H;
  cbn [mbind py_bind] in H; [|discriminate H];
  let Hcd := fresh "Hcombo" in
  let phys := fresh "phys" in
  let magic := fresh "magic" in
  let bd := fresh "bd" in
  destruct (KillCalc._calculate_combo_damage _ _ _) as [[[phys magic] bd]|]
    eqn:Hcd in H;
  cbn [mbind py_bind] in H; [|discriminate H];
  let Hact := fresh "Hactive" in
  let adm := fresh "adm" in
  let used := fresh "used" in
  destruct (fold_left (KillCalc.active_item_step _) _ _) as [adm used]
    eqn:Hact in H;
  let Hsh := fresh "Hshield" in
  let hp1 := fresh "hp1" in
  let pen1 := fresh "pen1" in
  let fl1 := fresh "fl1" in
  destruct (fold_left KillCalc.shield_step _ _) as [[hp1 pen1] fl1]
    eqn:Hsh in H;
  let Hdd := fresh "Hdd" in
  destruct (KillCalc.death_dance_flag es) eqn:Hdd in H;
  let Hrev := fresh "Hrevive" in
  destruct (KillCalc.item_revive es) eqn:Hrev in H;
  (let Hcdf := fresh "Hcd" in
   let pen3 := fresh "pen3" in
   let fl3 := fresh "fl3" in
   destruct (fold_left KillCalc.cd_step _ _) as [pen3 fl3] eqn:Hcdf in H;
   let Hgc := fresh "Hget" in
   let cb := fresh "cb" in
   destruct (Combos.get_combo _) as [cb|] eqn:Hgc in H;
   cbn [mbind py_bind] in H; [|discriminate H];
   injection H as <- <-).

Section EffectiveArmor.

Import KillCalc.

Lemma active_item_step_le (ea d : Q) (u : list string) (item : string)
  (a : ItemStats.active) :
  0 <= ea ->
  ItemStats.get_active_damage item = Some a ->
  d <= fst (active_item_step ea (d, u) item)
  /\ fst (active_item_step ea (d, u) item) <= d + py_max 0 (ItemStats.damage a).
Proof.
  intros Hea Ha. unfold active_item_step. rewrite Ha.
  destruct (_dmg_reduction_nonneg_bounds ea Hea) as [Hm0 Hm1].
  pose proof (py_max_lb_l 0 (ItemStats.damage a)) as Hl.
  pose proof (py_max_lb_r 0 (ItemStats.damage a)) as Hr.
  destruct (Qgtb (ItemStats.damage a) 0) eqn:Hd; cbn [fst]; [|lra].
  apply Qgtb_true in Hd.
  destruct (String.eqb (ItemStats.type a) "physical"); [|lra].
  split; nra.
Qed.

Lemma call_effective_armor my_state enemy ehp mhp allies gt r loc :
  calculate_kill_chance_locals my_state enemy ehp mhp allies gt
  = Ok (r, Some loc) ->
  eff_armor loc = _calc_effective_armor (enemy_armor_used r) my_state
  /\ phys_dealt loc = phys_raw loc * _dmg_reduction (eff_armor loc)
  /\ active_dmg loc
     = fst (fold_left (active_item_step (eff_armor loc))
                      (default [] (Me.items my_state)) (0, [])).
Proof.
  intros H. open_call H; cbn [eff_armor enemy_armor_used phys_dealt phys_raw
                                active_dmg]; rewrite Hactive; auto.
Qed.

End EffectiveArmor.

(** Closes [ordinary_opt o] and [ordinary x] on closed values. *)
Ltac ordinary_closed :=
  lazymatch goal with
  | |- ordinary_opt _ =>
      let x := fresh "x" in
      let Hx := fresh "Hx" in
      intros x Hx; vm_compute in Hx;
      first [ discriminate Hx
            | injection Hx as <-; split; vm_compute; discriminate ]
  | |- ordinary _ => split; vm_compute; discriminate
  end.

(** Provides the result and the locals of a closed evaluated call as the
    witnesses of [exists r loc, call = Ok (r, Some loc) /\ _]. *)
Ltac run_call :=
  match goal with
  | |- exists r loc, ?call = Ok (r, Some loc) /\ _ =>
      let v := eval vm_compute in call in
      match v with
      | Ok (?r, Some ?loc) =>
          exists r, loc; split; [vm_compute; reflexivity|]
      end
  end.

(** C10. [_calc_effective_armor] is never negative, so [_dmg_reduction]
    takes its first branch on it and the multiplier lies in (0, 1]; in an
    evaluated call the effective armor is [_calc_effective_armor] of the
    target's armor, the combo's physical damage is multiplied by that
    multiplier, and an active item adds at most its flat damage. *)
Theorem effective_armor_never_negative (base_armor : Q) (my_state : Me.t) :
  (0 <= KillCalc._calc_effective_armor base_armor my_state
   /\ Qgeb (KillCalc._calc_effective_armor base_armor my_state) 0 = true
   /\ KillCalc._dmg_reduction (KillCalc._calc_effective_armor base_armor my_state)
      = 100 / (100 + KillCalc._calc_effective_armor base_armor my_state)
   /\ 0 < KillCalc._dmg_reduction
            (KillCalc._calc_effective_armor base_armor my_state)
   /\ KillCalc._dmg_reduction
        (KillCalc._calc_effective_armor base_armor my_state) <= 1)
  /\ (forall enemy ehp mhp allies gt r loc,
        KillCalc.calculate_kill_chance_locals my_state enemy ehp mhp allies gt
        = Ok (r, Some loc) ->
        KillCalc.eff_armor loc
        = KillCalc._calc_effective_armor (KillCalc.enemy_armor_used r) my_state
        /\ 0 <= KillCalc.eff_armor loc
        /\ KillCalc.phys_dealt loc
           = KillCalc.phys_raw loc * KillCalc._dmg_reduction (KillCalc.eff_armor loc)
        /\ KillCalc._dmg_reduction (KillCalc.eff_armor loc) <= 1
        /\ KillCalc.active_dmg loc
           = fst (fold_left (KillCalc.active_item_step (KillCalc.eff_armor loc))
                            (default [] (Me.items my_state)) (0, []))
        /\ forall d u item a,
             ItemStats.get_active_damage item = Some a ->
             fst (KillCalc.active_item_step (KillCalc.eff_armor loc) (d, u) item)
             <= d + py_max 0 (ItemStats.damage a)).
Proof.
  pose proof (_calc_effective_armor_nonneg base_armor my_state) as Hnn.
  split.
  - split; [exact Hnn|]. split; [apply Qgeb_true; exact Hnn|].
    split; [apply _dmg_reduction_nonneg; exact Hnn|].
    apply _dmg_reduction_nonneg_bounds. exact Hnn.
  - intros enemy ehp mhp allies gt r loc H.
    destruct (call_effective_armor _ _ _ _ _ _ _ _ H) as (Hea & Hph & Hact).
    assert (Hea0 : 0 <= KillCalc.eff_armor loc).
    { rewrite Hea. apply _calc_effective_armor_nonneg. }
    split; [exact Hea|]. split; [exact Hea0|]. split; [exact Hph|].
    split; [apply _dmg_reduction_nonneg_bounds; exact Hea0|].
    split; [exact Hact|].
    intros d u item a Ha.
    apply (active_item_step_le _ d u item a Hea0 Ha).
Qed.

Lemma effective_armor_never_negative_witness :
  exists r loc,
    KillCalc.calculate_kill_chance_locals me_khazix enemy_darius
      (Some 0.4) None 0 600 = Ok (r, Some loc)
    /\ 0 <= KillCalc.eff_armor loc
    /\ KillCalc._dmg_reduction (KillCalc.eff_armor loc) <= 1
    /\ (ItemStats.get_active_damage "Galeforce"
        = Some (ItemStats.mk_active 150 "physical" "dash + damage")
        /\ fst (KillCalc.active_item_step (KillCalc.eff_armor loc) (0, [])
                                          "Galeforce")
           <= 0 + py_max 0 150).
Proof.
  run_call.
  match goal with
  | |- 0 <= KillCalc.eff_armor ?loc /\ _ =>
      destruct (effective_armor_never_negative 0 me_khazix) as [_ Hcall];
      match eval vm_compute in
            (KillCalc.calculate_kill_chance_locals me_khazix enemy_darius
               (Some 0.4) None 0 600) with
      | Ok (?r, _) =>
          destruct (Hcall enemy_darius (Some 0.4) None 0%Z 600 r loc)
            as (_ & H0 & _ & H1 & _ & Hstep);
          [vm_compute; reflexivity|]
      end
  end.
  split; [exact H0|]. split; [exact H1|].
  split; [vm_compute; reflexivity|].
  apply (Hstep 0 [] "Galeforce" (ItemStats.mk_active 150 "physical" "dash + damage")).
  vm_compute. reflexivity.
Defined.

(** ** The auto-pause gate *)

Section AutoPause.

Import KillCalc.

Lemma pre_game_dec (gt : Q) :
  (Qgtb gt 0 && Qltb gt 10)%bool = true <-> pre_game gt.
Proof.
  unfold pre_game. rewrite andb_true_iff, Qgtb_true, Qltb_true. tauto.
Qed.

Lemma call_paused my_state enemy ehp mhp allies gt reason :
  auto_pause (resolve_my_hp my_state mhp)
             (default false (Enemy.is_dead enemy)) gt = Some reason ->
  calculate_kill_chance my_state enemy ehp mhp allies gt
  = Ok (paused_result my_state enemy reason).
Proof.
  intros H. unfold calculate_kill_chance, calculate_kill_chance_locals.
  rewrite H. reflexivity.
Qed.

Lemma call_not_paused my_state enemy ehp mhp allies gt r :
  auto_pause (resolve_my_hp my_state mhp)
             (default false (Enemy.is_dead enemy)) gt = None ->
  calculate_kill_chance my_state enemy ehp mhp allies gt = Ok r ->
  paused r = false /\ pause_reason r = "".
Proof.
  intros Hp H. unfold calculate_kill_chance in H.
  destruct (calculate_kill_chance_locals my_state enemy ehp mhp allies gt)
    as [[r' [loc|]]|] eqn:Hc; cbn [mbind py_bind fst] in H;
    try discriminate H.
  - injection H as <-. open_call Hc. all: split; reflexivity.
  - unfold calculate_kill_chance_locals in Hc. rewrite Hp in Hc.
    destruct (_build_enemy_stats enemy ehp) as [es|];
      cbn [mbind py_bind] in Hc; [|discriminate Hc].
    destruct (_calculate_combo_damage _ _ _) as [[[p m] b]|];
      cbn [mbind py_bind] in Hc; [|discriminate Hc].
    destruct (fold_left (active_item_step _) _ _).
    destruct (fold_left shield_step _ _) as [[? ?] ?].
    destruct (death_dance_flag es); destruct (item_revive es);
      destruct (fold_left cd_step _ _);
      destruct (Combos.get_combo _); cbn [mbind py_bind] in Hc;
      discriminate Hc.
Qed.

Lemma auto_pause_cases (my_hp : Q) (dead : bool) (gt : Q) :
  (pre_game gt /\ auto_pause my_hp dead gt = Some "Pre-game (< 10s)")
  \/ (~ pre_game gt /\ my_hp < MIN_MY_HP_TO_ENGAGE
      /\ auto_pause my_hp dead gt = Some (low_hp_reason my_hp))
  \/ (~ pre_game gt /\ MIN_MY_HP_TO_ENGAGE <= my_hp /\ dead = true
      /\ auto_pause my_hp dead gt = Some "Enemy is dead")
  \/ (~ pre_game gt /\ MIN_MY_HP_TO_ENGAGE <= my_hp /\ dead = false
      /\ 45 * 60 < gt
      /\ auto_pause my_hp dead gt = Some "Late game (>45min) — calc unreliable")
  \/ (~ pre_game gt /\ MIN_MY_HP_TO_ENGAGE <= my_hp /\ dead = false
      /\ gt <= 45 * 60 /\ auto_pause my_hp dead gt = None).
Proof.
  unfold auto_pause.
  destruct (Qgtb gt 0 && Qltb gt 10)%bool eqn:Hpre.
  { left. apply pre_game_dec in Hpre. auto. }
  assert (Hnpre : ~ pre_game gt).
  { intros Hc. apply pre_game_dec in Hc. congruence. }
  right.
  destruct (Qltb my_hp MIN_MY_HP_TO_ENGAGE) eqn:Hhp.
  { left. apply Qltb_true in Hhp. auto. }
  apply Qltb_false in Hhp. right.
  destruct dead.
  { left. auto. }
  right.
  destruct (Qgtb gt (45 * 60)) eqn:Hlate.
  - left. apply Qgtb_true in Hlate. auto.
  - right. apply Qgtb_false in Hlate. auto.
Qed.

End AutoPause.

(** C3 (amended). The gate is checked before anything else and the first
    check that fires decides the result, which carries only the pause
    fields: elapsed time in (0,10) gives the pre-game reason; otherwise an
    attacker HP fraction below 0.35 gives the attacker-HP reason; otherwise a
    dead target gives the dead reason; otherwise an elapsed time above 2700
    gives the late-game reason; otherwise the call is not paused.  The
    attacker HP fraction is [my_hp_percent] when it is given and non-zero,
    else the snapshot's [hp_percent], else 1.0.  In particular, when the
    elapsed time is not in (0,10), the attacker HP fraction is below 0.35 and
    the target is dead, the result is paused with the attacker-HP reason. *)
Theorem auto_pause_first_match_wins
  (my_state : Me.t) (enemy : Enemy.t) (ehp mhp : option Q) (allies : Z)
  (gt : Q) :
  (pre_game gt ->
   KillCalc.calculate_kill_chance my_state enemy ehp mhp allies gt
   = Ok (paused_result my_state enemy "Pre-game (< 10s)"))
  /\ (~ pre_game gt ->
      KillCalc.resolve_my_hp my_state mhp < 0.35 ->
      KillCalc.calculate_kill_chance my_state enemy ehp mhp allies gt
      = Ok (paused_result my_state enemy
              (low_hp_reason (KillCalc.resolve_my_hp my_state mhp))))
  /\ (~ pre_game gt ->
      0.35 <= KillCalc.resolve_my_hp my_state mhp ->
      default false (Enemy.is_dead enemy) = true ->
      KillCalc.calculate_kill_chance my_state enemy ehp mhp allies gt
      = Ok (paused_result my_state enemy "Enemy is dead"))
  /\ (~ pre_game gt ->
      0.35 <= KillCalc.resolve_my_hp my_state mhp ->
      default false (Enemy.is_dead enemy) = false ->
      2700 < gt ->
      KillCalc.calculate_kill_chance my_state enemy ehp mhp allies gt
      = Ok (paused_result my_state enemy "Late game (>45min) — calc unreliable"))
  /\ (~ pre_game gt ->
      0.35 <= KillCalc.resolve_my_hp my_state mhp ->
      default false (Enemy.is_dead enemy) = false ->
      gt <= 2700 ->
      forall r,
        KillCalc.calculate_kill_chance my_state enemy ehp mhp allies gt = Ok r ->
        KillCalc.paused r = false /\ KillCalc.pause_reason r = "")
  /\ (~ pre_game gt ->
      KillCalc.resolve_my_hp my_state mhp < 0.35 ->
      default false (Enemy.is_dead enemy) = true ->
      KillCalc.calculate_kill_chance my_state enemy ehp mhp allies gt
      = Ok (paused_result my_state enemy
              (low_hp_reason (KillCalc.resolve_my_hp my_state mhp)))).
Proof.
  assert (H35 : KillCalc.MIN_MY_HP_TO_ENGAGE == 0.35) by reflexivity.
  assert (H2700 : 45 * 60 == 2700) by reflexivity.
  destruct (auto_pause_cases (KillCalc.resolve_my_hp my_state mhp)
              (default false (Enemy.is_dead enemy)) gt)
    as [(Hpre & Hp)|[(Hpre & Hhp & Hp)|[(Hpre & Hhp & Hd & Hp)
       |[(Hpre & Hhp & Hd & Hl & Hp)|(Hpre & Hhp & Hd & Hl & Hp)]]]].
  all: repeat match goal with
         | |- _ /\ _ => split
         end; intros.
  all: try contradiction; try lra; try congruence.
  all: try (rewrite (call_paused _ _ _ _ _ _ _ Hp); reflexivity).
  all: eapply call_not_paused; eauto.
Qed.

Lemma auto_pause_first_match_wins_witness :
  (pre_game 5 /\
   KillCalc.calculate_kill_chance me_defaults enemy_dead None (Some 0.2) 0 5
   = Ok (paused_result me_defaults enemy_dead "Pre-game (< 10s)"))
  /\ ((~ pre_game 600 /\ KillCalc.resolve_my_hp me_defaults (Some 0.2) < 0.35
       /\ default false (Enemy.is_dead enemy_dead) = true) /\
      KillCalc.calculate_kill_chance me_defaults enemy_dead None (Some 0.2) 0 600
      = Ok (paused_result me_defaults enemy_dead "Your HP too low (20%)"))
  /\ ((~ pre_game 600 /\ 0.35 <= KillCalc.resolve_my_hp me_defaults (Some 0.9)
       /\ default false (Enemy.is_dead enemy_dead) = true) /\
      KillCalc.calculate_kill_chance me_defaults enemy_dead None (Some 0.9) 0 600
      = Ok (paused_result me_defaults enemy_dead "Enemy is dead"))
  /\ ((~ pre_game 3000 /\ 0.35 <= KillCalc.resolve_my_hp me_defaults (Some 0.9)
       /\ default false (Enemy.is_dead enemy_defaults) = false /\ 2700 < 3000) /\
      KillCalc.calculate_kill_chance me_defaults enemy_defaults None (Some 0.9) 0 3000
      = Ok (paused_result me_defaults enemy_defaults
              "Late game (>45min) — calc unreliable")).
Proof.
  assert (Hn600 : ~ pre_game 600).
  { intros [_ H]. vm_compute in H. discriminate H. }
  assert (Hn3000 : ~ pre_game 3000).
  { intros [_ H]. vm_compute in H. discriminate H. }
  assert (Hlow : KillCalc.resolve_my_hp me_defaults (Some 0.2) < 0.35)
    by (vm_compute; reflexivity).
  assert (Hhigh : 0.35 <= KillCalc.resolve_my_hp me_defaults (Some 0.9))
    by (vm_compute; discriminate).
  split; [|split; [|split]].
  - assert (Hpre : pre_game 5) by (split; vm_compute; reflexivity).
    split; [exact Hpre|].
    apply (auto_pause_first_match_wins me_defaults enemy_dead None (Some 0.2)
             0%Z 5). exact Hpre.
  - split; [split; [exact Hn600|split; [exact Hlow|reflexivity]]|].
    apply (auto_pause_first_match_wins me_defaults enemy_dead None (Some 0.2)
             0%Z 600); [exact Hn600|exact Hlow|reflexivity].
  - split; [split; [exact Hn600|split; [exact Hhigh|reflexivity]]|].
    apply (auto_pause_first_match_wins me_defaults enemy_dead None (Some 0.9)
             0%Z 600); [exact Hn600|exact Hhigh|reflexivity].
  - split; [split; [exact Hn3000|split; [exact Hhigh|split;
            [reflexivity|vm_compute; reflexivity]]]|].
    apply (auto_pause_first_match_wins me_defaults enemy_defaults None
             (Some 0.9) 0%Z 3000);
      [exact Hn3000|exact Hhigh|reflexivity|vm_compute; reflexivity].
Defined.

(** C3, as stated, fails: with the attacker at 20% HP and the target dead at
    an elapsed time of 5 seconds, the pre-game check fires first and the
    reason is the pre-game one, not the attacker-HP one. *)
Lemma low_hp_and_dead_in_pre_game :
  KillCalc.resolve_my_hp me_defaults (Some 0.2) < 0.35
  /\ default false (Enemy.is_dead enemy_dead) = true
  /\ exists r,
       KillCalc.calculate_kill_chance me_defaults enemy_dead None (Some 0.2) 0 5
       = Ok r
       /\ KillCalc.paused r = true
       /\ KillCalc.pause_reason r = "Pre-game (< 10s)"
       /\ KillCalc.pause_reason r
          <> low_hp_reason (KillCalc.resolve_my_hp me_defaults (Some 0.2)).
Proof.
  split; [vm_compute; reflexivity|]. split; [reflexivity|].
  exists (paused_result me_defaults enemy_dead "Pre-game (< 10s)").
  split; [vm_compute; reflexivity|]. split; [reflexivity|].
  split; [reflexivity|]. vm_compute. discriminate.
Qed.

(** ** The target's stats *)

Section EnemyStats.

Import KillCalc.

Lemma build_item_step_stats (acc : build_acc) (item : string) :
  b_armor (build_item_step acc item)
  = b_armor acc + default 0 (ItemStats.armor (held_item_stats item))
  /\ b_mr (build_item_step acc item)
     = b_mr acc + default 0 (ItemStats.mr (held_item_stats item))
  /\ b_max_hp (build_item_step acc item)
     = b_max_hp acc + default 0 (ItemStats.hp (held_item_stats item)).
Proof. unfold build_item_step, held_item_stats. cbn [b_armor b_mr b_max_hp]. auto. Qed.

Lemma build_fold_stats (items : list string) (acc : build_acc) :
  b_armor (fold_left build_item_step items acc)
  == b_armor acc + sum_items ItemStats.armor items
  /\ b_mr (fold_left build_item_step items acc)
     == b_mr acc + sum_items ItemStats.mr items
  /\ b_max_hp (fold_left build_item_step items acc)
     == b_max_hp acc + sum_items ItemStats.hp items.
Proof.
  revert acc. induction items as [|item items IH]; intros acc.
  - cbn [fold_left sum_items fold_right]. repeat split; lra.
  - cbn [fold_left]. destruct (IH (build_item_step acc item)) as (Ha & Hm & Hh).
    destruct (build_item_step_stats acc item) as (Ea & Em & Eh).
    rewrite Ea in Ha. rewrite Em in Hm. rewrite Eh in Hh.
    unfold sum_items in *. cbn [fold_right].
    repeat split; lra.
Qed.

(** What [_build_enemy_stats] returns when a non-zero observed max HP is
    supplied: the observed value plus the HP of every held item, next to
    the armor and MR computed from level and items. *)
Lemma build_with_observed_max_hp (enemy : Enemy.t) (override : option Q)
  (real : Q) :
  Enemy.hp_max_real enemy = Some real ->
  ~ real == 0 ->
  exists es base,
    _build_enemy_stats enemy override = Ok es
    /\ ChampionStats.calculate_stats_at_level
         (default "_default" (Enemy.champion enemy))
         (default 1%Z (Enemy.level enemy)) = Ok base
    /\ max_hp es
       == real + sum_items ItemStats.hp (default [] (Enemy.items enemy))
    /\ armor es
       == ChampionStats.armor base
          + sum_items ItemStats.armor (default [] (Enemy.items enemy))
    /\ mr es
       == ChampionStats.mr base
          + sum_items ItemStats.mr (default [] (Enemy.items enemy)).
Proof.
  intros Hreal Hnz. unfold _build_enemy_stats. rewrite Hreal.
  assert (Ht : truthy real = true).
  { unfold truthy. apply negb_true_iff.
    destruct (Qeq_bool real 0) eqn:E; [|reflexivity].
    apply Qeq_bool_iff in E. contradiction. }
  rewrite Ht.
  destruct (ChampionStats.calculate_stats_at_level _ _) as [base|] eqn:Hb.
  2:{ unfold ChampionStats.calculate_stats_at_level in Hb.
      rewrite get_champion_stats_total in Hb. discriminate Hb. }
  cbn [mbind py_bind]. eexists _, base. split; [reflexivity|].
  split; [reflexivity|]. cbn [max_hp armor mr].
  match goal with
  | |- context [fold_left build_item_step ?l ?a] =>
      destruct (build_fold_stats l a) as (Ha & Hm & Hh)
  end.
  cbn [b_armor b_mr b_max_hp] in Ha, Hm, Hh. auto.
Qed.

End EnemyStats.

(** C1 at a failing input: for a target with an observed max HP of 2000 that
    holds Warmog's Armor (+1000 HP), [_build_enemy_stats] returns a max HP of
    3000, not the observed 2000; armor and MR are the computed ones. *)
Theorem observed_max_hp_gets_item_hp_added :
  exists es,
    KillCalc._build_enemy_stats enemy_observed_hp None = Ok es
    /\ Enemy.hp_max_real enemy_observed_hp = Some 2000
    /\ KillCalc.max_hp es == 3000
    /\ ~ KillCalc.max_hp es == 2000
    /\ KillCalc.armor es == 39 + 4.0 * 9
    /\ KillCalc.mr es == 32 + 2.05 * 9.
Proof.
  match eval vm_compute in (KillCalc._build_enemy_stats enemy_observed_hp None) with
  | Ok ?es => exists es
  end.
  split; [vm_compute; reflexivity|]. split; [reflexivity|].
  split; [reflexivity|]. split; [intros H; vm_compute in H; discriminate H|].
  split; reflexivity.
Qed.

(** ** The target's effective health *)

Section EffectiveHealth.

Import KillCalc.

(** The shield loop adds every numeric shield value to the effective HP,
    whatever the number stands for, leaves the effective HP alone for a
    string, and adds 0.08 to the penalty and one flag per entry. *)
Lemma shield_step_effect (hp p : Q) (fl : list item_flag) (name : string)
  (v : ItemStats.shield_val) :
  shield_step (hp, p, fl) (name, v)
  = match v with
    | ItemStats.ShieldNum q =>
        (hp + q, p + 0.08, (fl ++ [FlatShield name q])%list)
    | ItemStats.ShieldStr t =>
        (hp, p + 0.08, (fl ++ [TextShield name t])%list)
    end.
Proof. destruct v; reflexivity. Qed.

(** In an evaluated call the reported [enemy_effective_hp] is the rounded
    effective HP with which the summoner loop starts, and the effective HP
    of the kill ratio is the one with which that loop ends. *)
Lemma call_effective_hp my_state enemy ehp mhp allies gt r loc :
  calculate_kill_chance_locals my_state enemy ehp mhp allies gt
  = Ok (r, Some loc) ->
  exists hp0 pen0,
    enemy_effective_hp r = py_round hp0 1
    /\ effective_hp loc
       = s_effective_hp
           (fold_left summoner_step (default [] (Enemy.summoners enemy))
                      (mk_summoner_acc hp0 1 pen0 [])).
Proof.
  intros H. open_call H.
  all: cbn [enemy_effective_hp effective_hp]; eexists _, _; split; reflexivity.
Qed.

End EffectiveHealth.

(** C2 at a failing input: the entry [sterak_gage] has a 20%-of-max-HP
    passive shield stored as the number 0.20, and the shield loop adds that
    number to the effective HP (980 becomes 980.2) and records it as a flat
    shield; the shield source adds 0.08 to the penalty. *)
Theorem percent_passive_shield_added_as_flat :
  ItemStats.ITEM_STATS !! KillCalc._normalize_item_key "Sterak Gage"
  = Some (ItemStats.mk None None (Some 400) (Some (ItemStats.ShieldNum 0.20))
                       None None None)
  /\ exists r loc,
       KillCalc.calculate_kill_chance_locals me_defaults enemy_sterak
         None None 0 600 = Ok (r, Some loc)
       /\ KillCalc.enemy_current_hp r == 980
       /\ KillCalc.effective_hp loc == 980 + 0.20
       /\ ~ KillCalc.effective_hp loc == KillCalc.enemy_current_hp r
       /\ KillCalc.item_flags r = [KillCalc.FlatShield "Sterak Gage" 0.20]
       /\ KillCalc.confidence_penalty loc == 0.08.
Proof.
  split; [vm_compute; reflexivity|].
  run_call.
  split; [reflexivity|]. split; [reflexivity|].
  split; [intros H; vm_compute in H; discriminate H|].
  split; reflexivity.
Qed.

(** C5 at a failing input: against a target with Barrier (x1.25) and 1676
    HP, the kill ratio is computed over an effective HP of 2095, while the
    reported [enemy_effective_hp] is 1676: it is stored before the summoner
    loop runs. *)
Theorem reported_effective_hp_misses_summoner_multiplier :
  exists r loc,
    KillCalc.calculate_kill_chance_locals me_defaults enemy_barrier
      None None 0 600 = Ok (r, Some loc)
    /\ KillCalc.paused r = false
    /\ KillCalc.summoner_warnings r = [KillCalc.HpModifier "Barrier" 1.25]
    /\ KillCalc.enemy_current_hp r == 1676
    /\ KillCalc.effective_hp loc == 1676 * 1.25
    /\ KillCalc.kill_ratio_exact loc
       == KillCalc.adjusted_dealt loc / (1676 * 1.25)
    /\ KillCalc.enemy_effective_hp r == 1676
    /\ ~ KillCalc.enemy_effective_hp r == KillCalc.effective_hp loc.
Proof.
  run_call.
  split; [reflexivity|]. split; [reflexivity|]. split; [reflexivity|].
  split; [reflexivity|]. split; [reflexivity|]. split; [reflexivity|].
  intros H; vm_compute in H; discriminate H.
Qed.

(** ** Rounding *)

Section Rounding.

Lemma round_half_even_ge (x : Q) (k : Z) :
  inject_Z k <= x -> (k <= round_half_even x)%Z.
Proof.
  intros H. assert (Hf : (k <= Qfloor x)%Z).
  { rewrite <- (Qfloor_Z k). apply Qfloor_resp_le. exact H. }
  unfold round_half_even.
  destruct (Qcompare _ _); [destruct (Z.even _)| |]; lia.
Qed.

Lemma round_half_even_le (x : Q) (k : Z) :
  x <= inject_Z k -> (round_half_even x <= k)%Z.
Proof.
  intros H. pose proof (Qfloor_le x) as Hfl.
  assert (Hf : (Qfloor x <= k)%Z).
  { rewrite Zle_Qle. lra. }
  assert (Hup : inject_Z (Qfloor x) < x -> (Qfloor x + 1 <= k)%Z).
  { intros Hlt. assert (Hs : (Qfloor x < k)%Z) by (rewrite Zlt_Qlt; lra). lia. }
  unfold round_half_even.
  destruct (Qcompare (x - inject_Z (Qfloor x)) (1 # 2)) eqn:E.
  - apply Qeq_alt in E. destruct (Z.even _); [exact Hf|]. apply Hup. lra.
  - exact Hf.
  - apply Qgt_alt in E. apply Hup. lra.
Qed.

(** Rounding to three decimals keeps a value inside [0, 0.97]. *)
Lemma py_round3_bounds (x : Q) :
  0 <= x -> x <= 0.97 -> 0 <= py_round x 3 /\ py_round x 3 <= 0.97.
Proof.
  intros H0 H1. unfold py_round.
  change (inject_Z (10 ^ Z.of_nat 3)) with (inject_Z 1000).
  assert (Hlo : (0 <= round_half_even (x * inject_Z 1000))%Z).
  { apply round_half_even_ge. change (inject_Z 1000) with 1000.
    change (inject_Z 0) with 0. lra. }
  assert (Hhi : (round_half_even (x * inject_Z 1000) <= 970)%Z).
  { apply round_half_even_le. change (inject_Z 1000) with 1000.
    change (inject_Z 970) with 970. lra. }
  rewrite Zle_Qle in Hlo, Hhi.
  change (inject_Z 0) with 0 in Hlo. change (inject_Z 970) with 970 in Hhi.
  change (inject_Z 1000) with 1000 in *.
  split.
  - apply Qle_shift_div_l; lra.
  - apply Qle_shift_div_r; lra.
Qed.

End Rounding.

(** ** Confidence penalties *)

Section Penalties.

Import KillCalc.

Lemma inject_S (n : nat) : inject_Z (Z.of_nat (S n)) == inject_Z (Z.of_nat n) + 1.
Proof. rewrite Nat2Z.inj_succ. unfold Z.succ. rewrite inject_Z_plus. reflexivity. Qed.

Lemma pen_bounds_step (p c : Q) (n : nat) :
  pen_bounds p n -> 0.05 <= c -> c <= 0.20 -> pen_bounds (p + c) (S n).
Proof.
  unfold pen_bounds. intros [Hl Hu] Hc0 Hc1. rewrite inject_S. split; lra.
Qed.

Lemma pen_bounds_snoc {A : Type} (p c : Q) (n : nat) (l : list A) (x : A) :
  pen_bounds p (n + length l) -> 0.05 <= c -> c <= 0.20 ->
  pen_bounds (p + c) (n + length (l ++ [x])).
Proof.
  intros H Hc0 Hc1. rewrite length_app. cbn [length].
  replace (n + (length l + 1))%nat with (S (n + length l)) by lia.
  apply pen_bounds_step; assumption.
Qed.

Lemma shield_fold_bounds (l : list (string * ItemStats.shield_val)) :
  forall (hp p : Q) (fl : list item_flag) (n : nat),
    pen_bounds p (n + length fl) ->
    pen_bounds (fold_left shield_step l (hp, p, fl)).1.2
               (n + length (fold_left shield_step l (hp, p, fl)).2).
Proof.
  induction l as [|[name v] l IH]; intros hp p fl n H.
  - exact H.
  - cbn [fold_left]. unfold shield_step at 2 4. destruct v as [q|t].
    + apply IH. apply pen_bounds_snoc; [exact H|lra|lra].
    + apply IH. apply pen_bounds_snoc; [exact H|lra|lra].
Qed.

Lemma summoner_step_bounds (acc : summoner_acc) (s : string) (n : nat) :
  pen_bounds (s_confidence_penalty acc) (n + length (s_warnings acc)) ->
  pen_bounds (s_confidence_penalty (summoner_step acc s))
             (n + length (s_warnings (summoner_step acc s))).
Proof.
  intros H. unfold summoner_step.
  destruct (ItemStats.SUMMONER_ADJUSTMENTS !! s) as [adj|]; [|exact H].
  destruct (ItemStats.hp_modifier adj) as [m|];
    destruct (ItemStats.my_dmg_modifier adj) as [m'|];
    cbn [s_confidence_penalty s_warnings]; try exact H.
  - apply pen_bounds_snoc; [|lra|lra]. apply pen_bounds_snoc; [exact H|lra|lra].
  - apply pen_bounds_snoc; [exact H|lra|lra].
  - apply pen_bounds_snoc; [exact H|lra|lra].
Qed.

Lemma summoner_fold_bounds (l : list string) :
  forall (acc : summoner_acc) (n : nat),
    pen_bounds (s_confidence_penalty acc) (n + length (s_warnings acc)) ->
    pen_bounds (s_confidence_penalty (fold_left summoner_step l acc))
               (n + length (s_warnings (fold_left summoner_step l acc))).
Proof.
  induction l as [|s l IH]; intros acc n H.
  - exact H.
  - cbn [fold_left]. apply IH. apply summoner_step_bounds. exact H.
Qed.

Lemma cd_fold_bounds (l : list string) :
  forall (p : Q) (fl : list item_flag) (n : nat),
    pen_bounds p (n + length fl) ->
    pen_bounds (fold_left cd_step l (p, fl)).1
               (n + length (fold_left cd_step l (p, fl)).2).
Proof.
  induction l as [|item l IH]; intros p fl n H.
  - exact H.
  - cbn [fold_left]. unfold cd_step at 2 4.
    destruct (ITEM_CD_FLAGS !! _normalize_item_key item) as [text|].
    + apply IH. apply pen_bounds_snoc; [exact H|lra|lra].
    + apply IH. exact H.
Qed.

Lemma pen_bounds_0 : pen_bounds 0 0.
Proof.
  unfold pen_bounds. change (inject_Z (Z.of_nat 0)) with 0. split; lra.
Qed.

(** In an evaluated call every penalty source leaves one entry in
    [item_flags] or [summoner_warnings]. *)
Lemma call_penalty_bounds my_state enemy ehp mhp allies gt r loc :
  calculate_kill_chance_locals my_state enemy ehp mhp allies gt
  = Ok (r, Some loc) ->
  pen_bounds (confidence_penalty loc)
             (length (item_flags r) + length (summoner_warnings r)).
Proof.
  intros H. open_call H.
  all: cbn [confidence_penalty item_flags summoner_warnings].
  all: pose proof (shield_fold_bounds (item_shields es) (current_hp es) 0 []
                     0%nat pen_bounds_0) as Hs;
    rewrite Hshield in Hs; cbn [fst snd] in Hs.
  all: match type of Hcd with
       | fold_left cd_step ?l (s_confidence_penalty ?sacc, ?fl) = _ =>
           pose proof (cd_fold_bounds l (s_confidence_penalty sacc) fl
                         (length (s_warnings sacc))) as Hc;
           rewrite Hcd in Hc; cbn [fst snd] in Hc;
           rewrite Nat.add_comm; apply Hc; clear Hc;
           rewrite Nat.add_comm
       end.
  all: apply summoner_fold_bounds; cbn [s_confidence_penalty s_warnings length];
    rewrite Nat.add_0_r.
  - apply pen_bounds_snoc with (n := 0%nat); [|lra|lra].
    apply pen_bounds_snoc with (n := 0%nat); [exact Hs|lra|lra].
  - apply pen_bounds_snoc with (n := 0%nat); [exact Hs|lra|lra].
  - apply pen_bounds_snoc with (n := 0%nat); [exact Hs|lra|lra].
  - exact Hs.
Qed.

End Penalties.

(** ** Damage is non-negative *)

Section DamageSign.

Import KillCalc.

Lemma ITEM_STATS_hp_nonneg :
  map_Forall (fun _ e => 0 <= default 0 (ItemStats.hp e)) ItemStats.ITEM_STATS.
Proof.
  with_strategy transparent [ItemStats.ITEM_STATS]
    (apply (table_Forall (fun e => 0 <= default 0 (ItemStats.hp e)))).
  unfold ItemStats.table.
  repeat (constructor; [cbn; discriminate|]). constructor.
Qed.

Lemma held_item_hp_nonneg (item : string) :
  0 <= default 0 (ItemStats.hp (held_item_stats item)).
Proof.
  unfold held_item_stats.
  destruct (ItemStats.ITEM_STATS !! _normalize_item_key item) as [e|] eqn:E.
  - apply (ITEM_STATS_hp_nonneg _ e E).
  - cbn. lra.
Qed.

Lemma sum_items_hp_nonneg (items : list string) :
  0 <= sum_items ItemStats.hp items.
Proof.
  induction items as [|item items IH]; unfold sum_items in *; cbn [fold_right].
  - lra.
  - pose proof (held_item_hp_nonneg item). lra.
Qed.

Lemma build_max_hp_nonneg (enemy : Enemy.t) (override : option Q)
  (es : enemy_stats) :
  (forall real, Enemy.hp_max_real enemy = Some real -> 0 <= real) ->
  _build_enemy_stats enemy override = Ok es ->
  0 <= max_hp es.
Proof.
  intros Hreal H. unfold _build_enemy_stats in H.
  destruct (ChampionStats.calculate_stats_at_level _ _) as [base|] eqn:Hb;
    cbn [mbind py_bind] in H; [|discriminate H].
  injection H as <-. cbn [max_hp].
  destruct (calculate_stats_at_level_nonneg _ _ _ Hb) as (_ & _ & Hhp).
  pose proof (sum_items_hp_nonneg (default [] (Enemy.items enemy))) as Hsum.
  match goal with
  | |- context [fold_left build_item_step ?l ?a] =>
      destruct (build_fold_stats l a) as (_ & _ & Hh)
  end.
  cbn [b_max_hp] in Hh. rewrite Hh.
  destruct (Enemy.hp_max_real enemy) as [real|].
  - specialize (Hreal real eq_refl). destruct (truthy real); lra.
  - lra.
Qed.

Lemma CHAMPION_COMBOS_nonneg :
  map_Forall (fun _ c => combo_nonneg c) Combos.CHAMPION_COMBOS.
Proof.
  with_strategy transparent [Combos.CHAMPION_COMBOS]
    (apply (table_Forall combo_nonneg)).
  unfold Combos.table, combo_nonneg, comp_nonneg.
  repeat first
    [ apply Forall_nil_2
    | apply Forall_cons_2
    | split
    | progress cbn [snd Combos.damage_components Combos.base Combos.ad_ratio
                    Combos.ap_ratio Combos.hp_ratio Combos.comp default
                    from_option]
    | discriminate ].
Qed.

Lemma get_combo_nonneg (name : string) (c : Combos.combo) :
  Combos.get_combo name = Ok c -> combo_nonneg c.
Proof.
  intros H.
  apply (get_with_default_Forall combo_nonneg Combos.CHAMPION_COMBOS
           (Combos.normalize name)).
  - apply CHAMPION_COMBOS_nonneg.
  - exact H.
Qed.

Lemma list_index_elem (l : list Q) (i : Z) (x : Q) :
  list_index l i = Ok x -> x ∈ l.
Proof.
  unfold list_index.
  destruct ((0 <=? _)%Z && (_ <? _)%Z)%bool; [|discriminate].
  destruct (l !! _) as [y|] eqn:E; [|discriminate].
  intros [= <-]. apply (list_elem_of_lookup_2 _ _ _ E).
Qed.

Lemma get_base_damage_nonneg (c : Combos.component) (ranks : gmap string Z)
  (b : Q) :
  Forall (fun b => 0 <= b) (Combos.base c) ->
  Combos.get_base_damage_at_rank c ranks = Ok b -> 0 <= b.
Proof.
  intros Hall. unfold Combos.get_base_damage_at_rank.
  destruct (Combos.rank_index c) as [k|].
  - intros H. apply list_index_elem in H.
    rewrite Forall_forall in Hall. apply Hall. exact H.
  - destruct (Combos.base c) as [|b0 l] eqn:E.
    + intros [= <-]. lra.
    + intros [= <-]. apply Forall_cons_1 in Hall. tauto.
Qed.

Lemma combo_step_nonneg (total_ad ap max_hp_enemy : Q) (ranks : gmap string Z)
  (acc : py (Q * Q * list breakdown_entry)) (c : Combos.component) :
  0 <= total_ad -> 0 <= ap -> 0 <= max_hp_enemy ->
  comp_nonneg c ->
  combo_acc_nonneg acc ->
  combo_acc_nonneg (combo_step total_ad ap max_hp_enemy ranks acc c).
Proof.
  intros Had Hap Hhp (Hb & Hr1 & Hr2 & Hr3) Hacc. unfold combo_step.
  destruct acc as [[[p m] bd]|e]; cbn [mbind py_bind]; [|exact I].
  destruct Hacc as [Hp Hm].
  destruct (Combos.get_base_damage_at_rank c ranks) as [b|e] eqn:Eb;
    cbn [mbind py_bind]; [|exact I].
  pose proof (get_base_damage_nonneg c ranks b Hb Eb) as Hb0.
  assert (Hraw : 0 <= b + total_ad * default 0 (Combos.ad_ratio c)
                      + ap * default 0 (Combos.ap_ratio c)
                      + max_hp_enemy * default 0 (Combos.hp_ratio c)) by nra.
  destruct (_ || _)%bool; cbn [combo_acc_nonneg]; split; lra.
Qed.

Lemma combo_fold_nonneg (total_ad ap max_hp_enemy : Q) (ranks : gmap string Z)
  (comps : list Combos.component) :
  0 <= total_ad -> 0 <= ap -> 0 <= max_hp_enemy ->
  Forall comp_nonneg comps ->
  forall acc,
    combo_acc_nonneg acc ->
    combo_acc_nonneg
      (fold_left (combo_step total_ad ap max_hp_enemy ranks) comps acc).
Proof.
  intros Had Hap Hhp Hall. induction Hall as [|c comps Hc Hall IH]; intros acc Hacc.
  - exact Hacc.
  - cbn [fold_left]. apply IH. apply combo_step_nonneg; assumption.
Qed.

Lemma combo_damage_nonneg (my_state : Me.t) (es : enemy_stats)
  (ranks : gmap string Z) (p m : Q) (bd : list breakdown_entry) :
  0 <= default 50 (Me.total_ad my_state) ->
  0 <= default 0 (Me.ap my_state) ->
  0 <= max_hp es ->
  _calculate_combo_damage my_state es ranks = Ok (p, m, bd) ->
  0 <= p /\ 0 <= m.
Proof.
  intros Had Hap Hhp H. unfold _calculate_combo_damage in H.
  destruct (Combos.get_combo _) as [c|] eqn:Hc; cbn [mbind py_bind] in H;
    [|discriminate H].
  pose proof (combo_fold_nonneg _ _ _ ranks _ Had Hap Hhp
                (get_combo_nonneg _ _ Hc) (Ok (0, 0, []))) as Hf.
  rewrite H in Hf. apply Hf. cbn. split; lra.
Qed.

Lemma active_fold_nonneg (ea : Q) (items : list string) :
  0 <= ea ->
  forall acc, 0 <= fst acc -> 0 <= fst (fold_left (active_item_step ea) items acc).
Proof.
  intros Hea. induction items as [|item items IH]; intros [d u] Hacc.
  - exact Hacc.
  - cbn [fold_left]. apply IH.
    destruct (ItemStats.get_active_damage item) as [a|] eqn:Ha.
    + destruct (active_item_step_le ea d u item a Hea Ha) as [Hl _].
      cbn [fst] in Hacc. lra.
    + unfold active_item_step. rewrite Ha. exact Hacc.
Qed.

Lemma SUMMONER_dmg_modifier_pos :
  map_Forall (fun _ adj => forall m, ItemStats.my_dmg_modifier adj = Some m -> 0 < m)
             ItemStats.SUMMONER_ADJUSTMENTS.
Proof.
  with_strategy transparent [ItemStats.SUMMONER_ADJUSTMENTS]
    (apply (table_Forall
              (fun adj => forall m, ItemStats.my_dmg_modifier adj = Some m -> 0 < m))).
  repeat (constructor; [cbn; intros m [= <-]; reflexivity || discriminate|]).
  constructor.
Qed.

Lemma summoner_fold_dmg_modifier_pos (l : list string) :
  forall acc, 0 < s_dmg_modifier acc ->
              0 < s_dmg_modifier (fold_left summoner_step l acc).
Proof.
  induction l as [|s l IH]; intros acc Hacc.
  - exact Hacc.
  - cbn [fold_left]. apply IH. unfold summoner_step.
    destruct (ItemStats.SUMMONER_ADJUSTMENTS !! s) as [adj|] eqn:E; [|exact Hacc].
    pose proof (SUMMONER_dmg_modifier_pos s adj E) as Hm. cbv beta in Hm.
    destruct (ItemStats.hp_modifier adj) as [h|];
      destruct (ItemStats.my_dmg_modifier adj) as [m|] eqn:Em;
      cbn [s_dmg_modifier]; try exact Hacc;
      specialize (Hm m eq_refl); nra.
Qed.

(** With non-negative attacker AD and AP and a non-negative observed max HP,
    the adjusted damage and the kill ratio of an evaluated call are
    non-negative. *)
Lemma call_damage_nonneg my_state enemy ehp mhp allies gt r loc :
  0 <= default 50 (Me.total_ad my_state) ->
  0 <= default 0 (Me.ap my_state) ->
  (forall real, Enemy.hp_max_real enemy = Some real -> 0 <= real) ->
  calculate_kill_chance_locals my_state enemy ehp mhp allies gt
  = Ok (r, Some loc) ->
  0 <= adjusted_dealt loc /\ 0 <= kill_ratio_exact loc.
Proof.
  intros Had Hap Hreal H. open_call H.
  all: cbn [adjusted_dealt kill_ratio_exact].
  all: pose proof (build_max_hp_nonneg _ _ _ Hreal Hstats) as Hhp.
  all: destruct (combo_damage_nonneg _ _ _ _ _ _ Had Hap Hhp Hcombo) as [Hp Hm].
  all: pose proof (_calc_effective_armor_nonneg (armor es) my_state) as Hea.
  all: destruct (_dmg_reduction_nonneg_bounds _ Hea) as [Hd0 _].
  all: match goal with
       | |- context [_mr_reduction ?x] =>
           destruct (_mr_reduction_bounds x) as [Hr0 _]
       end.
  all: pose proof (active_fold_nonneg _ (default [] (Me.items my_state)) Hea
                     (0, []) (Qle_refl 0)) as Hact;
    rewrite Hactive in Hact; cbn [fst] in Hact.
  all: match goal with
       | |- context [s_dmg_modifier (fold_left summoner_step ?l ?a)] =>
           pose proof (summoner_fold_dmg_modifier_pos l a) as Hmod;
           assert (Hmod0 : 0 < s_dmg_modifier a) by reflexivity;
           specialize (Hmod Hmod0)
       end.
  all: match goal with
       | |- 0 <= (?a * ?d + ?b * ?m + ?c) * ?k /\ 0 <= _ / py_max ?e 1 =>
           pose proof (py_max_lb_r e 1) as Hden;
           assert (Ha : 0 <= a * d) by (apply Qmult_le_0_compat; lra);
           assert (Hb : 0 <= b * m) by (apply Qmult_le_0_compat; lra);
           assert (Hnum : 0 <= (a * d + b * m + c) * k)
             by (apply Qmult_le_0_compat; lra);
           split; [exact Hnum|apply Qle_shift_div_l; lra]
       end.
Qed.

End DamageSign.

(** ** Confidence *)

Section Confidence.

Import KillCalc.

Lemma call_confidence my_state enemy ehp mhp allies gt r loc :
  calculate_kill_chance_locals my_state enemy ehp mhp allies gt
  = Ok (r, Some loc) ->
  paused r = false
  /\ kill_ratio_exact loc = adjusted_dealt loc / py_max (effective_hp loc) 1
  /\ base_conf loc = py_min 0.97 (kill_ratio_exact loc)
  /\ uncertainty loc = py_min 0.40 (confidence_penalty loc)
  /\ final_conf loc = py_max 0 (base_conf loc - uncertainty loc)
  /\ confidence r = py_round (final_conf loc) 3.
Proof.
  intros H. open_call H. all: cbn. all: repeat split.
Qed.

Lemma pen_bounds_nonneg (p : Q) (n : nat) : pen_bounds p n -> 0 <= p.
Proof.
  intros [Hl _].
  assert (Hn : 0 <= inject_Z (Z.of_nat n)).
  { change 0 with (inject_Z 0). rewrite <- Zle_Qle. lia. }
  nra.
Qed.

Lemma pen_bounds_eight (p : Q) (n : nat) :
  pen_bounds p n -> (8 <= n)%nat -> 0.40 <= p.
Proof.
  intros [Hl _] Hn.
  assert (Hq : 8 <= inject_Z (Z.of_nat n)).
  { change 8 with (inject_Z 8). rewrite <- Zle_Qle. lia. }
  lra.
Qed.

Lemma py_min_cap (cap p : Q) : cap <= p -> py_min cap p = cap.
Proof.
  intros H. destruct (py_min_cases cap p) as [[Hlt _]|[_ E]]; [lra|exact E].
Qed.

End Confidence.

(** C4 (amended). In an evaluated (non-paused) call the base confidence
    [min(0.97, kill_ratio)] is at most 0.97, and it is non-negative when the
    attacker's AD and AP and an observed max HP of the target are
    non-negative; the penalty subtracted is [min(0.40, accumulated penalty)],
    so it lies in [0, 0.40] whatever the number of sources; exactly 0.40 is
    subtracted as soon as the accumulated penalty is at least 0.40, which
    nine or more sources guarantee (every source adds at least 0.05); the
    final confidence and its rounded value in the result lie in
    [0, 0.97]. *)
Theorem confidence_bounds my_state enemy ehp mhp allies gt r loc :
  KillCalc.calculate_kill_chance_locals my_state enemy ehp mhp allies gt
  = Ok (r, Some loc) ->
  KillCalc.paused r = false
  /\ KillCalc.base_conf loc = py_min 0.97 (KillCalc.kill_ratio_exact loc)
  /\ KillCalc.base_conf loc <= 0.97
  /\ (0 <= default 50 (Me.total_ad my_state) ->
      0 <= default 0 (Me.ap my_state) ->
      (forall real, Enemy.hp_max_real enemy = Some real -> 0 <= real) ->
      0 <= KillCalc.base_conf loc)
  /\ KillCalc.uncertainty loc = py_min 0.40 (KillCalc.confidence_penalty loc)
  /\ 0 <= KillCalc.uncertainty loc
  /\ KillCalc.uncertainty loc <= 0.40
  /\ (0.40 <= KillCalc.confidence_penalty loc -> KillCalc.uncertainty loc = 0.40)
  /\ ((9 <= length (KillCalc.item_flags r)
            + length (KillCalc.summoner_warnings r))%nat ->
      KillCalc.uncertainty loc = 0.40)
  /\ KillCalc.final_conf loc
     = py_max 0 (KillCalc.base_conf loc - KillCalc.uncertainty loc)
  /\ 0 <= KillCalc.final_conf loc
  /\ KillCalc.final_conf loc <= 0.97
  /\ KillCalc.confidence r = py_round (KillCalc.final_conf loc) 3
  /\ 0 <= KillCalc.confidence r
  /\ KillCalc.confidence r <= 0.97.
Proof.
  intros H.
  destruct (call_confidence _ _ _ _ _ _ _ _ H)
    as (Hpaused & Hratio & Hbase & Hunc & Hfinal & Hconf).
  pose proof (call_penalty_bounds _ _ _ _ _ _ _ _ H) as Hpen.
  pose proof (pen_bounds_nonneg _ _ Hpen) as Hpen0.
  assert (Hb97 : KillCalc.base_conf loc <= 0.97).
  { rewrite Hbase. apply py_min_ub_l. }
  assert (Hu0 : 0 <= KillCalc.uncertainty loc).
  { rewrite Hunc. apply py_min_glb; lra. }
  assert (Hu40 : KillCalc.uncertainty loc <= 0.40).
  { rewrite Hunc. apply py_min_ub_l. }
  assert (Hf0 : 0 <= KillCalc.final_conf loc).
  { rewrite Hfinal. apply py_max_lb_l. }
  assert (Hf97 : KillCalc.final_conf loc <= 0.97).
  { rewrite Hfinal.
    destruct (py_max_cases 0 (KillCalc.base_conf loc - KillCalc.uncertainty loc))
      as [[_ ->]|[_ ->]]; lra. }
  destruct (py_round3_bounds _ Hf0 Hf97) as [Hr0 Hr97].
  split; [exact Hpaused|]. split; [exact Hbase|]. split; [exact Hb97|].
  split.
  { intros Had Hap Hreal.
    destruct (call_damage_nonneg _ _ _ _ _ _ _ _ Had Hap Hreal H) as [_ Hk].
    rewrite Hbase. apply py_min_glb; lra. }
  split; [exact Hunc|]. split; [exact Hu0|]. split; [exact Hu40|].
  split; [intros Hge; rewrite Hunc; apply py_min_cap; exact Hge|].
  split.
  { intros Hn. rewrite Hunc. apply py_min_cap.
    apply (pen_bounds_eight _ _ Hpen). lia. }
  split; [exact Hfinal|]. split; [exact Hf0|]. split; [exact Hf97|].
  split; [exact Hconf|]. rewrite Hconf. split; assumption.
Qed.

Lemma confidence_bounds_witness :
  exists r loc,
    KillCalc.calculate_kill_chance_locals me_khazix enemy_six_sources
      (Some 0.1) None 0 600 = Ok (r, Some loc)
    /\ KillCalc.base_conf loc <= 0.97
    /\ ((0 <= default 50 (Me.total_ad me_khazix)
         /\ 0 <= default 0 (Me.ap me_khazix)
         /\ forall real,
              Enemy.hp_max_real enemy_six_sources = Some real -> 0 <= real)
        /\ 0 <= KillCalc.base_conf loc)
    /\ KillCalc.uncertainty loc <= 0.40
    /\ 0 <= KillCalc.confidence r
    /\ KillCalc.confidence r <= 0.97.
Proof.
  run_call.
  match goal with
  | |- KillCalc.base_conf ?loc <= _ /\ _ =>
      match eval vm_compute in
            (KillCalc.calculate_kill_chance_locals me_khazix enemy_six_sources
               (Some 0.1) None 0 600) with
      | Ok (?r, _) =>
          destruct (confidence_bounds me_khazix enemy_six_sources (Some 0.1)
                      None 0%Z 600 r loc)
            as (_ & _ & Hb & Hb0 & _ & _ & Hu & _ & _ & _ & _ & _ & _
                & Hc0 & Hc1);
          [vm_compute; reflexivity|]
      end
  end.
  assert (Had : 0 <= default 50 (Me.total_ad me_khazix))
    by (vm_compute; discriminate).
  assert (Hap : 0 <= default 0 (Me.ap me_khazix))
    by (vm_compute; discriminate).
  assert (Hreal : forall real,
             Enemy.hp_max_real enemy_six_sources = Some real -> 0 <= real)
    by (intros real Hr; discriminate Hr).
  split; [exact Hb|].
  split; [split; [split; [exact Had|split; [exact Hap|exact Hreal]]
                 |exact (Hb0 Had Hap Hreal)]|].
  split; [exact Hu|]. split; [exact Hc0|exact Hc1].
Defined.

(** C4, as stated, fails twice.  Six penalty sources (two shields at 0.08,
    four cooldown flags at 0.05) accumulate 0.36, and 0.36, not 0.40, is
    subtracted from the base confidence 0.97.  And with a negative attacker
    AD the kill ratio, hence the base confidence, is negative. *)
Lemma six_sources_subtract_less_than_cap :
  (exists r loc,
     KillCalc.calculate_kill_chance_locals me_khazix enemy_six_sources
       (Some 0.1) None 0 600 = Ok (r, Some loc)
     /\ KillCalc.paused r = false
     /\ length (KillCalc.item_flags r) = 6%nat
     /\ KillCalc.confidence_penalty loc == 0.36
     /\ KillCalc.uncertainty loc == 0.36
     /\ ~ KillCalc.uncertainty loc == 0.40
     /\ KillCalc.base_conf loc == 0.97
     /\ KillCalc.final_conf loc == 0.97 - 0.36)
  /\ (exists r loc,
        KillCalc.calculate_kill_chance_locals me_negative_ad enemy_defaults
          None None 0 600 = Ok (r, Some loc)
        /\ KillCalc.paused r = false
        /\ KillCalc.base_conf loc < 0).
Proof.
  split.
  - run_call.
    split; [reflexivity|]. split; [reflexivity|]. split; [reflexivity|].
    split; [reflexivity|].
    split; [intros H; vm_compute in H; discriminate H|].
    split; reflexivity.
  - run_call. split; reflexivity.
Qed.

Section PenaltyBinary64.

Import PrimFloat.
#[local] Set Warnings "-inexact-float".

(** The count of sources that reaches the cap on the program's numbers:
    eight additions of 0.05 give a binary64 sum just below 0.40, which
    [min(0.40, .)] returns as it is; nine additions are above 0.40. *)
Example eight_smallest_sources_in_binary64 :
  ltb (Binary64.penalty_of_flags 8) 0.40%float = true
  /\ Binary64.uncertainty_of (Binary64.penalty_of_flags 8)
     = Binary64.penalty_of_flags 8
  /\ ltb 0.40%float (Binary64.penalty_of_flags 9) = true
  /\ Binary64.uncertainty_of (Binary64.penalty_of_flags 9) = 0.40%float.
Proof. repeat split; vm_compute; reflexivity. Qed.

End PenaltyBinary64.

(** * Further properties of the code *)

(** ** The two resistance curves *)

Section Curves.

Import KillCalc.

Lemma div100_antitone (x y : Q) : 0 < x -> x <= y -> 100 / y <= 100 / x.
Proof.
  intros Hx Hxy.
  assert (Hq : 0 < 100 / x) by (apply Qlt_shift_div_l; lra).
  assert (He : (100 / x) * x == 100) by (field; lra).
  apply Qle_shift_div_r; [lra|].
  assert (Hm : (100 / x) * x <= (100 / x) * y).
  { rewrite (Qmult_comm _ x), (Qmult_comm _ y).
    apply Qmult_le_compat_r; lra. }
  lra.
Qed.

Lemma _dmg_reduction_antitone (a b : Q) :
  a <= b -> _dmg_reduction b <= _dmg_reduction a.
Proof.
  intros Hab.
  destruct (Qlt_le_dec a 0) as [Ha|Ha]; destruct (Qlt_le_dec b 0) as [Hb|Hb].
  - rewrite (_dmg_reduction_neg a Ha), (_dmg_reduction_neg b Hb).
    assert (H : 100 / (100 - a) <= 100 / (100 - b))
      by (apply div100_antitone; lra).
    lra.
  - destruct (_dmg_reduction_neg_bounds a Ha) as [H1 _].
    destruct (_dmg_reduction_nonneg_bounds b Hb) as [_ H2]. lra.
  - lra.
  - rewrite (_dmg_reduction_nonneg a Ha), (_dmg_reduction_nonneg b Hb).
    apply div100_antitone; lra.
Qed.

Lemma _dmg_reduction_range (a : Q) :
  0 < _dmg_reduction a /\ _dmg_reduction a < 2.
Proof.
  destruct (Qlt_le_dec a 0) as [Ha|Ha].
  - destruct (_dmg_reduction_neg_bounds a Ha). split; lra.
  - destruct (_dmg_reduction_nonneg_bounds a Ha). split; lra.
Qed.

Lemma py_max_mono_r (c a b : Q) : a <= b -> py_max c a <= py_max c b.
Proof.
  intros H.
  destruct (py_max_cases c a) as [[? ->]|[? ->]];
    destruct (py_max_cases c b) as [[? ->]|[? ->]]; lra.
Qed.


Lemma py_max_nonpos (a : Q) : a <= 0 -> py_max 0 a = 0.
Proof.
  intros H. destruct (py_max_cases 0 a) as [[Hlt _]|[_ E]]; [lra|exact E].
Qed.

Lemma py_max_pos (a : Q) : 0 <= a -> py_max 0 a == a.
Proof.
  intros H. destruct (py_max_cases 0 a) as [[_ ->]|[Hle ->]]; lra.
Qed.

End Curves.

(** X1. More armor never means more damage: [_dmg_reduction] is
    non-increasing over all armor values, negative ones included, and its
    value is always positive and at most 2. *)
Theorem dmg_reduction_antitone (a b : Q) :
  a <= b ->
  KillCalc._dmg_reduction b <= KillCalc._dmg_reduction a
  /\ 0 < KillCalc._dmg_reduction b
  /\ KillCalc._dmg_reduction a <= 2.
Proof.
  intros H. split; [apply _dmg_reduction_antitone; exact H|].
  split; [apply _dmg_reduction_range|].
  apply Qlt_le_weak, _dmg_reduction_range.
Qed.

Lemma dmg_reduction_antitone_witness :
  -30 <= 45
  /\ KillCalc._dmg_reduction 45 <= KillCalc._dmg_reduction (-30)
  /\ 0 < KillCalc._dmg_reduction 45
  /\ KillCalc._dmg_reduction (-30) <= 2.
Proof.
  assert (H : -30 <= 45) by (vm_compute; discriminate).
  split; [exact H|]. apply (dmg_reduction_antitone (-30) 45 H).
Defined.

(** X2. The magic-resist curve: the multiplier lies in (0, 1]; a zero or
    negative effective MR gives exactly 1 (negative MR never amplifies
    damage, unlike negative armor); and more MR never means more damage. *)
Theorem mr_reduction_curve :
  (forall m : Q,
      0 < KillCalc._mr_reduction m /\ KillCalc._mr_reduction m <= 1)
  /\ (forall m : Q, m <= 0 -> KillCalc._mr_reduction m == 1)
  /\ (forall a b : Q,
        a <= b -> KillCalc._mr_reduction b <= KillCalc._mr_reduction a).
Proof.
  split; [|split].
  - intros m. apply _mr_reduction_bounds.
  - intros m Hm. unfold KillCalc._mr_reduction.
    rewrite (py_max_nonpos m Hm). reflexivity.
  - intros a b Hab. unfold KillCalc._mr_reduction.
    pose proof (py_max_lb_l 0 a) as Ha.
    pose proof (py_max_mono_r 0 a b Hab) as Hm.
    apply div100_antitone; lra.
Qed.

Lemma mr_reduction_curve_witness :
  (-20 <= 0 /\ KillCalc._mr_reduction (-20) == 1)
  /\ (30 <= 80 /\ KillCalc._mr_reduction 80 <= KillCalc._mr_reduction 30).
Proof.
  destruct mr_reduction_curve as (_ & Hneg & Hmono).
  assert (H1 : -20 <= 0) by (vm_compute; discriminate).
  assert (H2 : 30 <= 80) by (vm_compute; discriminate).
  split; split; [exact H1|apply (Hneg (-20) H1)|exact H2|apply (Hmono 30 80 H2)].
Defined.

(** X3. Penetration never raises armor: for a non-negative base armor, a
    percent penetration in [0,1], a non-negative lethality and a level of at
    least 1, the effective armor is at most the base armor; with no
    lethality and no percent penetration it is the base armor itself; and
    with a percent penetration of at most 1 a higher base armor never gives
    a lower effective armor. *)
Theorem effective_armor_bounds (my_state : Me.t) :
  (forall base_armor : Q,
      0 <= base_armor ->
      0 <= default 0 (Me.armor_pen_pct my_state) ->
      default 0 (Me.armor_pen_pct my_state) <= 1 ->
      0 <= default 0 (Me.lethality my_state) ->
      (1 <= default 1%Z (Me.level my_state))%Z ->
      KillCalc._calc_effective_armor base_armor my_state <= base_armor)
  /\ (forall base_armor : Q,
        0 <= base_armor ->
        default 0 (Me.armor_pen_pct my_state) == 0 ->
        default 0 (Me.lethality my_state) == 0 ->
        KillCalc._calc_effective_armor base_armor my_state == base_armor)
  /\ (forall a b : Q,
        default 0 (Me.armor_pen_pct my_state) <= 1 ->
        a <= b ->
        KillCalc._calc_effective_armor a my_state
        <= KillCalc._calc_effective_armor b my_state).
Proof.
  unfold KillCalc._calc_effective_armor.
  set (leth := default 0 (Me.lethality my_state)).
  set (pen := default 0 (Me.armor_pen_pct my_state)).
  set (lvl := default 1%Z (Me.level my_state)).
  split; [|split].
  - intros base Hb Hp0 Hp1 Hl Hlvl.
    assert (Hq : 1 <= inject_Z lvl).
    { change 1 with (inject_Z 1). rewrite <- Zle_Qle. exact Hlvl. }
    assert (Hs : 0 <= 0.6 + 0.4 * inject_Z lvl / 18).
    { assert (0 <= 0.4 * inject_Z lvl / 18)
        by (apply Qle_shift_div_l; lra). lra. }
    assert (Hf : 0 <= leth * (0.6 + 0.4 * inject_Z lvl / 18))
      by (apply Qmult_le_0_compat; assumption).
    assert (Hpct : base * (1 - pen) <= base) by nra.
    destruct (py_max_cases 0 (base * (1 - pen)
                              - leth * (0.6 + 0.4 * inject_Z lvl / 18)))
      as [[_ ->]|[_ ->]]; lra.
  - intros base Hb Hp Hl.
    assert (E : base * (1 - pen) - leth * (0.6 + 0.4 * inject_Z lvl / 18)
                == base).
    { rewrite Hp, Hl. ring. }
    destruct (py_max_cases 0 (base * (1 - pen)
                              - leth * (0.6 + 0.4 * inject_Z lvl / 18)))
      as [[_ ->]|[Hle ->]]; lra.
  - intros a b Hp Hab. apply py_max_mono_r.
    assert (a * (1 - pen) <= b * (1 - pen))
      by (apply Qmult_le_compat_r; lra).
    lra.
Qed.

Lemma effective_armor_bounds_witness :
  (0 <= 75 /\ 0 <= default 0 (Me.armor_pen_pct me_khazix)
   /\ default 0 (Me.armor_pen_pct me_khazix) <= 1
   /\ 0 <= default 0 (Me.lethality me_khazix)
   /\ (1 <= default 1%Z (Me.level me_khazix))%Z
   /\ KillCalc._calc_effective_armor 75 me_khazix <= 75)
  /\ (0 <= 75 /\ KillCalc._calc_effective_armor 75 me_defaults == 75)
  /\ (40 <= 75
      /\ KillCalc._calc_effective_armor 40 me_khazix
         <= KillCalc._calc_effective_armor 75 me_khazix).
Proof.
  assert (H75 : 0 <= 75) by (vm_compute; discriminate).
  assert (Hp0 : 0 <= default 0 (Me.armor_pen_pct me_khazix))
    by (vm_compute; discriminate).
  assert (Hp1 : default 0 (Me.armor_pen_pct me_khazix) <= 1)
    by (vm_compute; discriminate).
  assert (Hl : 0 <= default 0 (Me.lethality me_khazix))
    by (vm_compute; discriminate).
  assert (Hlvl : (1 <= default 1%Z (Me.level me_khazix))%Z)
    by (vm_compute; discriminate).
  assert (H40 : 40 <= 75) by (vm_compute; discriminate).
  split; [|split].
  - repeat (split; [assumption|]).
    apply (proj1 (effective_armor_bounds me_khazix) 75 H75 Hp0 Hp1 Hl Hlvl).
  - split; [exact H75|].
    apply (proj1 (proj2 (effective_armor_bounds me_defaults)) 75 H75);
      reflexivity.
  - split; [exact H40|].
    apply (proj2 (proj2 (effective_armor_bounds me_khazix)) 40 75 Hp1 H40).
Defined.

(** ** The target's health fraction *)

Section HealthFraction.

Import KillCalc.

Lemma truthy_false (q : Q) : truthy q = false <-> q == 0.
Proof.
  unfold truthy. rewrite negb_false_iff. apply Qeq_bool_iff.
Qed.

Lemma truthy_true (q : Q) : truthy q = true <-> ~ q == 0.
Proof.
  unfold truthy. rewrite negb_true_iff. split.
  - intros H E. apply Qeq_bool_iff in E. congruence.
  - intros H. destruct (Qeq_bool q 0) eqn:E; [|reflexivity].
    apply Qeq_bool_iff in E. contradiction.
Qed.

Lemma clamp_hp_pct_range (hp_pct : option Q) :
  0 < clamp_hp_pct hp_pct /\ clamp_hp_pct hp_pct <= 1.
Proof.
  unfold clamp_hp_pct. destruct hp_pct as [p|]; [|split; lra].
  destruct (truthy p); cbn [negb orb]; [|split; lra].
  destruct (Qleb p 0) eqn:E0; cbn [orb]; [split; lra|].
  destruct (Qgtb p 1) eqn:E1; [split; lra|].
  apply Qleb_false in E0. apply Qgtb_false in E1. split; assumption.
Qed.

Lemma clamp_hp_pct_valid (p : Q) :
  0 < p -> p <= 1 -> clamp_hp_pct (Some p) = p.
Proof.
  intros H0 H1. unfold clamp_hp_pct.
  assert (Ht : truthy p = true) by (apply truthy_true; lra).
  assert (E0 : Qleb p 0 = false) by (apply Qleb_false; exact H0).
  assert (E1 : Qgtb p 1 = false) by (apply Qgtb_false; exact H1).
  rewrite Ht, E0, E1. reflexivity.
Qed.

Lemma clamp_hp_pct_invalid (p : Q) :
  p <= 0 \/ 1 < p -> clamp_hp_pct (Some p) = 1.
Proof.
  intros H. unfold clamp_hp_pct.
  destruct (truthy p); cbn [negb orb]; [|reflexivity].
  destruct H as [H|H].
  - apply Qleb_true in H. rewrite H. reflexivity.
  - apply Qgtb_true in H. rewrite H. rewrite orb_true_r. reflexivity.
Qed.

Lemma build_enemy_stats_hp (enemy : Enemy.t) (override : option Q) :
  exists es,
    _build_enemy_stats enemy override = Ok es
    /\ hp_percent es
       = clamp_hp_pct (match override with
                       | Some o => Some o
                       | None => Enemy.hp_percent enemy
                       end)
    /\ current_hp es = max_hp es * hp_percent es.
Proof.
  unfold _build_enemy_stats.
  destruct (ChampionStats.calculate_stats_at_level _ _) as [base|] eqn:Hb.
  2:{ unfold ChampionStats.calculate_stats_at_level in Hb.
      rewrite get_champion_stats_total in Hb. discriminate Hb. }
  cbn [mbind py_bind]. eexists. split; [reflexivity|].
  cbn [hp_percent current_hp max_hp]. split; reflexivity.
Qed.

End HealthFraction.

(** X4. For a target whose observed max HP, if any, is a number of
    ordinary size (so that [float(hp_max_real)] converts it),
    [_build_enemy_stats] returns, and the health fraction it returns is in
    (0, 1] with [current_hp = max_hp * hp_percent]: an override in (0, 1] is
    used as it is; an override that is zero, negative or above 1 gives full
    health (1.0), and so does a missing fraction. *)
Theorem enemy_hp_fraction_clamped (enemy : Enemy.t) (override : option Q) :
  ordinary_opt (Enemy.hp_max_real enemy) ->
  exists es,
    KillCalc._build_enemy_stats enemy override = Ok es
    /\ 0 < KillCalc.hp_percent es
    /\ KillCalc.hp_percent es <= 1
    /\ KillCalc.current_hp es = KillCalc.max_hp es * KillCalc.hp_percent es
    /\ (forall o, override = Some o -> 0 < o -> o <= 1 ->
                  KillCalc.hp_percent es = o)
    /\ (forall o, override = Some o -> o <= 0 \/ 1 < o ->
                  KillCalc.hp_percent es = 1)
    /\ (override = None -> Enemy.hp_percent enemy = None ->
        KillCalc.hp_percent es = 1).
Proof.
  intros _.
  destruct (build_enemy_stats_hp enemy override) as (es & Hes & Hpct & Hcur).
  exists es. split; [exact Hes|].
  pose proof (clamp_hp_pct_range
                (match override with
                 | Some o => Some o
                 | None => Enemy.hp_percent enemy
                 end)) as [H0 H1].
  rewrite <- Hpct in H0, H1.
  split; [exact H0|]. split; [exact H1|]. split; [exact Hcur|].
  split; [|split].
  - intros o -> Ho0 Ho1. rewrite Hpct. apply clamp_hp_pct_valid; assumption.
  - intros o -> Ho. rewrite Hpct. apply clamp_hp_pct_invalid; assumption.
  - intros -> Hn. rewrite Hpct, Hn. reflexivity.
Qed.

Lemma enemy_hp_fraction_clamped_witness :
  ordinary_opt (Enemy.hp_max_real enemy_observed_hp)
  /\ (exists es,
        KillCalc._build_enemy_stats enemy_observed_hp (Some 0.4) = Ok es
        /\ (0 < 0.4 /\ 0.4 <= 1) /\ KillCalc.hp_percent es = 0.4)
  /\ (exists es,
        KillCalc._build_enemy_stats enemy_observed_hp (Some 0) = Ok es
        /\ (0 <= 0 \/ 1 < 0) /\ KillCalc.hp_percent es = 1).
Proof.
  assert (Ho : ordinary_opt (Enemy.hp_max_real enemy_observed_hp))
    by ordinary_closed.
  split; [exact Ho|]. split.
  - destruct (enemy_hp_fraction_clamped enemy_observed_hp (Some 0.4) Ho)
      as (es & Hes & _ & _ & _ & Hv & _ & _).
    exists es. split; [exact Hes|].
    assert (H0 : 0 < 0.4) by reflexivity.
    assert (H1 : 0.4 <= 1) by (vm_compute; discriminate).
    split; [split; assumption|]. apply (Hv 0.4 eq_refl H0 H1).
  - destruct (enemy_hp_fraction_clamped enemy_observed_hp (Some 0) Ho)
      as (es & Hes & _ & _ & _ & _ & Hi & _).
    exists es. split; [exact Hes|].
    assert (H0 : 0 <= 0 \/ 1 < 0) by (left; vm_compute; discriminate).
    split; [exact H0|]. apply (Hi 0 eq_refl H0).
Defined.

(** ** Held items in any order *)

Section ItemOrder.

Import KillCalc.

Lemma sum_items_perm (f : ItemStats.entry -> option Q) (l1 l2 : list string) :
  l1 ≡ₚ l2 -> sum_items f l1 == sum_items f l2.
Proof.
  intros Hp. induction Hp as [|x l l' Hp IH|x y l|l l' l'' Hp1 IH1 Hp2 IH2];
    unfold sum_items in *; cbn [fold_right].
  - reflexivity.
  - rewrite IH. reflexivity.
  - ring.
  - rewrite IH1. exact IH2.
Qed.

Lemma build_fold_flags (items : list string) (acc : build_acc) :
  b_item_revive (fold_left build_item_step items acc)
  = (b_item_revive acc || existsb item_has_revive items)%bool
  /\ b_death_dance_flag (fold_left build_item_step items acc)
     = (b_death_dance_flag acc || existsb item_is_deaths_dance items)%bool.
Proof.
  revert acc. induction items as [|item items IH]; intros acc.
  - cbn [fold_left existsb]. rewrite !orb_false_r. auto.
  - cbn [fold_left existsb]. destruct (IH (build_item_step acc item)) as [-> ->].
    unfold build_item_step, item_has_revive, item_is_deaths_dance,
      held_item_stats.
    cbn [b_item_revive b_death_dance_flag].
    split.
    + destruct (ItemStats.revive _) as [[|]|];
        destruct (b_item_revive acc); reflexivity.
    + destruct (String.eqb _ "deaths_dance");
        destruct (b_death_dance_flag acc); reflexivity.
Qed.


End ItemOrder.



(** ** Ranks inside, before and below the table *)

Section RankCases.

Import Combos.

Lemma list_index_nonneg {A : Type} (l : list A) (i : Z) (v : A) :
  (0 <= i)%Z -> l !! Z.to_nat i = Some v -> list_index l i = Ok v.
Proof.
  intros Hi Hl. unfold list_index.
  assert (Hlt : (Z.to_nat i < length l)%nat).
  { apply lookup_lt_is_Some. eauto. }
  replace (i <? 0)%Z with false by lia.
  replace (0 <=? i)%Z with true by lia.
  replace (i <? Z.of_nat (length l))%Z with true by lia.
  cbn [andb]. rewrite Hl. reflexivity.
Qed.

Lemma list_index_negative {A : Type} (l : list A) (i : Z) (v : A) :
  (i < 0)%Z -> (0 <= Z.of_nat (length l) + i)%Z ->
  l !! Z.to_nat (Z.of_nat (length l) + i) = Some v -> list_index l i = Ok v.
Proof.
  intros Hi Hj Hl. unfold list_index.
  replace (i <? 0)%Z with true by lia.
  replace (0 <=? Z.of_nat (length l) + i)%Z with true by lia.
  replace (Z.of_nat (length l) + i <? Z.of_nat (length l))%Z with true by lia.
  cbn [andb]. rewrite Hl. reflexivity.
Qed.

Lemma list_index_below {A : Type} (l : list A) (i : Z) :
  (i < - Z.of_nat (length l))%Z -> list_index l i = Raise IndexError.
Proof.
  intros Hi. unfold list_index.
  replace (i <? 0)%Z with true by lia.
  replace (0 <=? Z.of_nat (length l) + i)%Z with false by lia.
  reflexivity.
Qed.

Lemma list_index_total {A : Type} (l : list A) (i : Z) :
  (- Z.of_nat (length l) <= i < Z.of_nat (length l))%Z ->
  exists v, list_index l i = Ok v.
Proof.
  intros Hi. destruct (Z_lt_le_dec i 0) as [Hneg|Hpos].
  - destruct (lookup_lt_is_Some_2 l (Z.to_nat (Z.of_nat (length l) + i)))
      as [v Hv]; [lia|].
    exists v. apply list_index_negative; [lia|lia|exact Hv].
  - destruct (lookup_lt_is_Some_2 l (Z.to_nat i)) as [v Hv]; [lia|].
    exists v. apply list_index_nonneg; [lia|exact Hv].
Qed.

End RankCases.

(** X6. [get_base_damage_at_rank] on a component with a rank source, by the
    rank stored for it: a rank inside the table gives the entry of that
    rank (1-based); a rank between [1 - len] and 0 counts from the end of
    the table, so an unlearned ability (rank 0) gets the last entry; a rank
    below [1 - len] raises [IndexError]; and a missing rank is rank 1. *)
Theorem base_damage_by_rank (c : Combos.component) (ranks : gmap string Z)
  (k : string) (rank : Z) :
  Combos.rank_index c = Some k ->
  ranks !! k = Some rank ->
  ((1 <= rank <= Z.of_nat (length (Combos.base c)))%Z ->
   exists v, Combos.base c !! Z.to_nat (rank - 1) = Some v
             /\ Combos.get_base_damage_at_rank c ranks = Ok v)
  /\ ((1 - Z.of_nat (length (Combos.base c)) <= rank <= 0)%Z ->
      exists v,
        Combos.base c
          !! Z.to_nat (Z.of_nat (length (Combos.base c)) + rank - 1) = Some v
        /\ Combos.get_base_damage_at_rank c ranks = Ok v)
  /\ (rank = 0%Z -> Combos.base c <> [] ->
      exists v, last (Combos.base c) = Some v
                /\ Combos.get_base_damage_at_rank c ranks = Ok v)
  /\ ((rank < 1 - Z.of_nat (length (Combos.base c)))%Z ->
      Combos.get_base_damage_at_rank c ranks = Raise IndexError)
  /\ Combos.get_base_damage_at_rank c (delete k ranks)
     = Combos.get_base_damage_at_rank c (<[k := 1%Z]> ranks).
Proof.
  intros Hk Hr. unfold Combos.get_base_damage_at_rank. rewrite Hk.
  rewrite Hr, lookup_delete_eq, lookup_insert_eq. cbn [default from_option id].
  unfold Combos.rank_idx.
  set (l := Combos.base c). set (n := Z.of_nat (length l)).
  split; [|split; [|split; [|split]]].
  - intros Hin.
    destruct (lookup_lt_is_Some_2 l (Z.to_nat (rank - 1))) as [v Hv]; [lia|].
    exists v. split; [exact Hv|].
    replace (Z.min (rank - 1) (n - 1)) with (rank - 1)%Z by lia.
    apply list_index_nonneg; [lia|exact Hv].
  - intros Hin.
    destruct (lookup_lt_is_Some_2 l (Z.to_nat (n + rank - 1))) as [v Hv];
      [lia|].
    exists v. split; [exact Hv|].
    replace (Z.min (rank - 1) (n - 1)) with (rank - 1)%Z by lia.
    apply list_index_negative; [lia|fold n; lia|].
    fold n. replace (n + (rank - 1))%Z with (n + rank - 1)%Z by lia. exact Hv.
  - intros -> Hne.
    destruct (last l) as [v|] eqn:Hlast.
    2:{ apply last_None in Hlast. contradiction. }
    exists v. split; [reflexivity|].
    assert (Hlen : (0 < length l)%nat).
    { destruct l; [contradiction|cbn; lia]. }
    replace (Z.min (0 - 1) (n - 1)) with (-1)%Z by lia.
    rewrite last_lookup in Hlast.
    apply list_index_negative; [lia|lia|].
    replace (Z.to_nat (Z.of_nat (length l) + -1)) with (pred (length l)) by lia.
    exact Hlast.
  - intros Hlow.
    replace (Z.min (rank - 1) (n - 1)) with (rank - 1)%Z by lia.
    apply list_index_below. fold n. lia.
  - reflexivity.
Qed.

Lemma base_damage_by_rank_witness :
  ((1 <= 3 <= Z.of_nat (length [70; 95; 120; 145; 170]))%Z /\
   exists v, [70; 95; 120; 145; 170] !! Z.to_nat (3 - 1) = Some v
             /\ Combos.get_base_damage_at_rank
                  (Combos.comp "Q isolated" [70; 95; 120; 145; 170] 1.15
                               "physical" (Some "q"))
                  {[ "q" := 3%Z ]} = Ok v)
  /\ (exists v, last [70; 95; 120; 145; 170] = Some v
                /\ Combos.get_base_damage_at_rank
                     (Combos.comp "Q isolated" [70; 95; 120; 145; 170] 1.15
                                  "physical" (Some "q"))
                     {[ "q" := 0%Z ]} = Ok v)
  /\ ((-5 < 1 - Z.of_nat (length [70; 95; 120; 145; 170]))%Z /\
      Combos.get_base_damage_at_rank
        (Combos.comp "Q isolated" [70; 95; 120; 145; 170] 1.15
                     "physical" (Some "q"))
        {[ "q" := (-5)%Z ]} = Raise IndexError).
Proof.
  split; [|split].
  - split; [cbn; lia|].
    apply (base_damage_by_rank
             (Combos.comp "Q isolated" [70; 95; 120; 145; 170] 1.15
                          "physical" (Some "q")) {[ "q" := 3%Z ]} "q" 3%Z);
      [reflexivity|vm_compute; reflexivity|cbn; lia].
  - apply (base_damage_by_rank
             (Combos.comp "Q isolated" [70; 95; 120; 145; 170] 1.15
                          "physical" (Some "q")) {[ "q" := 0%Z ]} "q" 0%Z);
      [reflexivity|vm_compute; reflexivity|reflexivity|discriminate].
  - split; [cbn; lia|].
    apply (base_damage_by_rank
             (Combos.comp "Q isolated" [70; 95; 120; 145; 170] 1.15
                          "physical" (Some "q")) {[ "q" := (-5)%Z ]} "q"
             (-5)%Z);
      [reflexivity|vm_compute; reflexivity|cbn; lia].
Defined.

(** ** Calls that return *)

Section Totality.

Import KillCalc.

Lemma CHAMPION_COMBOS_have_bases :
  map_Forall (fun _ c => combo_has_bases c) Combos.CHAMPION_COMBOS.
Proof.
  with_strategy transparent [Combos.CHAMPION_COMBOS]
    (apply (table_Forall combo_has_bases)).
  unfold Combos.table, combo_has_bases.
  repeat first
    [ apply Forall_nil_2
    | apply Forall_cons_2
    | progress cbn [snd Combos.damage_components Combos.base Combos.comp]
    | discriminate ].
Qed.

Lemma get_base_damage_total (c : Combos.component) (ranks : gmap string Z) :
  Combos.base c <> [] -> ranks_nonneg ranks ->
  exists b, Combos.get_base_damage_at_rank c ranks = Ok b.
Proof.
  intros Hne Hr. unfold Combos.get_base_damage_at_rank.
  destruct (Combos.rank_index c) as [k|].
  - assert (Hrank : (0 <= default 1 (ranks !! k))%Z).
    { destruct (ranks !! k) as [rank|] eqn:E; cbn; [apply (Hr k rank E)|lia]. }
    assert (Hlen : (0 < length (Combos.base c))%nat).
    { destruct (Combos.base c); [contradiction|cbn; lia]. }
    apply list_index_total. unfold Combos.rank_idx. lia.
  - destruct (Combos.base c); [contradiction|]. eauto.
Qed.

Lemma combo_fold_total (total_ad ap mhp : Q) (ranks : gmap string Z)
  (comps : list Combos.component) :
  Forall (fun comp => Combos.base comp <> []) comps ->
  ranks_nonneg ranks ->
  forall acc, exists res,
    fold_left (combo_step total_ad ap mhp ranks) comps (Ok acc) = Ok res.
Proof.
  intros Hall Hr. induction Hall as [|c comps Hc Hall IH]; intros acc.
  - eauto.
  - cbn [fold_left]. destruct acc as [[p m] bd].
    destruct (get_base_damage_total c ranks Hc Hr) as [b Hb].
    unfold combo_step at 2. cbn [mbind py_bind]. rewrite Hb.
    cbn [mbind py_bind]. destruct (_ || _)%bool; apply IH.
Qed.

Lemma combo_damage_total (my_state : Me.t) (es : enemy_stats)
  (ranks : gmap string Z) :
  ranks_nonneg ranks ->
  exists res, _calculate_combo_damage my_state es ranks = Ok res.
Proof.
  intros Hr. unfold _calculate_combo_damage.
  rewrite get_combo_total. cbn [mbind py_bind].
  apply combo_fold_total; [|exact Hr].
  assert (Hc : Combos.get_combo (default "_default" (Me.champion my_state))
               = Ok (default default_combo
                       (Combos.CHAMPION_COMBOS
                          !! Combos.normalize
                               (default "_default" (Me.champion my_state)))))
    by apply get_combo_total.
  apply (get_with_default_Forall combo_has_bases Combos.CHAMPION_COMBOS
           (Combos.normalize (default "_default" (Me.champion my_state))));
    [apply CHAMPION_COMBOS_have_bases|exact Hc].
Qed.

Lemma default_ranks_nonneg :
  ranks_nonneg {[ "q" := 1%Z; "w" := 1%Z; "e" := 1%Z; "r" := 1%Z ]}.
Proof.
  unfold ranks_nonneg.
  repeat (apply map_Forall_insert_2; [lia|]). apply map_Forall_empty.
Qed.

Lemma combo_fold_raise (total_ad ap mhp : Q) (ranks : gmap string Z)
  (comps : list Combos.component) (e : exn) :
  fold_left (combo_step total_ad ap mhp ranks) comps (Raise e) = Raise e.
Proof. induction comps as [|c comps IH]; [reflexivity|exact IH]. Qed.

End Totality.

(** X7. [calculate_kill_chance] returns a result, without raising, for
    every input whose numbers are of ordinary size and whose stored ability
    ranks are all non-negative (any champion, items and summoner spells);
    without stored ranks the default ranks are used and the call returns as
    well. *)
Theorem kill_chance_returns_on_nonneg_ranks
  (my_state : Me.t) (enemy : Enemy.t) (ehp mhp : option Q) (allies : Z)
  (gt : Q) :
  ordinary_inputs my_state enemy mhp ->
  (forall ranks, Me.spell_ranks my_state = Some ranks -> ranks_nonneg ranks) ->
  exists r, KillCalc.calculate_kill_chance my_state enemy ehp mhp allies gt
            = Ok r.
Proof.
  intros _ Hr. unfold KillCalc.calculate_kill_chance,
    KillCalc.calculate_kill_chance_locals.
  destruct (KillCalc.auto_pause _ _ _); [cbn [mbind py_bind fst]; eauto|].
  destruct (build_enemy_stats_hp enemy ehp) as (es & -> & _).
  cbn [mbind py_bind].
  assert (Hranks : ranks_nonneg
            (default {[ "q" := 1%Z; "w" := 1%Z; "e" := 1%Z; "r" := 1%Z ]}
                     (Me.spell_ranks my_state))).
  { destruct (Me.spell_ranks my_state) as [ranks|]; cbn.
    - apply Hr. reflexivity.
    - apply default_ranks_nonneg. }
  destruct (combo_damage_total my_state es _ Hranks) as ([[p m] bd] & ->).
  cbn [mbind py_bind].
  destruct (fold_left (KillCalc.active_item_step _) _ _).
  destruct (fold_left KillCalc.shield_step _ _) as [[? ?] ?].
  destruct (KillCalc.death_dance_flag es); destruct (KillCalc.item_revive es);
    destruct (fold_left KillCalc.cd_step _ _);
    rewrite get_combo_total; cbn [mbind py_bind fst]; eauto.
Qed.

Lemma kill_chance_returns_on_nonneg_ranks_witness :
  ordinary_inputs me_khazix enemy_darius None
  /\ (forall ranks, Me.spell_ranks me_khazix = Some ranks -> ranks_nonneg ranks)
  /\ exists r,
       KillCalc.calculate_kill_chance me_khazix enemy_darius (Some 0.4) None
         0 600 = Ok r.
Proof.
  assert (H : forall ranks,
             Me.spell_ranks me_khazix = Some ranks -> ranks_nonneg ranks).
  { intros ranks [= <-]. unfold ranks_nonneg.
    repeat (apply map_Forall_insert_2; [lia|]). apply map_Forall_empty. }
  assert (Ho : ordinary_inputs me_khazix enemy_darius None)
    by (unfold ordinary_inputs; repeat apply conj; ordinary_closed).
  split; [exact Ho|]. split; [exact H|].
  apply (kill_chance_returns_on_nonneg_ranks me_khazix enemy_darius
           (Some 0.4) None 0%Z 600 Ho H).
Defined.

Section OnlyIndexError.

Import KillCalc.

Lemma list_index_ok_or_index_error {A : Type} (l : list A) (i : Z) :
  ok_or_index_error (list_index l i).
Proof.
  unfold ok_or_index_error, list_index.
  destruct (_ && _)%bool; [|auto].
  destruct (l !! _); eauto.
Qed.

Lemma get_base_damage_ok_or_index_error (c : Combos.component)
  (ranks : gmap string Z) :
  ok_or_index_error (Combos.get_base_damage_at_rank c ranks).
Proof.
  unfold Combos.get_base_damage_at_rank.
  destruct (Combos.rank_index c).
  - apply list_index_ok_or_index_error.
  - left. destruct (Combos.base c); eauto.
Qed.

Lemma combo_fold_ok_or_index_error (total_ad ap mhp : Q)
  (ranks : gmap string Z) (comps : list Combos.component) :
  forall acc,
    ok_or_index_error acc ->
    ok_or_index_error (fold_left (combo_step total_ad ap mhp ranks) comps acc).
Proof.
  induction comps as [|c comps IH]; intros acc Hacc; [exact Hacc|].
  cbn [fold_left]. apply IH. unfold combo_step.
  destruct Hacc as [[[[p m] bd] ->]| ->]; cbn [mbind py_bind]; [|right; reflexivity].
  destruct (get_base_damage_ok_or_index_error c ranks) as [[b ->]| ->];
    cbn [mbind py_bind]; [|right; reflexivity].
  left. destruct (_ || _)%bool; eauto.
Qed.

End OnlyIndexError.

(** X8. On numbers of ordinary size the only exception
    [calculate_kill_chance] can raise is [IndexError] (never a [KeyError]):
    the call returns a result or raises [IndexError]. *)
Theorem kill_chance_only_raises_index_error
  (my_state : Me.t) (enemy : Enemy.t) (ehp mhp : option Q) (allies : Z)
  (gt : Q) :
  ordinary_inputs my_state enemy mhp ->
  ok_or_index_error
    (KillCalc.calculate_kill_chance my_state enemy ehp mhp allies gt).
Proof.
  intros _.
  unfold KillCalc.calculate_kill_chance, KillCalc.calculate_kill_chance_locals.
  destruct (KillCalc.auto_pause _ _ _);
    [left; cbn [mbind py_bind fst]; eauto|].
  destruct (build_enemy_stats_hp enemy ehp) as (es & -> & _).
  cbn [mbind py_bind].
  unfold KillCalc._calculate_combo_damage.
  rewrite get_combo_total. cbn [mbind py_bind].
  match goal with
  | |- context [fold_left (KillCalc.combo_step ?a ?b ?c ?d) ?l ?acc] =>
      destruct (combo_fold_ok_or_index_error a b c d l acc)
        as [[[[p m] bd] ->]| ->]; [left; eauto| |]
  end.
  - cbn [mbind py_bind].
    destruct (fold_left (KillCalc.active_item_step _) _ _).
    destruct (fold_left KillCalc.shield_step _ _) as [[? ?] ?].
    destruct (KillCalc.death_dance_flag es); destruct (KillCalc.item_revive es);
      destruct (fold_left KillCalc.cd_step _ _);
      cbn [mbind py_bind fst]; left; eauto.
  - right. reflexivity.
Qed.

Lemma kill_chance_only_raises_index_error_witness :
  ordinary_inputs me_bad_rank enemy_darius None
  /\ ok_or_index_error
       (KillCalc.calculate_kill_chance me_bad_rank enemy_darius None None 0 600).
Proof.
  assert (Ho : ordinary_inputs me_bad_rank enemy_darius None)
    by (unfold ordinary_inputs; repeat apply conj; ordinary_closed).
  split; [exact Ho|].
  apply (kill_chance_only_raises_index_error me_bad_rank enemy_darius None
           None 0%Z 600 Ho).
Defined.

(** A stored rank of -5 for a five-entry table raises. *)
Example kill_chance_bad_rank :
  KillCalc.calculate_kill_chance me_bad_rank enemy_darius None None 0 600
  = Raise IndexError.
Proof. vm_compute. reflexivity. Qed.

(** ** Verdicts *)

Section Verdicts.

Import KillCalc.

Lemma call_verdict my_state enemy ehp mhp allies gt r loc :
  calculate_kill_chance_locals my_state enemy ehp mhp allies gt
  = Ok (r, Some loc) ->
  verdict r
  = if Qgeb (final_conf loc) THRESHOLD_GO then "GO"
    else if Qgeb (final_conf loc) THRESHOLD_RISKY then "RISKY"
    else "NO GO".
Proof. intros H. open_call H; reflexivity. Qed.

Lemma verdict_cases (fc : Q) :
  (0.80 <= fc
   /\ (if Qgeb fc THRESHOLD_GO then "GO"
       else if Qgeb fc THRESHOLD_RISKY then "RISKY" else "NO GO") = "GO")
  \/ (0.60 <= fc /\ fc < 0.80
      /\ (if Qgeb fc THRESHOLD_GO then "GO"
          else if Qgeb fc THRESHOLD_RISKY then "RISKY" else "NO GO") = "RISKY")
  \/ (fc < 0.60
      /\ (if Qgeb fc THRESHOLD_GO then "GO"
          else if Qgeb fc THRESHOLD_RISKY then "RISKY" else "NO GO") = "NO GO").
Proof.
  assert (Hgo : THRESHOLD_GO == 0.80) by reflexivity.
  assert (Hri : THRESHOLD_RISKY == 0.60) by reflexivity.
  destruct (Qgeb fc THRESHOLD_GO) eqn:E1.
  - left. apply Qgeb_true in E1. split; [lra|reflexivity].
  - apply Qgeb_false in E1. right.
    destruct (Qgeb fc THRESHOLD_RISKY) eqn:E2.
    + left. apply Qgeb_true in E2. repeat split; lra.
    + right. apply Qgeb_false in E2. split; [lra|reflexivity].
Qed.


Lemma py_round3_le (x c : Q) (k : Z) :
  c == inject_Z k / 1000 -> x <= c -> py_round x 3 <= c.
Proof.
  intros Hc H. unfold py_round.
  change (inject_Z (10 ^ Z.of_nat 3)) with 1000.
  assert (E : inject_Z k / 1000 * 1000 == inject_Z k) by (field; lra).
  assert (Hk : x * 1000 <= inject_Z k) by lra.
  apply round_half_even_le in Hk. rewrite Zle_Qle in Hk.
  rewrite Hc. apply Qle_shift_div_r; lra.
Qed.

End Verdicts.



(** ** Penalties only grow *)

Section PenaltyGrowth.

Import KillCalc.

Lemma shield_fold_grows (l : list (string * ItemStats.shield_val)) :
  forall (hp p : Q) (fl : list item_flag),
    p <= (fold_left shield_step l (hp, p, fl)).1.2
    /\ forall f, f ∈ fl -> f ∈ (fold_left shield_step l (hp, p, fl)).2.
Proof.
  induction l as [|[name v] l IH]; intros hp p fl.
  - cbn. split; [lra|auto].
  - cbn [fold_left]. rewrite shield_step_effect.
    destruct v as [q|t].
    + destruct (IH (hp + q) (p + 0.08) (fl ++ [FlatShield name q])%list)
        as [Hp Hf].
      split; [lra|]. intros f Hin. apply Hf. apply elem_of_app. auto.
    + destruct (IH hp (p + 0.08) (fl ++ [TextShield name t])%list) as [Hp Hf].
      split; [lra|]. intros f Hin. apply Hf. apply elem_of_app. auto.
Qed.

Lemma cd_fold_grows (l : list string) :
  forall (p : Q) (fl : list item_flag),
    p <= (fold_left cd_step l (p, fl)).1
    /\ forall f, f ∈ fl -> f ∈ (fold_left cd_step l (p, fl)).2.
Proof.
  induction l as [|item l IH]; intros p fl.
  - cbn. split; [lra|auto].
  - cbn [fold_left]. unfold cd_step at 2 4.
    destruct (ITEM_CD_FLAGS !! _normalize_item_key item) as [text|].
    + destruct (IH (p + 0.05) (fl ++ [ItemCd text])%list) as [Hp Hf].
      split; [lra|]. intros f Hin. apply Hf. apply elem_of_app. auto.
    + apply IH.
Qed.

Lemma summoner_fold_penalty_grows (l : list string) :
  forall acc,
    s_confidence_penalty acc
    <= s_confidence_penalty (fold_left summoner_step l acc).
Proof.
  induction l as [|s l IH]; intros acc.
  - cbn. lra.
  - cbn [fold_left].
    apply (Qle_trans _ (s_confidence_penalty (summoner_step acc s)));
      [|apply IH].
    unfold summoner_step.
    destruct (ItemStats.SUMMONER_ADJUSTMENTS !! s) as [adj|]; [|lra].
    destruct (ItemStats.hp_modifier adj);
      destruct (ItemStats.my_dmg_modifier adj);
      cbn [s_confidence_penalty]; lra.
Qed.

Lemma build_enemy_stats_flags (enemy : Enemy.t) (override : option Q)
  (es : enemy_stats) :
  _build_enemy_stats enemy override = Ok es ->
  item_revive es = existsb item_has_revive (default [] (Enemy.items enemy))
  /\ death_dance_flag es
     = existsb item_is_deaths_dance (default [] (Enemy.items enemy)).
Proof.
  unfold _build_enemy_stats.
  destruct (ChampionStats.calculate_stats_at_level _ _) as [base|];
    cbn [mbind py_bind]; [|discriminate].
  intros [= <-]. cbn [item_revive death_dance_flag].
  match goal with
  | |- context [fold_left build_item_step ?l ?a] =>
      destruct (build_fold_flags l a) as [-> ->]
  end.
  split; reflexivity.
Qed.

(** The penalty and the flags of an evaluated call against a target with
    the revive flag. *)
Lemma call_revive my_state enemy ehp mhp allies gt r loc :
  existsb item_has_revive (default [] (Enemy.items enemy)) = true ->
  calculate_kill_chance_locals my_state enemy ehp mhp allies gt
  = Ok (r, Some loc) ->
  0.20 <= confidence_penalty loc /\ ReviveFlag ∈ item_flags r.
Proof.
  intros Hrev H. open_call H.
  all: destruct (build_enemy_stats_flags _ _ _ Hstats) as [Erev _].
  all: try (rewrite Hrev in Erev; congruence).
  all: cbn [confidence_penalty item_flags].
  all: destruct (shield_fold_grows (item_shields es) (current_hp es) 0 [])
         as [Hs _]; rewrite Hshield in Hs; cbn [fst snd] in Hs.
  all: match type of Hcd with
       | fold_left cd_step ?l (?p, ?fl) = _ =>
           destruct (cd_fold_grows l p fl) as [Hc Hf];
           rewrite Hcd in Hc, Hf; cbn [fst snd] in Hc, Hf
       end.
  all: match type of Hc with
       | s_confidence_penalty (fold_left summoner_step ?l ?a) <= _ =>
           pose proof (summoner_fold_penalty_grows l a) as Hsum;
           cbn [s_confidence_penalty] in Hsum
       end.
  all: split; [lra|apply Hf; apply elem_of_app; right; apply list_elem_of_here].
Qed.

End PenaltyGrowth.

(** X10. A target that holds a revive-capable item (Guardian Angel in the
    table) never gets a "GO": the revive source alone puts at least 0.20 of
    penalty, so the confidence is at most 0.77, and the revive flag is in
    the item flags. *)
Theorem revive_item_blocks_go my_state enemy ehp mhp allies gt r loc item :
  item ∈ default [] (Enemy.items enemy) ->
  item_has_revive item = true ->
  KillCalc.calculate_kill_chance_locals my_state enemy ehp mhp allies gt
  = Ok (r, Some loc) ->
  0.20 <= KillCalc.confidence_penalty loc
  /\ KillCalc.ReviveFlag ∈ KillCalc.item_flags r
  /\ KillCalc.final_conf loc <= 0.77
  /\ KillCalc.confidence r <= 0.77
  /\ KillCalc.verdict r <> "GO".
Proof.
  intros Hin Hrev H.
  assert (Hex : existsb item_has_revive (default [] (Enemy.items enemy)) = true).
  { apply existsb_exists. exists item. split; [|exact Hrev].
    apply list_elem_of_In. exact Hin. }
  destruct (call_revive _ _ _ _ _ _ _ _ Hex H) as [Hpen Hflag].
  destruct (call_confidence _ _ _ _ _ _ _ _ H)
    as (_ & _ & Hbase & Hunc & Hfinal & Hconf).
  pose proof (py_min_ub_l 0.97 (KillCalc.kill_ratio_exact loc)) as Hb.
  rewrite <- Hbase in Hb.
  assert (Hu : 0.20 <= KillCalc.uncertainty loc).
  { rewrite Hunc. apply py_min_glb; lra. }
  assert (Hf : KillCalc.final_conf loc <= 0.77).
  { rewrite Hfinal.
    destruct (py_max_cases 0 (KillCalc.base_conf loc - KillCalc.uncertainty loc))
      as [[_ ->]|[_ ->]]; lra. }
  split; [exact Hpen|]. split; [exact Hflag|]. split; [exact Hf|].
  split.
  - rewrite Hconf. apply (py_round3_le _ 0.77 770); [reflexivity|exact Hf].
  - rewrite (call_verdict _ _ _ _ _ _ _ _ H).
    destruct (verdict_cases (KillCalc.final_conf loc))
      as [(Hc & _)|[(_ & _ & ->)|(_ & ->)]]; [lra|discriminate|discriminate].
Qed.

(** Level-10 Darius holding Guardian Angel, nearly dead. *)
Lemma revive_item_blocks_go_witness :
  exists r loc,
    KillCalc.calculate_kill_chance_locals me_khazix
      (Enemy.mk (Some "Darius") (Some 10%Z) (Some ["Guardian Angel"]) None None
                (Some false) None) (Some 0.05) None 0 600 = Ok (r, Some loc)
    /\ ("Guardian Angel" ∈ ["Guardian Angel"]
        /\ item_has_revive "Guardian Angel" = true)
    /\ KillCalc.confidence r <= 0.77
    /\ KillCalc.verdict r <> "GO".
Proof.
  run_call.
  assert (Hin : "Guardian Angel" ∈ ["Guardian Angel"]) by apply list_elem_of_here.
  assert (Hrev : item_has_revive "Guardian Angel" = true)
    by (vm_compute; reflexivity).
  split; [split; assumption|].
  match goal with
  | |- KillCalc.confidence ?r <= _ /\ _ =>
      match eval vm_compute in
            (KillCalc.calculate_kill_chance_locals me_khazix
               (Enemy.mk (Some "Darius") (Some 10%Z) (Some ["Guardian Angel"])
                         None None (Some false) None) (Some 0.05) None 0 600)
      with
      | Ok (_, Some ?loc) =>
          destruct (revive_item_blocks_go me_khazix
                      (Enemy.mk (Some "Darius") (Some 10%Z)
                                (Some ["Guardian Angel"]) None None
                                (Some false) None)
                      (Some 0.05) None 0%Z 600 r loc "Guardian Angel" Hin Hrev)
            as (_ & _ & _ & Hc & Hv); [vm_compute; reflexivity|]
      end
  end.
  split; assumption.
Defined.

(** X11. With an accumulated penalty of at least 0.40, or with eight or
    more flagged sources, the verdict is "NO GO" whatever the damage: the
    confidence is below 0.60 and the reported confidence is at most 0.57. *)
Theorem capped_penalty_means_no_go my_state enemy ehp mhp allies gt r loc :
  KillCalc.calculate_kill_chance_locals my_state enemy ehp mhp allies gt
  = Ok (r, Some loc) ->
  0.40 <= KillCalc.confidence_penalty loc
  \/ (8 <= length (KillCalc.item_flags r)
          + length (KillCalc.summoner_warnings r))%nat ->
  KillCalc.verdict r = "NO GO"
  /\ KillCalc.final_conf loc < 0.60
  /\ KillCalc.confidence r <= 0.57.
Proof.
  intros H Hcap.
  assert (Hpen : 0.40 <= KillCalc.confidence_penalty loc).
  { destruct Hcap as [Hp|Hn]; [exact Hp|].
    apply (pen_bounds_eight _ _ (call_penalty_bounds _ _ _ _ _ _ _ _ H) Hn). }
  destruct (call_confidence _ _ _ _ _ _ _ _ H)
    as (_ & _ & Hbase & Hunc & Hfinal & Hconf).
  pose proof (py_min_ub_l 0.97 (KillCalc.kill_ratio_exact loc)) as Hb.
  rewrite <- Hbase in Hb.
  assert (Hu : KillCalc.uncertainty loc = 0.40).
  { rewrite Hunc. apply py_min_cap. exact Hpen. }
  assert (Hf : KillCalc.final_conf loc <= 0.57).
  { rewrite Hfinal, Hu.
    destruct (py_max_cases 0 (KillCalc.base_conf loc - 0.40))
      as [[_ ->]|[_ ->]]; lra. }
  split; [|split; [lra|]].
  - rewrite (call_verdict _ _ _ _ _ _ _ _ H).
    destruct (verdict_cases (KillCalc.final_conf loc))
      as [(Hc & _)|[(Hc & _ & _)|(_ & ->)]]; [lra|lra|reflexivity].
  - rewrite Hconf. apply (py_round3_le _ 0.57 570); [reflexivity|exact Hf].
Qed.

Lemma capped_penalty_means_no_go_witness :
  exists r loc,
    KillCalc.calculate_kill_chance_locals me_khazix enemy_many_flags
      (Some 0.05) None 0 600 = Ok (r, Some loc)
    /\ (0.40 <= KillCalc.confidence_penalty loc
        \/ (8 <= length (KillCalc.item_flags r)
                + length (KillCalc.summoner_warnings r))%nat)
    /\ KillCalc.verdict r = "NO GO"
    /\ KillCalc.confidence r <= 0.57.
Proof.
  run_call.
  match goal with
  | |- (0.40 <= KillCalc.confidence_penalty ?loc \/ _) /\ _ =>
      match eval vm_compute in
            (KillCalc.calculate_kill_chance_locals me_khazix enemy_many_flags
               (Some 0.05) None 0 600) with
      | Ok (?r, _) =>
          assert (Hpen : 0.40 <= KillCalc.confidence_penalty loc)
            by (vm_compute; discriminate);
          destruct (capped_penalty_means_no_go me_khazix enemy_many_flags
                      (Some 0.05) None 0%Z 600 r loc)
            as (Hv & _ & Hc); [vm_compute; reflexivity|left; exact Hpen|];
          split; [left; exact Hpen|split; [exact Hv|exact Hc]]
      end
  end.
Defined.

(** ** Defences never help the attacker *)

Section Defences.

Import KillCalc.









End Defences.



(** ** More attack damage never lowers the confidence *)

Section MonotoneAd.

Import KillCalc.








End MonotoneAd.



(** ** Keys *)

Section Keys.

Lemma string_forallb_impl (p q : ascii -> bool) (s : string) :
  (forall c, p c = true -> q c = true) ->
  string_forallb p s = true -> string_forallb q s = true.
Proof.
  intros Hpq. induction s as [|c s IH]; [reflexivity|].
  cbn [string_forallb]. rewrite !andb_true_iff. intros [Hc Hs]. auto.
Qed.

Lemma string_forallb_app (p : ascii -> bool) (s t : string) :
  string_forallb p s = true -> string_forallb p t = true ->
  string_forallb p (s ++ t) = true.
Proof.
  intros Hs Ht. induction s as [|c s IH]; [exact Ht|].
  cbn [string_forallb] in Hs. apply andb_true_iff in Hs as [Hc Hs].
  cbn [append string_forallb]. apply andb_true_iff. auto.
Qed.

Lemma lower_char_not_upper (c : ascii) : is_upper (lower_char c) = false.
Proof. destruct c as [[] [] [] [] [] [] [] []]; reflexivity. Qed.

Lemma lower_char_fixed (c : ascii) : is_upper c = false -> lower_char c = c.
Proof. unfold is_upper, lower_char. intros ->. reflexivity. Qed.

Lemma lower_not_upper (s : string) :
  string_forallb (fun c => negb (is_upper c)) (lower s) = true.
Proof.
  induction s as [|c s IH]; [reflexivity|].
  cbn [string_forallb lower].
  rewrite lower_char_not_upper, IH. reflexivity.
Qed.

Lemma lower_fixed (s : string) :
  string_forallb (fun c => negb (is_upper c)) s = true -> lower s = s.
Proof.
  induction s as [|c s IH]; [reflexivity|].
  cbn [string_forallb lower].
  rewrite andb_true_iff, negb_true_iff. intros [Hc Hs].
  rewrite (lower_char_fixed c Hc), (IH Hs). reflexivity.
Qed.

(** After [replace old new], every character passes a test that the
    characters of [new] pass and that the other characters of the string
    passed. *)
Lemma replace_forallb (p : ascii -> bool) (old : ascii) (new s : string) :
  string_forallb (fun c => (p c || Ascii.eqb c old)%bool) s = true ->
  string_forallb p new = true ->
  string_forallb p (replace old new s) = true.
Proof.
  intros Hs Hnew. induction s as [|c s IH]; [reflexivity|].
  cbn [string_forallb] in Hs. apply andb_true_iff in Hs as [Hc Hs].
  cbn [replace]. destruct (Ascii.eqb c old) eqn:E.
  - apply string_forallb_app; auto.
  - rewrite orb_false_r in Hc. cbn [string_forallb].
    apply andb_true_iff. auto.
Qed.

Lemma replace_fixed (old : ascii) (new s : string) :
  string_forallb (fun c => negb (Ascii.eqb c old)) s = true ->
  replace old new s = s.
Proof.
  induction s as [|c s IH]; [reflexivity|].
  cbn [string_forallb replace].
  rewrite andb_true_iff, negb_true_iff. intros [Hc Hs].
  rewrite Hc, (IH Hs). reflexivity.
Qed.

Lemma item_key_chars (name : string) :
  string_forallb item_key_char (KillCalc._normalize_item_key name) = true.
Proof.
  unfold KillCalc._normalize_item_key.
  apply replace_forallb; [|reflexivity].
  eapply string_forallb_impl;
    [|apply (replace_forallb
               (fun c => (negb (is_upper c) && negb (Ascii.eqb c "'")
                          && negb (Ascii.eqb c " "))%bool) " " "_");
      [|reflexivity]].
  { intros c. unfold item_key_char.
    destruct (Ascii.eqb c "-"); cbn; rewrite ?orb_true_r, ?andb_true_r;
      rewrite ?orb_false_r; auto. }
  eapply string_forallb_impl;
    [|apply (replace_forallb
               (fun c => (negb (is_upper c) && negb (Ascii.eqb c "'"))%bool)
               "'" "");
      [|reflexivity]].
  { intros c. destruct (Ascii.eqb c " "); cbn;
      rewrite ?orb_true_r, ?andb_true_r, ?orb_false_r; auto. }
  eapply string_forallb_impl; [|apply lower_not_upper].
  intros c. cbn beta. destruct (Ascii.eqb c "'"); cbn;
    rewrite ?orb_true_r, ?andb_true_r, ?orb_false_r; auto.
Qed.

Lemma champion_key_chars (name : string) :
  string_forallb champion_key_char (ChampionStats.normalize name) = true.
Proof.
  unfold ChampionStats.normalize.
  apply replace_forallb; [|reflexivity].
  eapply string_forallb_impl;
    [|apply (replace_forallb
               (fun c => (negb (is_upper c) && negb (Ascii.eqb c "'")
                          && negb (Ascii.eqb c " "))%bool) " " "");
      [|reflexivity]].
  { intros c. unfold champion_key_char.
    destruct (Ascii.eqb c "."); cbn; rewrite ?orb_true_r, ?andb_true_r;
      rewrite ?orb_false_r; auto. }
  eapply string_forallb_impl;
    [|apply (replace_forallb
               (fun c => (negb (is_upper c) && negb (Ascii.eqb c "'"))%bool)
               "'" "");
      [|reflexivity]].
  { intros c. destruct (Ascii.eqb c " "); cbn;
      rewrite ?orb_true_r, ?andb_true_r, ?orb_false_r; auto. }
  eapply string_forallb_impl; [|apply lower_not_upper].
  intros c. cbn beta. destruct (Ascii.eqb c "'"); cbn;
    rewrite ?orb_true_r, ?andb_true_r, ?orb_false_r; auto.
Qed.

Lemma item_key_fixed (key : string) :
  string_forallb item_key_char key = true ->
  KillCalc._normalize_item_key key = key.
Proof.
  intros H. unfold KillCalc._normalize_item_key.
  assert (Hsub : forall q : ascii -> bool,
             (forall c, item_key_char c = true -> q c = true) ->
             string_forallb q key = true).
  { intros q Hq. apply (string_forallb_impl item_key_char q key Hq H). }
  rewrite (lower_fixed key), (replace_fixed "'" "" key),
    (replace_fixed " " "_" key), (replace_fixed "-" "_" key);
    [reflexivity| | | |]; apply Hsub; intros c; unfold item_key_char;
    rewrite !andb_true_iff; tauto.
Qed.

Lemma champion_key_fixed (key : string) :
  string_forallb champion_key_char key = true ->
  ChampionStats.normalize key = key.
Proof.
  intros H. unfold ChampionStats.normalize.
  assert (Hsub : forall q : ascii -> bool,
             (forall c, champion_key_char c = true -> q c = true) ->
             string_forallb q key = true).
  { intros q Hq. apply (string_forallb_impl champion_key_char q key Hq H). }
  rewrite (lower_fixed key), (replace_fixed "'" "" key),
    (replace_fixed " " "" key), (replace_fixed "." "" key);
    [reflexivity| | | |]; apply Hsub; intros c; unfold champion_key_char;
    rewrite !andb_true_iff; tauto.
Qed.

End Keys.

(** X14. Key normalization is idempotent, for items and for champions, so
    a name and its key resolve alike: the stats and the combo of a champion
    name are those of its normalized key, and the stats of an item name are
    those of its normalized key. *)
Theorem key_normalization_idempotent :
  (forall name,
      KillCalc._normalize_item_key (KillCalc._normalize_item_key name)
      = KillCalc._normalize_item_key name)
  /\ (forall name,
        ChampionStats.normalize (ChampionStats.normalize name)
        = ChampionStats.normalize name)
  /\ (forall name,
        ChampionStats.get_champion_stats (ChampionStats.normalize name)
        = ChampionStats.get_champion_stats name)
  /\ (forall name,
        Combos.get_combo (Combos.normalize name) = Combos.get_combo name)
  /\ (forall name,
        ItemStats.get_item_stats (KillCalc._normalize_item_key name)
        = ItemStats.get_item_stats name)
  /\ (forall name acc,
        KillCalc.b_armor
          (KillCalc.build_item_step acc (KillCalc._normalize_item_key name))
        = KillCalc.b_armor (KillCalc.build_item_step acc name)
        /\ KillCalc.b_mr
             (KillCalc.build_item_step acc (KillCalc._normalize_item_key name))
           = KillCalc.b_mr (KillCalc.build_item_step acc name)
        /\ KillCalc.b_max_hp
             (KillCalc.build_item_step acc (KillCalc._normalize_item_key name))
           = KillCalc.b_max_hp (KillCalc.build_item_step acc name)).
Proof.
  assert (Hi : forall name,
             KillCalc._normalize_item_key (KillCalc._normalize_item_key name)
             = KillCalc._normalize_item_key name).
  { intros name. apply item_key_fixed, item_key_chars. }
  assert (Hc : forall name,
             ChampionStats.normalize (ChampionStats.normalize name)
             = ChampionStats.normalize name).
  { intros name. apply champion_key_fixed, champion_key_chars. }
  split; [exact Hi|]. split; [exact Hc|].
  split; [|split; [|split; [|]]].
  - intros name. unfold ChampionStats.get_champion_stats. rewrite Hc.
    reflexivity.
  - intros name. unfold Combos.get_combo.
    change Combos.normalize with ChampionStats.normalize. rewrite Hc.
    reflexivity.
  - intros name. unfold ItemStats.get_item_stats.
    change (fun s => replace "-" "_" (replace " " "_" (replace "'" "" (lower s))))
      with KillCalc._normalize_item_key.
    change (replace "-" "_"
              (replace " " "_"
                 (replace "'" "" (lower (KillCalc._normalize_item_key name)))))
      with (KillCalc._normalize_item_key (KillCalc._normalize_item_key name)).
    rewrite Hi. reflexivity.
  - intros name acc.
    destruct (build_item_step_stats acc (KillCalc._normalize_item_key name))
      as (-> & -> & ->).
    destruct (build_item_step_stats acc name) as (-> & -> & ->).
    unfold held_item_stats. rewrite Hi. auto.
Qed.

(** ** The target panel *)

Section Panel.

Import TargetPanel.

Lemma _ocr_pair_sound (text : string) (max_plausible cur mx : Z) :
  _ocr_pair text max_plausible = Some (cur, mx) ->
  (100 <= mx)%Z /\ (mx <= max_plausible)%Z /\ (0 <= cur)%Z /\ (cur <= mx)%Z.
Proof.
  unfold _ocr_pair.
  destruct (findall_digits (strip text)) as [|n0 [|n1 rest]];
    [discriminate|discriminate|].
  destruct ((int_of_digits n1 =? 0)%Z || (int_of_digits n1 >? max_plausible)%Z)%bool
    eqn:E1; [discriminate|].
  destruct (Qgtb _ _); [discriminate|].
  destruct (_ <? 0)%Z eqn:E2; [discriminate|].
  destruct (int_of_digits n1 <? 100)%Z eqn:E3; [discriminate|].
  intros [= <- <-].
  apply orb_false_iff in E1 as [E0 E1].
  destruct (int_of_digits n0 >? int_of_digits n1)%Z eqn:E4; lia.
Qed.

Lemma ratio_in_unit (cur mx : Z) :
  (0 <= cur)%Z -> (cur <= mx)%Z -> (0 < mx)%Z ->
  0 <= inject_Z cur / inject_Z mx /\ inject_Z cur / inject_Z mx <= 1.
Proof.
  intros H0 H1 Hm.
  assert (Hc : 0 <= inject_Z cur)
    by (change 0 with (inject_Z 0); rewrite <- Zle_Qle; exact H0).
  assert (Hcm : inject_Z cur <= inject_Z mx) by (rewrite <- Zle_Qle; exact H1).
  assert (Hmx : 0 < inject_Z mx)
    by (change 0 with (inject_Z 0); rewrite <- Zlt_Qlt; exact Hm).
  split; [apply Qle_shift_div_l; lra|apply Qle_shift_div_r; lra].
Qed.

End Panel.

(** X15. [_ocr_pair] accepts a pair only inside the plausible range: an
    accepted [(cur, max)] has [100 <= max <= max_plausible] and
    [0 <= cur <= max], so the fraction [cur / max] lies in [0, 1]. *)
Theorem ocr_pair_accepts_only_plausible
  (text : string) (max_plausible cur mx : Z) :
  TargetPanel._ocr_pair text max_plausible = Some (cur, mx) ->
  (100 <= mx <= max_plausible)%Z
  /\ (0 <= cur <= mx)%Z
  /\ 0 <= inject_Z cur / inject_Z mx
  /\ inject_Z cur / inject_Z mx <= 1.
Proof.
  intros H. destruct (_ocr_pair_sound _ _ _ _ H) as (H1 & H2 & H3 & H4).
  split; [lia|]. split; [lia|]. apply ratio_in_unit; lia.
Qed.

Lemma ocr_pair_accepts_only_plausible_witness :
  TargetPanel._ocr_pair " 512 / 1850 " 8000 = Some (512, 1850)%Z
  /\ (100 <= 1850 <= 8000)%Z
  /\ (0 <= 512 <= 1850)%Z
  /\ 0 <= inject_Z 512 / inject_Z 1850
  /\ inject_Z 512 / inject_Z 1850 <= 1.
Proof.
  assert (H : TargetPanel._ocr_pair " 512 / 1850 " 8000 = Some (512, 1850)%Z)
    by (vm_compute; reflexivity).
  split; [exact H|].
  apply (ocr_pair_accepts_only_plausible " 512 / 1850 " 8000 512 1850 H).
Defined.

(** X16. What [read_target_panel] reports.  The panel is active exactly
    when an HP pair was accepted, and then the HP fields hold that pair,
    with [100 <= hp_max <= 8000], [0 <= hp_current <= hp_max] and
    [hp_percent = hp_current / hp_max] in [0, 1]; an inactive panel has no
    HP field set; a mana reading never activates the panel; and without OCR
    nothing is set. *)
Theorem target_panel_fields (ocr_ready : bool) (hp_ocr mp_ocr : option string) :
  (TargetPanel.panel_active
     (TargetPanel.read_target_panel ocr_ready hp_ocr mp_ocr) = true ->
   exists cur mx,
     TargetPanel.hp_current
       (TargetPanel.read_target_panel ocr_ready hp_ocr mp_ocr) = Some cur
     /\ TargetPanel.hp_max
          (TargetPanel.read_target_panel ocr_ready hp_ocr mp_ocr) = Some mx
     /\ TargetPanel.hp_percent
          (TargetPanel.read_target_panel ocr_ready hp_ocr mp_ocr)
        = Some (inject_Z cur / inject_Z mx)
     /\ (100 <= mx <= 8000)%Z /\ (0 <= cur <= mx)%Z
     /\ 0 <= inject_Z cur / inject_Z mx /\ inject_Z cur / inject_Z mx <= 1)
  /\ (TargetPanel.panel_active
        (TargetPanel.read_target_panel ocr_ready hp_ocr mp_ocr) = false ->
      TargetPanel.hp_current
        (TargetPanel.read_target_panel ocr_ready hp_ocr mp_ocr) = None
      /\ TargetPanel.hp_max
           (TargetPanel.read_target_panel ocr_ready hp_ocr mp_ocr) = None
      /\ TargetPanel.hp_percent
           (TargetPanel.read_target_panel ocr_ready hp_ocr mp_ocr) = None)
  /\ (TargetPanel.panel_active
        (TargetPanel.read_target_panel ocr_ready hp_ocr mp_ocr)
      = match hp_ocr with
        | Some text =>
            (ocr_ready
             && bool_decide
                  (is_Some (TargetPanel._ocr_pair text
                              TargetPanel._MAX_PLAUSIBLE_HP)))%bool
        | None => false
        end)
  /\ (ocr_ready = false ->
      TargetPanel.read_target_panel ocr_ready hp_ocr mp_ocr
      = TargetPanel.no_panel)
  /\ (forall cur mx,
        TargetPanel.mp_current
          (TargetPanel.read_target_panel ocr_ready hp_ocr mp_ocr) = Some cur ->
        TargetPanel.mp_max
          (TargetPanel.read_target_panel ocr_ready hp_ocr mp_ocr) = Some mx ->
        (100 <= mx <= 3000)%Z /\ (0 <= cur <= mx)%Z).
Proof.
  unfold TargetPanel.read_target_panel.
  destruct ocr_ready; cbn [negb andb].
  2:{ repeat split; try discriminate; try reflexivity.
      destruct hp_ocr; reflexivity. }
  destruct hp_ocr as [hp_text|];
    [|repeat split; try discriminate; reflexivity].
  destruct (TargetPanel._ocr_pair hp_text TargetPanel._MAX_PLAUSIBLE_HP)
    as [[cur mx]|] eqn:Ehp.
  - destruct (_ocr_pair_sound _ _ _ _ Ehp) as (S1 & S2 & S3 & S4).
    change TargetPanel._MAX_PLAUSIBLE_HP with 8000%Z in S2.
    assert (B1 : (100 <= mx <= 8000)%Z) by lia.
    assert (B2 : (0 <= cur <= mx)%Z) by lia.
    destruct (ratio_in_unit cur mx S3 S4) as [B3 B4]; [lia|].
    destruct mp_ocr as [mp_text|];
      [destruct (TargetPanel._ocr_pair mp_text TargetPanel._MAX_PLAUSIBLE_MANA)
         as [[mc mm]|] eqn:Emp|];
      cbn [TargetPanel.panel_active TargetPanel.hp_current TargetPanel.hp_max
           TargetPanel.hp_percent TargetPanel.mp_current TargetPanel.mp_max
           TargetPanel.no_panel];
      (split; [intros _; exists cur, mx; repeat split; assumption || reflexivity|]);
      (split; [discriminate|]);
      (split; [rewrite bool_decide_eq_true_2; [reflexivity|eauto]|]);
      (split; [discriminate|]);
      intros c m Hc Hm; try discriminate.
    injection Hc as <-. injection Hm as <-.
    destruct (_ocr_pair_sound _ _ _ _ Emp) as (M1 & M2 & M3 & M4).
    change TargetPanel._MAX_PLAUSIBLE_MANA with 3000%Z in M2. lia.
  - destruct mp_ocr as [mp_text|];
      [destruct (TargetPanel._ocr_pair mp_text TargetPanel._MAX_PLAUSIBLE_MANA)
         as [[mc mm]|] eqn:Emp|];
      cbn [TargetPanel.panel_active TargetPanel.hp_current TargetPanel.hp_max
           TargetPanel.hp_percent TargetPanel.mp_current TargetPanel.mp_max
           TargetPanel.no_panel];
      (split; [discriminate|]);
      (split; [intros _; repeat split; reflexivity|]);
      (split; [rewrite bool_decide_eq_false_2;
               [reflexivity|intros [? ?]; discriminate]|]);
      (split; [discriminate|]);
      intros c m Hc Hm; try discriminate.
    injection Hc as <-. injection Hm as <-.
    destruct (_ocr_pair_sound _ _ _ _ Emp) as (M1 & M2 & M3 & M4).
    change TargetPanel._MAX_PLAUSIBLE_MANA with 3000%Z in M2. lia.
Qed.

Lemma target_panel_fields_witness :
  TargetPanel.panel_active
    (TargetPanel.read_target_panel true (Some "512 / 1850") None) = true
  /\ exists cur mx,
       TargetPanel.hp_current
         (TargetPanel.read_target_panel true (Some "512 / 1850") None) = Some cur
       /\ TargetPanel.hp_max
            (TargetPanel.read_target_panel true (Some "512 / 1850") None)
          = Some mx
       /\ TargetPanel.hp_percent
            (TargetPanel.read_target_panel true (Some "512 / 1850") None)
          = Some (inject_Z cur / inject_Z mx)
       /\ (100 <= mx <= 8000)%Z /\ (0 <= cur <= mx)%Z
       /\ 0 <= inject_Z cur / inject_Z mx /\ inject_Z cur / inject_Z mx <= 1.
Proof.
  assert (H : TargetPanel.panel_active
                (TargetPanel.read_target_panel true (Some "512 / 1850") None)
              = true) by (vm_compute; reflexivity).
  split; [exact H|].
  apply (proj1 (target_panel_fields true (Some "512 / 1850") None) H).
Defined.

(** ** Reading "current / max" *)

Section ReadPair.

Import TargetPanel.

Lemma string_app_nil_r (s : string) : s ++ "" = s.
Proof.
  induction s as [|c s IH]; [reflexivity|].
  change (String c (s ++ "") = String c s). f_equal. exact IH.
Qed.

Lemma string_app_assoc' (s t u : string) : (s ++ t) ++ u = s ++ (t ++ u).
Proof.
  induction s as [|c s IH]; [reflexivity|].
  change (String c ((s ++ t) ++ u) = String c (s ++ (t ++ u))).
  f_equal. exact IH.
Qed.

Lemma int_from_app (a : Z) (s t : string) :
  int_from a (s ++ t) = int_from (int_from a s) t.
Proof.
  revert a. induction s as [|c s IH]; intros a; [reflexivity|].
  change (int_from (a * 10 + (Z.of_nat (nat_of_ascii c) - 48)) (s ++ t)
          = int_from (int_from (a * 10 + (Z.of_nat (nat_of_ascii c) - 48)) s) t).
  apply IH.
Qed.

Lemma pretty_N_char_digit (k : N) :
  (k < 10)%N ->
  is_digit (pretty_N_char k) = true
  /\ (Z.of_nat (nat_of_ascii (pretty_N_char k)) - 48 = Z.of_N k)%Z.
Proof.
  intros Hk.
  assert (Hc : (k = 0 \/ k = 1 \/ k = 2 \/ k = 3 \/ k = 4 \/ k = 5 \/ k = 6
                \/ k = 7 \/ k = 8 \/ k = 9)%N) by lia.
  destruct Hc as [->|[->|[->|[->|[->|[->|[->|[->|[->| ->]]]]]]]]];
    split; reflexivity.
Qed.

(** The digits that [pretty_N_go] puts in front of a string. *)
Lemma pretty_N_go_digits (x : N) :
  forall s, exists d,
    pretty_N_go x s = d ++ s
    /\ string_forallb is_digit d = true
    /\ ((0 < x)%N -> d <> "")
    /\ forall a, int_from a d
                 = (a * 10 ^ Z.of_nat (String.length d) + Z.of_N x)%Z.
Proof.
  induction (N.lt_wf_0 x) as [x _ IH]. intros s.
  destruct (N.eq_dec x 0%N) as [->|Hx].
  - exists "". rewrite pretty_N_go_0. repeat split; try reflexivity.
    + lia.
    + intros a. cbn. lia.
  - rewrite pretty_N_go_step by lia.
    destruct (IH (x `div` 10)%N) with
      (s := String (pretty_N_char (x `mod` 10)) s) as (d & Hd & Hall & _ & Hint).
    { apply N.div_lt; lia. }
    destruct (pretty_N_char_digit (x `mod` 10)%N) as [Hdig Hval].
    { apply N.mod_lt. lia. }
    exists (d ++ String (pretty_N_char (x `mod` 10)) "").
    split; [|split; [|split]].
    + rewrite Hd, string_app_assoc'. reflexivity.
    + apply string_forallb_app; [exact Hall|]. cbn. rewrite Hdig. reflexivity.
    + intros _. destruct d; discriminate.
    + intros a. rewrite int_from_app, Hint. cbn [int_from]. rewrite Hval.
      assert (Hlen : String.length (d ++ String (pretty_N_char (x `mod` 10)) "")
                     = S (String.length d)).
      { clear. induction d as [|c d IHd]; [reflexivity|].
        change (S (String.length (d ++ String (pretty_N_char (x `mod` 10)) ""))
                = S (S (String.length d))).
        f_equal. exact IHd. }
      rewrite Hlen, Nat2Z.inj_succ, Z.pow_succ_r by lia.
      pose proof (N.div_mod x 10 ltac:(lia)) as Hdm.
      apply (f_equal Z.of_N) in Hdm.
      rewrite N2Z.inj_add, N2Z.inj_mul in Hdm. change (Z.of_N 10) with 10%Z in Hdm.
      lia.
Qed.

(** The decimal text of a natural number is a non-empty string of digits
    that [int] reads back. *)
Lemma pretty_Z_digits (z : Z) :
  (0 <= z)%Z ->
  string_forallb is_digit (pretty z) = true
  /\ pretty z <> ""
  /\ int_of_digits (pretty z) = z.
Proof.
  intros Hz. destruct z as [|p|p]; [repeat split; discriminate| |lia].
  unfold pretty, pretty_Z, pretty, pretty_positive, pretty, pretty_N.
  destruct (decide (N.pos p = 0%N)) as [E|_]; [discriminate E|].
  destruct (pretty_N_go_digits (N.pos p) "") as (d & Hd & Hall & Hne & Hint).
  rewrite Hd, string_app_nil_r. split; [exact Hall|].
  split; [apply Hne; lia|]. unfold int_of_digits. rewrite Hint. cbn. lia.
Qed.

Lemma string_app_cons (c : ascii) (s t : string) :
  String c s ++ t = String c (s ++ t).
Proof. reflexivity. Qed.

Lemma string_app_nil_l (s : string) : "" ++ s = s.
Proof. reflexivity. Qed.

Lemma findall_digits_from_run (run d rest : string) :
  string_forallb is_digit d = true ->
  findall_digits_from run (d ++ rest) = findall_digits_from (run ++ d) rest.
Proof.
  revert run. induction d as [|c d IH]; intros run Hd.
  - rewrite string_app_nil_l, string_app_nil_r. reflexivity.
  - cbn [string_forallb] in Hd. apply andb_true_iff in Hd as [Hc Hd].
    rewrite string_app_cons. cbn [findall_digits_from]. rewrite Hc, (IH _ Hd).
    rewrite string_app_assoc'. reflexivity.
Qed.

Lemma digits_first_char (d : string) :
  string_forallb is_digit d = true -> d <> "" ->
  exists c d', d = String c d' /\ is_digit c = true.
Proof.
  intros Hd Hne. destruct d as [|c d']; [contradiction|].
  cbn [string_forallb] in Hd. apply andb_true_iff in Hd as [Hc _]. eauto.
Qed.

Lemma digit_not_space (c : ascii) : is_digit c = true -> is_space c = false.
Proof. destruct c as [[] [] [] [] [] [] [] []]; vm_compute; congruence. Qed.

Lemma rstrip_digits_end (s d : string) :
  string_forallb is_digit d = true -> d <> "" -> rstrip (s ++ d) = s ++ d.
Proof.
  intros Hd Hne. induction s as [|a s IH].
  - rewrite string_app_nil_l. revert Hd Hne.
    induction d as [|c d IHd]; intros Hd Hne; [contradiction|].
    cbn [string_forallb] in Hd. apply andb_true_iff in Hd as [Hc Hd].
    cbn [rstrip]. destruct d as [|c' d'].
    + cbn [rstrip]. rewrite (digit_not_space c Hc). reflexivity.
    + rewrite IHd by (exact Hd || discriminate). reflexivity.
  - rewrite string_app_cons. cbn [rstrip]. rewrite IH.
    destruct (s ++ d) eqn:E; [|reflexivity].
    destruct s; destruct d; try discriminate E; contradiction.
Qed.

Lemma strip_pair_text (d1 d2 : string) :
  string_forallb is_digit d1 = true -> d1 <> "" ->
  string_forallb is_digit d2 = true -> d2 <> "" ->
  strip (d1 ++ " / " ++ d2) = d1 ++ " / " ++ d2.
Proof.
  intros H1 N1 H2 N2. unfold strip.
  destruct (digits_first_char d1 H1 N1) as (c & d' & -> & Hc).
  rewrite string_app_cons. cbn [lstrip]. rewrite (digit_not_space c Hc).
  rewrite <- string_app_cons, <- string_app_assoc'.
  apply rstrip_digits_end; assumption.
Qed.

Lemma findall_pair_text (d1 d2 : string) :
  string_forallb is_digit d1 = true -> d1 <> "" ->
  string_forallb is_digit d2 = true -> d2 <> "" ->
  findall_digits (d1 ++ " / " ++ d2) = [d1; d2].
Proof.
  intros H1 N1 H2 N2. unfold findall_digits.
  rewrite (findall_digits_from_run "" d1 _ H1), string_app_nil_l.
  destruct d1 as [|c1 d1']; [contradiction|].
  change (" / " ++ d2) with (String " " (String "/" (String " " d2))).
  change (findall_digits_from (String c1 d1')
            (String " " (String "/" (String " " d2))))
    with (String c1 d1' :: findall_digits_from "" d2).
  f_equal.
  rewrite <- (string_app_nil_r d2) at 1.
  rewrite (findall_digits_from_run "" d2 "" H2), string_app_nil_l.
  destruct d2; [contradiction|reflexivity].
Qed.

Lemma over_by_tenth (cur mx : Z) :
  Qgtb (inject_Z cur) (inject_Z mx * 1.1) = true <-> (11 * mx < 10 * cur)%Z.
Proof.
  rewrite Qgtb_true. unfold Qlt, Qmult, inject_Z. cbn. lia.
Qed.

Lemma _ocr_pair_of_text (cur mx max_plausible : Z) :
  (0 <= cur)%Z -> (0 <= mx)%Z ->
  _ocr_pair (pretty cur ++ " / " ++ pretty mx) max_plausible
  = if ((mx =? 0)%Z || (mx >? max_plausible)%Z)%bool then None
    else if (11 * mx <? 10 * cur)%Z then None
    else if (mx <? 100)%Z then None
    else Some (Z.min cur mx, mx).
Proof.
  intros Hc Hm.
  destruct (pretty_Z_digits cur Hc) as (D1 & N1 & I1).
  destruct (pretty_Z_digits mx Hm) as (D2 & N2 & I2).
  unfold _ocr_pair.
  rewrite (strip_pair_text _ _ D1 N1 D2 N2), (findall_pair_text _ _ D1 N1 D2 N2).
  rewrite I1, I2.
  destruct ((mx =? 0)%Z || (mx >? max_plausible)%Z)%bool; [reflexivity|].
  destruct (Qgtb (inject_Z cur) (inject_Z mx * 1.1)) eqn:E.
  - apply over_by_tenth in E.
    replace (11 * mx <? 10 * cur)%Z with true by lia. reflexivity.
  - assert (Hn : ~ (11 * mx < 10 * cur)%Z).
    { intros Hlt. apply over_by_tenth in Hlt. congruence. }
    replace (11 * mx <? 10 * cur)%Z with false by lia.
    destruct (cur >? mx)%Z eqn:E2.
    + replace (mx <? 0)%Z with false by lia.
      replace (Z.min cur mx) with mx by lia. reflexivity.
    + replace (cur <? 0)%Z with false by lia.
      replace (Z.min cur mx) with cur by lia. reflexivity.
Qed.

End ReadPair.

(** X17. Reading back a panel text, for a plausible maximum of at most
    8000 as the two of the source are.  For the text ["<cur> / <max>"] of
    two natural numbers in decimal (of at most [int_max_str_digits] digits
    each), [_ocr_pair] returns the pair itself when
    [100 <= max <= max_plausible] and [cur <= max]; a current value above
    the maximum by at most a tenth is clamped to the maximum; and the text
    is rejected when the current value is above [1.1 max], or the maximum is
    below 100 or above [max_plausible]. *)
Theorem ocr_pair_reads_back (cur mx max_plausible : Z) :
  (max_plausible <= TargetPanel._MAX_PLAUSIBLE_HP)%Z ->
  (0 <= cur < 10 ^ int_max_str_digits)%Z ->
  (0 <= mx < 10 ^ int_max_str_digits)%Z ->
  ((100 <= mx <= max_plausible)%Z -> (cur <= mx)%Z ->
   TargetPanel._ocr_pair (pretty cur ++ " / " ++ pretty mx) max_plausible
   = Some (cur, mx))
  /\ ((100 <= mx <= max_plausible)%Z -> (mx < cur)%Z ->
      (10 * cur <= 11 * mx)%Z ->
      TargetPanel._ocr_pair (pretty cur ++ " / " ++ pretty mx) max_plausible
      = Some (mx, mx))
  /\ ((11 * mx < 10 * cur)%Z \/ (mx < 100)%Z \/ (max_plausible < mx)%Z ->
      TargetPanel._ocr_pair (pretty cur ++ " / " ++ pretty mx) max_plausible
      = None).
Proof.
  intros _ [Hc _] [Hm _].
  rewrite (_ocr_pair_of_text cur mx max_plausible Hc Hm).
  split; [|split].
  - intros Hr Hle.
    replace ((mx =? 0)%Z || (mx >? max_plausible)%Z)%bool with false
      by (symmetry; apply orb_false_iff; split; lia).
    replace (11 * mx <? 10 * cur)%Z with false by lia.
    replace (mx <? 100)%Z with false by lia.
    replace (Z.min cur mx) with cur by lia. reflexivity.
  - intros Hr Hlt Hten.
    replace ((mx =? 0)%Z || (mx >? max_plausible)%Z)%bool with false
      by (symmetry; apply orb_false_iff; split; lia).
    replace (11 * mx <? 10 * cur)%Z with false by lia.
    replace (mx <? 100)%Z with false by lia.
    replace (Z.min cur mx) with mx by lia. reflexivity.
  - intros Hbad.
    destruct ((mx =? 0)%Z || (mx >? max_plausible)%Z)%bool eqn:E1;
      [reflexivity|].
    apply orb_false_iff in E1 as [E0 E1].
    destruct (11 * mx <? 10 * cur)%Z eqn:E2; [reflexivity|].
    destruct (mx <? 100)%Z eqn:E3; [reflexivity|]. lia.
Qed.

Lemma ocr_pair_reads_back_witness :
  ((8000 <= TargetPanel._MAX_PLAUSIBLE_HP)%Z
   /\ (0 <= 512 < 10 ^ int_max_str_digits)%Z
   /\ (0 <= 1850 < 10 ^ int_max_str_digits)%Z
   /\ (100 <= 1850 <= 8000)%Z /\ (512 <= 1850)%Z)
  /\ TargetPanel._ocr_pair (pretty 512%Z ++ " / " ++ pretty 1850%Z) 8000
     = Some (512, 1850)%Z.
Proof.
  assert (H1 : (0 <= 512 < 10 ^ int_max_str_digits)%Z)
    by (split; [lia|vm_compute; reflexivity]).
  assert (H2 : (0 <= 1850 < 10 ^ int_max_str_digits)%Z)
    by (split; [lia|vm_compute; reflexivity]).
  assert (H0 : (8000 <= TargetPanel._MAX_PLAUSIBLE_HP)%Z)
    by (vm_compute; discriminate).
  split; [split; [exact H0|repeat split; try lia; vm_compute; reflexivity]|].
  apply (ocr_pair_reads_back 512 1850 8000 H0 H1 H2); lia.
Defined.

(** ** Target selection ([main.py]) *)

Section PickTarget.
Import Main.

Lemma min_by_hp_first_least (l : list Enemy.t) :
  forall best, exists before after,
    best :: l = (before ++ min_by_hp best l :: after)%list
    /\ (forall e, In e before -> hp_key (min_by_hp best l) < hp_key e)
    /\ (forall e, In e after -> hp_key (min_by_hp best l) <= hp_key e).
Proof.
  induction l as [|e l IH]; intros best.
  - exists [], []. split; [reflexivity|]. split; intros x [].
  - cbn [min_by_hp]. destruct (Qltb (hp_key e) (hp_key best)) eqn:E.
    + apply Qltb_true in E.
      destruct (IH e) as (b & a & Heq & Hb & Ha).
      remember (min_by_hp e l) as m eqn:Hm.
      assert (Hme : hp_key m <= hp_key e).
      { destruct b as [|b0 b]; cbn [app] in Heq; injection Heq as H0 _.
        - rewrite H0. apply Qle_refl.
        - apply Qlt_le_weak, Hb. left. symmetry. exact H0. }
      exists (best :: b), a. split; [cbn [app]; f_equal; exact Heq|].
      split; [|exact Ha].
      intros x [<-|Hx]; [|apply Hb, Hx].
      apply (Qle_lt_trans _ _ _ Hme E).
    + apply Qltb_false in E.
      destruct (IH best) as (b & a & Heq & Hb & Ha).
      remember (min_by_hp best l) as m eqn:Hm.
      destruct b as [|b0 b]; cbn [app] in Heq; injection Heq as H0 Hl.
      * exists [], (e :: l). rewrite <- H0.
        split; [reflexivity|]. split; [intros x []|].
        intros x [<-|Hx]; [exact E|].
        rewrite H0. apply Ha. rewrite <- Hl. exact Hx.
      * exists (best :: e :: b), a.
        split; [cbn [app]; rewrite <- Hl; reflexivity|].
        split; [|exact Ha].
        assert (Hmb : hp_key m < hp_key best).
        { apply Hb. left. symmetry. exact H0. }
        intros x [<-|[<-|Hx]].
        -- exact Hmb.
        -- apply (Qlt_le_trans _ _ _ Hmb E).
        -- apply Hb. right. exact Hx.
Qed.

Lemma alive_spec (enemies : list Enemy.t) (e : Enemy.t) :
  In e (alive enemies) <-> In e enemies /\ is_dead e = false.
Proof.
  unfold alive. rewrite filter_In, negb_true_iff. reflexivity.
Qed.

Lemma alive_nil (enemies : list Enemy.t) :
  alive enemies = [] <-> forall e, In e enemies -> is_dead e = true.
Proof.
  split.
  - intros Hnil e He. destruct (is_dead e) eqn:Ed; [reflexivity|].
    assert (Hin : In e (alive enemies)) by (apply alive_spec; auto).
    rewrite Hnil in Hin. destruct Hin.
  - intros Hall. destruct (alive enemies) as [|a rest] eqn:Ea; [reflexivity|].
    assert (Hin : In a (alive enemies)) by (rewrite Ea; left; reflexivity).
    apply alive_spec in Hin as [Hin Hd]. rewrite (Hall a Hin) in Hd.
    discriminate Hd.
Qed.

Lemma list_index_In {A : Type} (l : list A) (i : Z) (v : A) :
  list_index l i = Ok v -> In v l.
Proof.
  unfold list_index. destruct (_ && _)%bool; [|discriminate].
  destruct (l !! _) as [x|] eqn:El; [|discriminate].
  intros H. injection H as <-.
  apply list_elem_of_In. eapply list_elem_of_lookup_2. exact El.
Qed.

Lemma list_index_raise {A : Type} (l : list A) (i : Z) (x : exn) :
  list_index l i = Raise x ->
  x = IndexError
  /\ ((i < - Z.of_nat (length l))%Z \/ (Z.of_nat (length l) <= i)%Z).
Proof.
  unfold list_index.
  destruct (i <? 0)%Z eqn:Ei;
    destruct (_ && _)%bool eqn:Eb.
  - destruct (l !! _) as [v|] eqn:El; [discriminate|].
    apply andb_true_iff in Eb as [E1 E2].
    apply lookup_ge_None in El. lia.
  - intros H. injection H as <-. split; [reflexivity|].
    apply andb_false_iff in Eb. lia.
  - destruct (l !! _) as [v|] eqn:El; [discriminate|].
    apply andb_true_iff in Eb as [E1 E2].
    apply lookup_ge_None in El. lia.
  - intros H. injection H as <-. split; [reflexivity|].
    apply andb_false_iff in Eb. lia.
Qed.

(** The branch that [pick_target] takes. *)
Lemma pick_target_cases (lock : option Z) (enemies : list Enemy.t) :
  (alive enemies = [] /\ pick_target lock enemies = Ok None)
  \/ exists a rest,
       alive enemies = a :: rest
       /\ ((exists idx t,
              lock = Some idx /\ (idx < Z.of_nat (length enemies))%Z
              /\ list_index enemies idx = Ok t /\ is_dead t = false
              /\ pick_target lock enemies = Ok (Some t))
           \/ (exists idx,
                 lock = Some idx /\ (idx < - Z.of_nat (length enemies))%Z
                 /\ pick_target lock enemies = Raise IndexError)
           \/ (pick_target lock enemies = Ok (Some (min_by_hp a rest))
               /\ (lock = None
                   \/ (exists idx, lock = Some idx
                                   /\ (Z.of_nat (length enemies) <= idx)%Z)
                   \/ (exists idx t,
                         lock = Some idx /\ list_index enemies idx = Ok t
                         /\ is_dead t = true)))).
Proof.
  unfold pick_target. fold (alive enemies).
  destruct (alive enemies) as [|a rest] eqn:Ea; [left; auto|].
  right. exists a, rest. split; [reflexivity|].
  destruct lock as [idx|]; [|right; right; auto].
  destruct (idx <? Z.of_nat (length enemies))%Z eqn:Elt.
  2:{ right; right. split; [reflexivity|]. right; left. exists idx.
      split; [reflexivity|lia]. }
  destruct (list_index enemies idx) as [t|x] eqn:Ei; cbn [mbind py_bind].
  - destruct (is_dead t) eqn:Ed; cbn [negb].
    + right; right. split; [reflexivity|]. right; right. eauto.
    + left. exists idx, t. repeat split; try reflexivity; try assumption. lia.
  - destruct (list_index_raise _ _ _ Ei) as [-> [Hlo|Hhi]]; [|lia].
    right; left. exists idx. auto.
Qed.

Lemma auto_mode_not_locked (lock : option Z) (enemies : list Enemy.t)
  (idx : Z) (t : Enemy.t) :
  auto_mode lock enemies -> lock = Some idx ->
  list_index enemies idx = Ok t -> is_dead t = true.
Proof.
  intros Ha -> Hi. cbn [auto_mode] in Ha. destruct Ha as [Hge|(H0 & d & Hd & Hdead)].
  - unfold list_index in Hi.
    replace (idx <? 0)%Z with false in Hi by lia.
    replace (idx <? Z.of_nat (length enemies))%Z with false in Hi by lia.
    rewrite andb_false_r in Hi. discriminate Hi.
  - rewrite (list_index_nonneg _ _ _ H0 Hd) in Hi. injection Hi as <-.
    exact Hdead.
Qed.

Lemma pick_target_alive (lock : option Z) (enemies : list Enemy.t)
  (t : Enemy.t) :
  pick_target lock enemies = Ok (Some t) ->
  In t enemies /\ is_dead t = false.
Proof.
  intros H.
  destruct (pick_target_cases lock enemies)
    as [[_ Hp]|(a & rest & Ea & [Hl|[Hr|[Hp _]]])].
  - rewrite Hp in H. discriminate H.
  - destruct Hl as (idx & t' & _ & _ & Hi & Hd & Hp).
    rewrite Hp in H. injection H as <-.
    split; [exact (list_index_In _ _ _ Hi)|exact Hd].
  - destruct Hr as (idx & _ & _ & Hp). rewrite Hp in H. discriminate H.
  - rewrite Hp in H. injection H as <-.
    destruct (min_by_hp_first_least rest a) as (b & af & Heq & _ & _).
    apply alive_spec. rewrite Ea, Heq. apply in_elt.
Qed.

End PickTarget.

(** X18. [pick_target] returns an enemy of the list that is not dead, and
    it returns [None] exactly when every enemy is dead.  It raises only an
    [IndexError], and only for a locked slot below [-len(enemies)] while
    some enemy is alive; with no lock or a non-negative one it never
    raises. *)
Theorem pick_target_returns_alive_enemy (lock : option Z)
  (enemies : list Enemy.t) :
  (forall t, Main.pick_target lock enemies = Ok (Some t) ->
             In t enemies /\ Main.is_dead t = false)
  /\ (Main.pick_target lock enemies = Ok None <->
      forall e, In e enemies -> Main.is_dead e = true)
  /\ (forall x, Main.pick_target lock enemies = Raise x ->
        x = IndexError
        /\ (exists idx, lock = Some idx
                        /\ (idx < - Z.of_nat (length enemies))%Z)
        /\ exists e, In e enemies /\ Main.is_dead e = false)
  /\ (forall idx, lock = Some idx ->
        (idx < - Z.of_nat (length enemies))%Z ->
        (exists e, In e enemies /\ Main.is_dead e = false) ->
        Main.pick_target lock enemies = Raise IndexError).
Proof.
  split; [apply pick_target_alive|].
  destruct (pick_target_cases lock enemies)
    as [[Ea Hp]|(a & rest & Ea & Hcase)].
  - split; [split; [intros _; apply alive_nil, Ea|intros _; exact Hp]|].
    split; [intros x Hx; rewrite Hp in Hx; discriminate Hx|].
    intros idx _ _ (e & He & Hd).
    rewrite (proj1 (alive_nil enemies) Ea e He) in Hd. discriminate Hd.
  - assert (Ha : In a enemies /\ Main.is_dead a = false).
    { apply alive_spec. rewrite Ea. left. reflexivity. }
    assert (Hnot : ~ forall e, In e enemies -> Main.is_dead e = true).
    { intros Hall. destruct Ha as [Hin Hd]. rewrite (Hall a Hin) in Hd.
      discriminate Hd. }
    destruct Hcase as [Hl|[Hr|[Hp Hwhy]]].
    + destruct Hl as (idx & t & -> & Hlt & Hi & Hd & Hp).
      split; [split; [rewrite Hp; discriminate|intros Hall; contradiction]|].
      split; [intros x Hx; rewrite Hp in Hx; discriminate Hx|].
      intros idx' Hidx Hlow _.
      assert (E : idx' = idx) by congruence. subst idx'.
      rewrite (list_index_below enemies idx Hlow) in Hi. discriminate Hi.
    + destruct Hr as (idx & -> & Hlow & Hp).
      split; [split; [rewrite Hp; discriminate|intros Hall; contradiction]|].
      split; [|intros; exact Hp].
      intros x Hx. rewrite Hp in Hx. injection Hx as <-.
      split; [reflexivity|]. split; [eauto|]. exists a. exact Ha.
    + split; [split; [rewrite Hp; discriminate|intros Hall; contradiction]|].
      split; [intros x Hx; rewrite Hp in Hx; discriminate Hx|].
      intros idx Hidx Hlow _.
      destruct Hwhy as [Hn|[(i & Hi & Hge)|(i & t & Hi & Hli & _)]].
      * rewrite Hn in Hidx. discriminate Hidx.
      * assert (E : i = idx) by congruence. subst i. lia.
      * assert (E : i = idx) by congruence. subst i.
        rewrite (list_index_below enemies idx Hlow) in Hli. discriminate Hli.
Qed.

Lemma pick_target_returns_alive_enemy_witness :
  Main.pick_target None enemies_sample = Ok (Some enemy_ahri_low)
  /\ In enemy_ahri_low enemies_sample
  /\ Main.is_dead enemy_ahri_low = false.
Proof.
  assert (H : Main.pick_target None enemies_sample = Ok (Some enemy_ahri_low))
    by (vm_compute; reflexivity).
  split; [exact H|].
  exact (proj1 (pick_target_returns_alive_enemy None enemies_sample)
           enemy_ahri_low H).
Defined.

(** X19. Whom [pick_target] picks.  A locked slot that holds an enemy who is
    not dead is returned whatever the health of the others.  Otherwise (no
    lock, a slot past the end of the list, or a dead enemy in the slot) the
    result is the first of the alive enemies with the least health key
    [hp_percent or 1.0]: every alive enemy before it has a strictly larger
    key, every one after it a key at least as large.  An enemy with no
    [hp_percent], or with an [hp_percent] of 0, has the key of full
    health. *)
Theorem pick_target_lock_then_lowest (lock : option Z)
  (enemies : list Enemy.t) :
  (forall idx t,
      lock = Some idx -> (0 <= idx)%Z ->
      enemies !! Z.to_nat idx = Some t -> Main.is_dead t = false ->
      Main.pick_target lock enemies = Ok (Some t))
  /\ (auto_mode lock enemies ->
      forall t, Main.pick_target lock enemies = Ok (Some t) ->
      exists before after,
        alive enemies = (before ++ t :: after)%list
        /\ (forall e, In e before -> Main.hp_key t < Main.hp_key e)
        /\ (forall e, In e after -> Main.hp_key t <= Main.hp_key e))
  /\ (forall e,
        Enemy.hp_percent e = None
        \/ (exists p, Enemy.hp_percent e = Some p /\ p == 0) ->
        Main.hp_key e = 1).
Proof.
  split; [|split].
  - intros idx t -> H0 Hl Hd.
    pose proof (list_index_nonneg _ _ _ H0 Hl) as Hi.
    destruct (pick_target_cases (Some idx) enemies)
      as [[Ea _]|(a & rest & Ea & [Hc|[Hc|[_ Hc]]])].
    + assert (Hin : In t enemies).
      { apply list_elem_of_In. eapply list_elem_of_lookup_2. exact Hl. }
      rewrite (proj1 (alive_nil enemies) Ea t Hin) in Hd. discriminate Hd.
    + destruct Hc as (i & t' & Hi' & _ & Hli & _ & Hp).
      assert (E : i = idx) by congruence. subst i.
      assert (E : t' = t) by congruence. subst t'. exact Hp.
    + destruct Hc as (i & Hi' & Hlow & _).
      assert (E : i = idx) by congruence. subst i. lia.
    + destruct Hc as [Hn|[(i & Hi' & Hge)|(i & t' & Hi' & Hli & Hdead)]].
      * discriminate Hn.
      * assert (E : i = idx) by congruence. subst i.
        apply lookup_lt_Some in Hl. lia.
      * assert (E : i = idx) by congruence. subst i.
        assert (E : t' = t) by congruence. subst t'.
        rewrite Hd in Hdead. discriminate Hdead.
  - intros Hauto t Hp.
    destruct (pick_target_cases lock enemies)
      as [[_ Hn]|(a & rest & Ea & [Hc|[Hc|[Hm _]]])].
    + rewrite Hn in Hp. discriminate Hp.
    + destruct Hc as (i & t' & Hi & _ & Hli & Hd & _).
      rewrite (auto_mode_not_locked _ _ _ _ Hauto Hi Hli) in Hd.
      discriminate Hd.
    + destruct Hc as (i & _ & _ & Hr). rewrite Hr in Hp. discriminate Hp.
    + rewrite Hm in Hp. injection Hp as <-. rewrite Ea.
      apply min_by_hp_first_least.
  - intros e [Hn|(p & Hs & Hz)]; unfold Main.hp_key; rewrite ?Hn, ?Hs;
      [reflexivity|].
    apply truthy_false in Hz. rewrite Hz. reflexivity.
Qed.

Lemma pick_target_lock_then_lowest_witness :
  ((0 <= 1)%Z /\ enemies_sample !! Z.to_nat 1 = Some enemy_darius_hurt
   /\ Main.is_dead enemy_darius_hurt = false)
  /\ Main.pick_target (Some 1%Z) enemies_sample = Ok (Some enemy_darius_hurt)
  /\ auto_mode (Some 0%Z) enemies_sample
  /\ Main.pick_target (Some 0%Z) enemies_sample = Ok (Some enemy_ahri_low)
  /\ exists before after,
       alive enemies_sample = (before ++ enemy_ahri_low :: after)%list
       /\ (forall e, In e before
                     -> Main.hp_key enemy_ahri_low < Main.hp_key e)
       /\ (forall e, In e after
                     -> Main.hp_key enemy_ahri_low <= Main.hp_key e).
Proof.
  assert (H1 : enemies_sample !! Z.to_nat 1 = Some enemy_darius_hurt)
    by reflexivity.
  assert (H2 : Main.is_dead enemy_darius_hurt = false) by reflexivity.
  assert (H3 : auto_mode (Some 0%Z) enemies_sample).
  { right. split; [lia|]. exists enemy_dead. split; reflexivity. }
  assert (H4 : Main.pick_target (Some 0%Z) enemies_sample
               = Ok (Some enemy_ahri_low)) by (vm_compute; reflexivity).
  split; [repeat split; (lia || reflexivity)|].
  split.
  { apply (proj1 (pick_target_lock_then_lowest (Some 1%Z) enemies_sample)
             1%Z enemy_darius_hurt eq_refl); [lia|exact H1|exact H2]. }
  split; [exact H3|]. split; [exact H4|].
  exact (proj1 (proj2 (pick_target_lock_then_lowest (Some 0%Z) enemies_sample))
           H3 enemy_ahri_low H4).
Defined.

(** ** The panel reading and the cache of last known health ([main.py]) *)

Section InjectPanel.
Import Main.

Lemma set_hp_percent_same (t : Enemy.t) (p : Q) :
  same_but_hp t (set_hp_percent t p)
  /\ Enemy.hp_percent (set_hp_percent t p) = Some p
  /\ Enemy.hp_max_real (set_hp_percent t p) = Enemy.hp_max_real t.
Proof. repeat split. Qed.

Lemma set_hp_max_real_same (t : Enemy.t) (m : Q) :
  same_but_hp t (set_hp_max_real t m)
  /\ Enemy.hp_percent (set_hp_max_real t m) = Enemy.hp_percent t
  /\ Enemy.hp_max_real (set_hp_max_real t m) = Some m.
Proof. repeat split. Qed.

Lemma same_but_hp_refl (t : Enemy.t) : same_but_hp t t.
Proof. repeat split. Qed.

Lemma same_but_hp_trans (t1 t2 t3 : Enemy.t) :
  same_but_hp t1 t2 -> same_but_hp t2 t3 -> same_but_hp t1 t3.
Proof.
  intros (A1 & A2 & A3 & A4 & A5) (B1 & B2 & B3 & B4 & B5).
  repeat split; congruence.
Qed.

(** What the block does on an active panel. *)
Lemma inject_panel_active (panel : TargetPanel.panel) (t : Enemy.t)
  (cache : gmap string Q) :
  TargetPanel.panel_active panel = true ->
  exists t2,
    inject_panel (Some panel) (Some t) cache
    = (Some (t2, TargetPanel.hp_current panel),
       match TargetPanel.hp_percent panel with
       | Some p => <[champ_key t := p]> cache
       | None => cache
       end)
    /\ same_but_hp t t2
    /\ Enemy.hp_percent t2
       = match TargetPanel.hp_percent panel with
         | Some p => Some p
         | None => Enemy.hp_percent t
         end
    /\ Enemy.hp_max_real t2
       = match TargetPanel.hp_max panel with
         | Some m => Some (inject_Z m)
         | None => Enemy.hp_max_real t
         end.
Proof.
  intros Hact. unfold inject_panel, champ_key.
  cbn [from_option mbind option_bind]. rewrite Hact.
  destruct (TargetPanel.hp_percent panel) as [p|];
    destruct (TargetPanel.hp_max panel) as [m|];
    eexists; (split; [reflexivity|]); repeat split.
Qed.

(** What the block does without an active panel. *)
Lemma inject_panel_inactive (panel : option TargetPanel.panel) (t : Enemy.t)
  (cache : gmap string Q) :
  from_option TargetPanel.panel_active false panel = false ->
  exists t2,
    inject_panel panel (Some t) cache = (Some (t2, None), cache)
    /\ same_but_hp t t2
    /\ Enemy.hp_percent t2
       = match cache !! champ_key t with
         | Some p => Some p
         | None => Enemy.hp_percent t
         end
    /\ Enemy.hp_max_real t2 = Enemy.hp_max_real t.
Proof.
  intros Hact. unfold inject_panel, champ_key. rewrite Hact.
  destruct (cache !! default "" (Enemy.champion t)) as [p|];
    eexists; (split; [reflexivity|]); repeat split.
Qed.

Lemma inject_panel_same (panel : option TargetPanel.panel) (t t2 : Enemy.t)
  (extra : option Z) (cache cache' : gmap string Q) :
  inject_panel panel (Some t) cache = (Some (t2, extra), cache') ->
  same_but_hp t t2.
Proof.
  intros H.
  destruct (from_option TargetPanel.panel_active false panel) eqn:Hact.
  - destruct panel as [panel|]; [|discriminate Hact]. cbn [from_option] in Hact.
    destruct (inject_panel_active panel t cache Hact) as (t' & E & Hs & _).
    rewrite E in H. injection H as <- _ _. exact Hs.
  - destruct (inject_panel_inactive panel t cache Hact) as (t' & E & Hs & _).
    rewrite E in H. injection H as <- _ _. exact Hs.
Qed.

(** The panel of an accepted HP pair. *)
Lemma read_target_panel_active (ocr_ready : bool)
  (hp_ocr mp_ocr : option string) :
  TargetPanel.panel_active
    (TargetPanel.read_target_panel ocr_ready hp_ocr mp_ocr) = true ->
  exists cur mx,
    TargetPanel.hp_current
      (TargetPanel.read_target_panel ocr_ready hp_ocr mp_ocr) = Some cur
    /\ TargetPanel.hp_max
         (TargetPanel.read_target_panel ocr_ready hp_ocr mp_ocr) = Some mx
    /\ TargetPanel.hp_percent
         (TargetPanel.read_target_panel ocr_ready hp_ocr mp_ocr)
       = Some (inject_Z cur / inject_Z mx)
    /\ (100 <= mx <= 8000)%Z /\ (0 <= cur <= mx)%Z.
Proof.
  unfold TargetPanel.read_target_panel.
  destruct ocr_ready; cbn [negb]; [|discriminate].
  destruct hp_ocr as [hp_text|]; [|discriminate].
  destruct (TargetPanel._ocr_pair hp_text TargetPanel._MAX_PLAUSIBLE_HP)
    as [[cur mx]|] eqn:Ehp.
  - destruct (_ocr_pair_sound _ _ _ _ Ehp) as (S1 & S2 & S3 & S4).
    change TargetPanel._MAX_PLAUSIBLE_HP with 8000%Z in S2.
    intros _. exists cur, mx.
    destruct mp_ocr as [mp_text|];
      [destruct (TargetPanel._ocr_pair mp_text TargetPanel._MAX_PLAUSIBLE_MANA)
         as [[mc mm]|]|];
      cbn [TargetPanel.hp_current TargetPanel.hp_max TargetPanel.hp_percent];
      repeat split; lia.
  - destruct mp_ocr as [mp_text|];
      [destruct (TargetPanel._ocr_pair mp_text TargetPanel._MAX_PLAUSIBLE_MANA)
         as [[mc mm]|]|];
      cbn [TargetPanel.panel_active TargetPanel.no_panel]; discriminate.
Qed.

Lemma ratio_zero_or_pos (cur mx : Z) :
  (0 <= cur <= mx)%Z -> (0 < mx)%Z ->
  clamp_hp_pct (Some (inject_Z cur / inject_Z mx))
  = if (cur =? 0)%Z then 1 else inject_Z cur / inject_Z mx.
Proof.
  intros Hc Hm.
  destruct (ratio_in_unit cur mx) as [H0 H1]; [lia|lia|lia|].
  destruct (cur =? 0)%Z eqn:E.
  - apply clamp_hp_pct_invalid. left.
    assert (cur = 0%Z) by lia. subst cur.
    unfold Qdiv. change (inject_Z 0) with 0. lra.
  - apply clamp_hp_pct_valid; [|exact H1].
    assert (Hcq : 0 < inject_Z cur)
      by (change 0 with (inject_Z 0); rewrite <- Zlt_Qlt; lia).
    assert (Hmq : 0 < inject_Z mx)
      by (change 0 with (inject_Z 0); rewrite <- Zlt_Qlt; lia).
    apply Qlt_shift_div_l; [exact Hmq|]. lra.
Qed.

End InjectPanel.

(** X20. The cache of last known health round-trips.  A tick with an active
    panel that read a fraction [p] gives the target that fraction and stores
    it under the target's champion, leaving every other entry as it was; a
    later tick with no active panel gives a target of the same champion the
    stored [p], whatever fraction the live data held for it, and leaves the
    cache as it is. *)
Theorem last_known_hp_round_trip (panel : TargetPanel.panel) (t : Enemy.t)
  (cache : gmap string Q) (p : Q) :
  TargetPanel.panel_active panel = true ->
  TargetPanel.hp_percent panel = Some p ->
  exists t1 cache1,
    Main.inject_panel (Some panel) (Some t) cache
    = (Some (t1, TargetPanel.hp_current panel), cache1)
    /\ Enemy.hp_percent t1 = Some p
    /\ cache1 !! champ_key t = Some p
    /\ (forall k, k <> champ_key t -> cache1 !! k = cache !! k)
    /\ forall panel' t',
         from_option TargetPanel.panel_active false panel' = false ->
         champ_key t' = champ_key t ->
         exists t2,
           Main.inject_panel panel' (Some t') cache1
           = (Some (t2, None), cache1)
           /\ Enemy.hp_percent t2 = Some p
           /\ same_but_hp t' t2.
Proof.
  intros Hact Hp.
  destruct (inject_panel_active panel t cache Hact) as (t1 & E & _ & Hpct & _).
  rewrite Hp in E, Hpct.
  exists t1, (<[champ_key t := p]> cache).
  split; [exact E|]. split; [exact Hpct|].
  split; [apply lookup_insert_eq|].
  split; [intros k Hk; apply lookup_insert_ne; congruence|].
  intros panel' t' Hin Hkey.
  destruct (inject_panel_inactive panel' t' (<[champ_key t := p]> cache) Hin)
    as (t2 & E2 & Hs & Hpct2 & _).
  exists t2. split; [exact E2|]. split; [|exact Hs].
  rewrite Hpct2, Hkey, lookup_insert_eq. reflexivity.
Qed.

Lemma last_known_hp_round_trip_witness :
  (TargetPanel.panel_active panel_sample = true
   /\ TargetPanel.hp_percent panel_sample = Some (inject_Z 512 / inject_Z 1850))
  /\ exists t1 cache1,
       Main.inject_panel (Some panel_sample) (Some enemy_darius) ∅
       = (Some (t1, TargetPanel.hp_current panel_sample), cache1)
       /\ cache1 !! champ_key enemy_darius
          = Some (inject_Z 512 / inject_Z 1850).
Proof.
  assert (H1 : TargetPanel.panel_active panel_sample = true)
    by (vm_compute; reflexivity).
  assert (H2 : TargetPanel.hp_percent panel_sample
               = Some (inject_Z 512 / inject_Z 1850))
    by (vm_compute; reflexivity).
  split; [split; assumption|].
  destruct (last_known_hp_round_trip panel_sample enemy_darius ∅ _ H1 H2)
    as (t1 & cache1 & E & _ & Hc & _).
  exists t1, cache1. split; assumption.
Defined.

(** X21. What the injection block never does.  It never removes an entry of
    the cache and never changes the entry of another champion than the
    target's; it changes the cache only on an active panel; it changes no
    field of the target but [hp_percent] and [hp_max_real] (and the unread
    [hp_current]): champion, level, items, death flag and summoners are kept;
    and with no target nothing happens. *)
Theorem inject_panel_keeps (panel : option TargetPanel.panel)
  (target : option Enemy.t) (cache : gmap string Q) :
  (forall k, is_Some (cache !! k) ->
             is_Some ((Main.inject_panel panel target cache).2 !! k))
  /\ (forall t k, target = Some t -> k <> champ_key t ->
        (Main.inject_panel panel target cache).2 !! k = cache !! k)
  /\ (from_option TargetPanel.panel_active false panel = false ->
      (Main.inject_panel panel target cache).2 = cache)
  /\ (forall t, target = Some t ->
        exists t2 extra,
          (Main.inject_panel panel target cache).1 = Some (t2, extra)
          /\ same_but_hp t t2)
  /\ (target = None -> Main.inject_panel panel target cache = (None, cache)).
Proof.
  destruct target as [t|].
  2:{ repeat split; try discriminate; intros; assumption. }
  destruct (from_option TargetPanel.panel_active false panel) eqn:Hact.
  - destruct panel as [panel|]; [|discriminate Hact]. cbn [from_option] in Hact.
    destruct (inject_panel_active panel t cache Hact) as (t2 & E & Hs & _).
    rewrite E. cbn [fst snd].
    split; [|split; [|split; [discriminate|split; [|discriminate]]]].
    + intros k Hk. destruct (TargetPanel.hp_percent panel) as [p|]; [|exact Hk].
      destruct (decide (k = champ_key t)) as [->|Hne].
      * rewrite lookup_insert_eq. eauto.
      * rewrite lookup_insert_ne by congruence. exact Hk.
    + intros t' k Ht Hk. injection Ht as <-.
      destruct (TargetPanel.hp_percent panel) as [p|]; [|reflexivity].
      apply lookup_insert_ne. congruence.
    + intros t' Ht. injection Ht as <-. eauto.
  - destruct (inject_panel_inactive panel t cache Hact) as (t2 & E & Hs & _).
    rewrite E. cbn [fst snd].
    split; [intros k Hk; exact Hk|].
    split; [reflexivity|]. split; [reflexivity|].
    split; [|discriminate].
    intros t' Ht. injection Ht as <-. eauto.
Qed.

Lemma inject_panel_keeps_witness :
  is_Some (({[ "Ahri" := 0.35 ]} : gmap string Q) !! "Ahri")
  /\ is_Some ((Main.inject_panel (Some panel_sample) (Some enemy_darius)
                 {[ "Ahri" := 0.35 ]}).2 !! "Ahri").
Proof.
  assert (H : is_Some (({[ "Ahri" := 0.35 ]} : gmap string Q) !! "Ahri"))
    by (exists 0.35; vm_compute; reflexivity).
  split; [exact H|].
  exact (proj1 (inject_panel_keeps (Some panel_sample) (Some enemy_darius)
                  {[ "Ahri" := 0.35 ]}) "Ahri" H).
Defined.

(** X22. The target that [main_loop] evaluates is never reported dead.
    When [pick_target] returns a target and the panel block has injected
    its reading, the call of [calculate_kill_chance] on the result (with the
    target's [hp_percent], the attacker's [hp_percent] and no allies) never
    pauses with the reason ["Enemy is dead"]. *)
Theorem picked_target_never_reported_dead (lock : option Z)
  (enemies : list Enemy.t) (panel : option TargetPanel.panel)
  (cache cache' : gmap string Q) (t t2 : Enemy.t) (extra : option Z)
  (my_state : Me.t) (game_time : Q) (r : KillCalc.KillCalcResult) :
  Main.pick_target lock enemies = Ok (Some t) ->
  Main.inject_panel panel (Some t) cache = (Some (t2, extra), cache') ->
  KillCalc.calculate_kill_chance my_state t2 (Enemy.hp_percent t2)
    (Me.hp_percent my_state) 0 game_time = Ok r ->
  KillCalc.pause_reason r <> "Enemy is dead".
Proof.
  intros Hpick Hinj Hcall.
  destruct (pick_target_alive _ _ _ Hpick) as [_ Halive].
  destruct (inject_panel_same _ _ _ _ _ _ Hinj) as (_ & _ & _ & Hdead & _).
  unfold Main.is_dead in Halive. rewrite Hdead in Halive.
  destruct (auto_pause_cases
              (KillCalc.resolve_my_hp my_state (Me.hp_percent my_state))
              (default false (Enemy.is_dead t2)) game_time)
    as [[_ Hp]|[(_ & _ & Hp)|[(_ & _ & Hd & _)|[(_ & _ & _ & _ & Hp)
        |(_ & _ & _ & _ & Hp)]]]].
  - rewrite (call_paused _ _ _ _ _ _ _ Hp) in Hcall. injection Hcall as <-.
    cbn. discriminate.
  - rewrite (call_paused _ _ _ _ _ _ _ Hp) in Hcall. injection Hcall as <-.
    cbn. discriminate.
  - rewrite Halive in Hd. discriminate Hd.
  - rewrite (call_paused _ _ _ _ _ _ _ Hp) in Hcall. injection Hcall as <-.
    cbn. discriminate.
  - destruct (call_not_paused _ _ _ _ _ _ _ Hp Hcall) as [_ ->]. discriminate.
Qed.

Lemma picked_target_never_reported_dead_witness :
  exists t2 r,
    Main.pick_target (Some 0%Z) enemies_sample = Ok (Some enemy_ahri_low)
    /\ Main.inject_panel (Some panel_sample) (Some enemy_ahri_low) ∅
       = (Some (t2, Some 512%Z),
          {[ "Ahri" := inject_Z 512 / inject_Z 1850 ]})
    /\ KillCalc.calculate_kill_chance me_khazix t2 (Enemy.hp_percent t2)
         (Me.hp_percent me_khazix) 0 600 = Ok r
    /\ KillCalc.pause_reason r <> "Enemy is dead".
Proof.
  match eval vm_compute in
        (Main.inject_panel (Some panel_sample) (Some enemy_ahri_low) ∅) with
  | (Some (?t2, _), _) =>
      match eval vm_compute in
            (KillCalc.calculate_kill_chance me_khazix t2 (Enemy.hp_percent t2)
               (Me.hp_percent me_khazix) 0 600) with
      | Ok ?r =>
          exists t2, r;
          assert (H1 : Main.pick_target (Some 0%Z) enemies_sample
                       = Ok (Some enemy_ahri_low)) by (vm_compute; reflexivity);
          assert (H2 : Main.inject_panel (Some panel_sample)
                         (Some enemy_ahri_low) ∅
                       = (Some (t2, Some 512%Z),
                          {[ "Ahri" := inject_Z 512 / inject_Z 1850 ]}))
            by (vm_compute; reflexivity);
          assert (H3 : KillCalc.calculate_kill_chance me_khazix t2
                         (Enemy.hp_percent t2) (Me.hp_percent me_khazix) 0 600
                       = Ok r) by (vm_compute; reflexivity);
          split; [exact H1|]; split; [exact H2|]; split; [exact H3|];
          exact (picked_target_never_reported_dead _ _ _ _ _ _ _ _ _ _ _
                   H1 H2 H3)
      end
  end.
Defined.

(** X23. From the panel to the calculator.  When [read_target_panel]
    reports an active panel with the pair [(cur, max)], the injection block
    gives the target [hp_percent = cur / max] and [hp_max_real = max] and
    caches the fraction, and [_build_enemy_stats] on that target evaluates
    it at the fraction [cur / max] when [cur > 0], but at full health (1.0)
    when the panel read a current HP of 0. *)
Theorem panel_reading_reaches_calculator (ocr_ready : bool)
  (hp_ocr mp_ocr : option string) (t : Enemy.t) (cache : gmap string Q) :
  TargetPanel.panel_active
    (TargetPanel.read_target_panel ocr_ready hp_ocr mp_ocr) = true ->
  exists cur mx t2 cache' es,
    Main.inject_panel
      (Some (TargetPanel.read_target_panel ocr_ready hp_ocr mp_ocr))
      (Some t) cache
    = (Some (t2, Some cur), cache')
    /\ (0 <= cur <= mx)%Z /\ (100 <= mx <= 8000)%Z
    /\ Enemy.hp_percent t2 = Some (inject_Z cur / inject_Z mx)
    /\ Enemy.hp_max_real t2 = Some (inject_Z mx)
    /\ cache' !! champ_key t = Some (inject_Z cur / inject_Z mx)
    /\ KillCalc._build_enemy_stats t2 (Enemy.hp_percent t2) = Ok es
    /\ KillCalc.hp_percent es
       = (if (cur =? 0)%Z then 1 else inject_Z cur / inject_Z mx)
    /\ KillCalc.current_hp es = KillCalc.max_hp es * KillCalc.hp_percent es.
Proof.
  intros Hact.
  destruct (read_target_panel_active _ _ _ Hact)
    as (cur & mx & Hcur & Hmx & Hpct & Bm & Bc).
  destruct (inject_panel_active _ t cache Hact) as (t2 & E & _ & Hp2 & Hm2).
  rewrite Hcur, Hpct in E. rewrite Hpct in Hp2. rewrite Hmx in Hm2.
  destruct (build_enemy_stats_hp t2 (Enemy.hp_percent t2))
    as (es & Hes & Hclamp & Hcurhp).
  exists cur, mx, t2, (<[champ_key t := inject_Z cur / inject_Z mx]> cache), es.
  split; [exact E|]. split; [exact Bc|]. split; [exact Bm|].
  split; [exact Hp2|]. split; [exact Hm2|].
  split; [apply lookup_insert_eq|]. split; [exact Hes|].
  split; [|exact Hcurhp].
  rewrite Hclamp, Hp2. apply ratio_zero_or_pos; lia.
Qed.

Lemma panel_reading_reaches_calculator_witness :
  TargetPanel.panel_active
    (TargetPanel.read_target_panel true (Some "0 / 1850") None) = true
  /\ exists t2 cache' es,
       Main.inject_panel
         (Some (TargetPanel.read_target_panel true (Some "0 / 1850") None))
         (Some enemy_darius) ∅
       = (Some (t2, Some 0%Z), cache')
       /\ KillCalc._build_enemy_stats t2 (Enemy.hp_percent t2) = Ok es
       /\ KillCalc.hp_percent es = 1.
Proof.
  assert (H : TargetPanel.panel_active
                (TargetPanel.read_target_panel true (Some "0 / 1850") None)
              = true) by (vm_compute; reflexivity).
  split; [exact H|].
  destruct (panel_reading_reaches_calculator true (Some "0 / 1850") None
              enemy_darius ∅ H)
    as (cur & mx & t2 & cache' & es & E & _ & _ & _ & _ & _ & Hes & Hpct & _).
  assert (Hc : cur = 0%Z).
  { vm_compute in E. injection E as _ Hc _. symmetry. exact Hc. }
  subst cur. exists t2, cache', es.
  split; [exact E|]. split; [exact Hes|exact Hpct].
Defined.

(** ** The enemies of a tick ([modules/live_client.py], [main.py]) *)

Section EnemiesState.
Import Main.

Lemma get_enemies_state_fresh (all_players : option (list LiveClient.player))
  (my_team : string) (e : Enemy.t) :
  In e (LiveClient.get_enemies_state all_players my_team) ->
  Enemy.hp_percent e = None /\ Enemy.hp_max_real e = None.
Proof.
  unfold LiveClient.get_enemies_state.
  destruct all_players as [[|p l]|]; [intros []| |intros []].
  intros Hin. apply in_map_iff in Hin as (q & <- & _). split; reflexivity.
Qed.

Lemma min_by_hp_all_full (l : list Enemy.t) (best : Enemy.t) :
  hp_key best = 1 -> (forall e, In e l -> hp_key e = 1) ->
  min_by_hp best l = best.
Proof.
  intros Hb. induction l as [|e l IH]; intros Hl; [reflexivity|].
  cbn [min_by_hp]. rewrite (Hl e (or_introl eq_refl)), Hb.
  change (Qltb 1 1) with false. cbv iota.
  apply IH. intros x Hx. apply Hl. right. exact Hx.
Qed.

Lemma hp_key_fresh (e : Enemy.t) : Enemy.hp_percent e = None -> hp_key e = 1.
Proof. intros H. unfold hp_key. rewrite H. reflexivity. Qed.

End EnemiesState.

(** X24. In auto mode the target of a tick is the first enemy that is not
    dead, never the one of least health: [get_enemies_state] leaves
    [hp_percent] at [None] for every enemy, so that all health keys of
    [pick_target] are 1.0 and [min] returns the first alive enemy. *)
Theorem auto_target_is_first_alive
  (all_players : option (list LiveClient.player)) (my_team : string)
  (lock : option Z) :
  auto_mode lock (LiveClient.get_enemies_state all_players my_team) ->
  Main.pick_target lock (LiveClient.get_enemies_state all_players my_team)
  = Ok (head (alive (LiveClient.get_enemies_state all_players my_team))).
Proof.
  intros Hauto.
  set (enemies := LiveClient.get_enemies_state all_players my_team) in *.
  destruct (pick_target_cases lock enemies)
    as [[Ea Hp]|(a & rest & Ea & [Hc|[Hc|[Hp _]]])].
  - rewrite Hp, Ea. reflexivity.
  - destruct Hc as (i & t & Hi & _ & Hli & Hd & _).
    rewrite (auto_mode_not_locked _ _ _ _ Hauto Hi Hli) in Hd. discriminate Hd.
  - destruct Hc as (i & Hi & Hlow & _). rewrite Hi in Hauto.
    cbn [auto_mode] in Hauto. destruct Hauto as [Hge|[H0 _]]; lia.
  - rewrite Hp, Ea. cbn [head]. do 2 f_equal.
    assert (Hkey : forall e, In e (a :: rest) -> Main.hp_key e = 1).
    { intros e He. rewrite <- Ea in He. apply alive_spec in He as [He _].
      apply hp_key_fresh.
      exact (proj1 (get_enemies_state_fresh all_players my_team e He)). }
    apply min_by_hp_all_full.
    + apply Hkey. left. reflexivity.
    + intros e He. apply Hkey. right. exact He.
Qed.

Lemma auto_target_is_first_alive_witness :
  auto_mode None (LiveClient.get_enemies_state (Some players_sample) "ORDER")
  /\ Main.pick_target None
       (LiveClient.get_enemies_state (Some players_sample) "ORDER")
     = Ok (head (alive (LiveClient.get_enemies_state (Some players_sample)
                          "ORDER")))
  /\ head (alive (LiveClient.get_enemies_state (Some players_sample) "ORDER"))
     = Some (Enemy.mk (Some "Ahri") (Some 9%Z) (Some []) None None (Some false)
               (Some ["SummonerFlash"; ""])).
Proof.
  assert (H : auto_mode None
                (LiveClient.get_enemies_state (Some players_sample) "ORDER"))
    by exact I.
  split; [exact H|]. split; [|vm_compute; reflexivity].
  exact (auto_target_is_first_alive (Some players_sample) "ORDER" None H).
Defined.

(** X25. A target that was never seen in the panel is evaluated at full
    health.  For an enemy of [get_enemies_state], a tick with no active
    panel and no cached fraction for its champion leaves the target and the
    cache as they are, and [_build_enemy_stats] on the target's own
    [hp_percent] returns the fraction 1.0, with the current HP equal to the
    maximum. *)
Theorem unseen_target_at_full_health
  (all_players : option (list LiveClient.player)) (my_team : string)
  (panel : option TargetPanel.panel) (t : Enemy.t) (cache : gmap string Q) :
  In t (LiveClient.get_enemies_state all_players my_team) ->
  from_option TargetPanel.panel_active false panel = false ->
  cache !! champ_key t = None ->
  exists es,
    Main.inject_panel panel (Some t) cache = (Some (t, None), cache)
    /\ KillCalc._build_enemy_stats t (Enemy.hp_percent t) = Ok es
    /\ KillCalc.hp_percent es = 1
    /\ KillCalc.current_hp es == KillCalc.max_hp es.
Proof.
  intros Hin Hact Hmiss.
  destruct (get_enemies_state_fresh _ _ _ Hin) as [Hpct _].
  destruct (build_enemy_stats_hp t (Enemy.hp_percent t))
    as (es & Hes & Hclamp & Hcur).
  rewrite Hpct in Hclamp. cbn [clamp_hp_pct] in Hclamp.
  exists es. split.
  { unfold Main.inject_panel. rewrite Hact. unfold champ_key in Hmiss.
    rewrite Hmiss. reflexivity. }
  split; [exact Hes|]. split; [exact Hclamp|].
  rewrite Hcur, Hclamp. lra.
Qed.

Lemma unseen_target_at_full_health_witness :
  exists t es,
    (In t (LiveClient.get_enemies_state (Some players_sample) "ORDER")
     /\ from_option TargetPanel.panel_active false (Some TargetPanel.no_panel)
        = false
     /\ (∅ : gmap string Q) !! champ_key t = None)
    /\ Main.inject_panel (Some TargetPanel.no_panel) (Some t) ∅
       = (Some (t, None), ∅)
    /\ KillCalc._build_enemy_stats t (Enemy.hp_percent t) = Ok es
    /\ KillCalc.hp_percent es = 1.
Proof.
  match eval vm_compute in
        (LiveClient.get_enemies_state (Some players_sample) "ORDER") with
  | [_; ?t] =>
      assert (H1 : In t (LiveClient.get_enemies_state (Some players_sample)
                           "ORDER"))
        by (vm_compute; right; left; reflexivity);
      assert (H2 : from_option TargetPanel.panel_active false
                     (Some TargetPanel.no_panel) = false) by reflexivity;
      assert (H3 : (∅ : gmap string Q) !! champ_key t = None)
        by (vm_compute; reflexivity);
      destruct (unseen_target_at_full_health (Some players_sample) "ORDER"
                  (Some TargetPanel.no_panel) t ∅ H1 H2 H3)
        as (es & E1 & E2 & E3 & _);
      exists t, es; repeat split; assumption
  end.
Defined.
